(** * SurflineFetcher: a shallow embedding and its verified properties

    The development follows the repository file by file:

    - [Py]        the Python values the code manipulates (decoded JSON, dicts
                  in insertion order, truthiness, [str] methods) and exceptions;
    - [Client]    the flatteners of [surfline_client.py];
    - [ApiClass]  the flatteners of [surfline_api_class.py];
    - [IO]        the observable world (files, directories, the two output
                  streams, sleeps, requests sent) and the CSV writers;
    - [Datetime]  calendar dates as [datetime.date] has them;
    - [Http]      [SurflineAPI._get] and the endpoint methods;
    - [Harvest]   the day loop of [harvest_forecasts_for_range];
    - [Northside] the output path of [surfline_hb_northside.py];
    - [Analyze]   [analyze_history.py]: file-name parsing, the reading of the
                  forecast folder, the 24 h drift and the report of the
                  script.

    Conventions.  An exception is a value [Raise e] of [result].  The network
    is an arbitrary function from the requests sent so far to what the next
    request meets; the file system may refuse any path.  A dict is an
    association list in insertion order with [dict_set] the assignment
    [d[k] = v].  A string is a Latin-1 string, one byte per character (a
    header value always is); [Analyze.Unicode] gives the file-name parser on
    arbitrary code points, with the Unicode database as a parameter.  Floats
    are binary64.  Timestamps are integers (nanoseconds since the epoch) and
    dates are (year, month, day); the range limits of [datetime.MAXYEAR] and
    [pandas.Timestamp.max] are not modelled.  The limits of the interpreter
    (CPython 3.11) are: [int] refuses a string of more than 4300 digits, an
    int of 2^1024 - 2^970 or more does not convert to float, and
    [time.sleep] refuses an int delay above 9223372036 seconds.  Below that
    limit a platform may still refuse a large delay; this is not modelled,
    and the statements about completed sleeps keep to delays of at most
    4294967 seconds.  What pandas reads from one forecast file is a
    parameter of [read_forecast_folder]; the frame it builds has datetime
    and float columns, and [compute_24h_forecast_drift] is modelled on such
    frames.  The order of the rows that [pandas.merge] returns is modelled
    as left-major and no statement depends on it. *)

From Stdlib Require Import ZArith List Bool Lia Floats String Ascii DecimalString Uint63 Permutation.
Import ListNotations.
Set Warnings "-inexact-float,-register-all".
Open Scope Z_scope.
Open Scope string_scope.

(* ================================================================== *)
(** * Part I: the model *)
(* ================================================================== *)

Module Py.

Inductive exn :=
| AttributeError
| TypeError
| ValueError
| RuntimeError
| OverflowError
| OSError
| FileNotFoundError
| HTTPError (status : Z)
| ConnectionError.

Inductive result (A : Type) :=
| Ok (a : A)
| Raise (e : exn).
Arguments Ok {A} a.
Arguments Raise {A} e.

Definition bind {A B} (m : result A) (k : A -> result B) : result B :=
  match m with
  | Ok a => k a
  | Raise e => Raise e
  end.

Fixpoint mapM {A B} (f : A -> result B) (l : list A) : result (list B) :=
  match l with
  | [] => Ok []
  | a :: l' =>
      match f a with
      | Raise e => Raise e
      | Ok b => match mapM f l' with
                | Raise e => Raise e
                | Ok bs => Ok (b :: bs)
                end
      end
  end.

Inductive value :=
| VNone
| VBool (b : bool)
| VInt (z : Z)
| VFloat (f : float)
| VStr (s : string)
| VList (l : list value)
| VDict (kv : list (string * value)).

Definition dict := list (string * value).

Definition truthy (v : value) : bool :=
  match v with
  | VNone => false
  | VBool b => b
  | VInt z => negb (Z.eqb z 0)
  | VFloat f => negb (PrimFloat.eqb f 0%float)
  | VStr s => negb (String.eqb s "")
  | VList l => match l with [] => false | _ => true end
  | VDict kv => match kv with [] => false | _ => true end
  end.

Definition py_or (a b : value) : value := if truthy a then a else b.

Fixpoint dict_get (d : dict) (k : string) : option value :=
  match d with
  | [] => None
  | (k', v) :: d' => if String.eqb k k' then Some v else dict_get d' k
  end.

Fixpoint dict_set (d : dict) (k : string) (v : value) : dict :=
  match d with
  | [] => [(k, v)]
  | (k', v') :: d' =>
      if String.eqb k k' then (k', v) :: d' else (k', v') :: dict_set d' k v
  end.

Definition dict_update (d other : dict) : dict :=
  fold_left (fun acc kv => dict_set acc (fst kv) (snd kv)) other d.

Definition get (obj : value) (k : string) (default : value) : result value :=
  match obj with
  | VDict kv => Ok (match dict_get kv k with Some v => v | None => default end)
  | _ => Raise AttributeError
  end.

Definition is_dict (v : value) : bool :=
  match v with VDict _ => true | _ => false end.

Definition is_list (v : value) : bool :=
  match v with VList _ => true | _ => false end.

Definition chars (s : string) : list value :=
  map (fun c => VStr (String c EmptyString)) (list_ascii_of_string s).

Definition iter (v : value) : result (list value) :=
  match v with
  | VList l => Ok l
  | VStr s => Ok (chars s)
  | VDict kv => Ok (map (fun kv => VStr (fst kv)) kv)
  | _ => Raise TypeError
  end.

Definition enumerate_from (start : nat) (l : list value) : list (nat * value) :=
  combine (seq start (List.length l)) l.

Definition str_of_nat (n : nat) : string :=
  NilEmpty.string_of_uint (Nat.to_uint n).

Definition is_ascii_digit (c : ascii) : bool :=
  let n := nat_of_ascii c in (48 <=? n)%nat && (n <=? 57)%nat.

Definition is_superscript_digit (c : ascii) : bool :=
  let n := nat_of_ascii c in ((n =? 178) || (n =? 179) || (n =? 185))%nat.

(* str.isdigit *)
Definition isdigit (s : string) : bool :=
  negb (String.eqb s "")
  && forallb (fun c => is_ascii_digit c || is_superscript_digit c) (list_ascii_of_string s).

Definition digit_value (c : ascii) : Z := Z.of_nat (nat_of_ascii c) - 48.

(* sys.get_int_max_str_digits(): int() refuses a longer string of digits *)
Definition int_max_str_digits : nat := 4300.

(* int(s) on a string of digit characters *)
Definition int_of_digits (s : string) : result Z :=
  let cs := list_ascii_of_string s in
  if negb (String.eqb s "") && forallb is_ascii_digit cs
     && (List.length cs <=? int_max_str_digits)%nat
  then Ok (fold_left (fun acc c => 10 * acc + digit_value c) cs 0)
  else Raise ValueError.

End Py.

Import Py.

Notation "x <- m ;; k" := (bind m (fun x => k))
  (at level 61, m at next level, right associativity).

Module Client.

Definition _first_list_in_data (data : value) : result value :=
  match data with
  | VDict kv =>
      Ok (match find (fun e => is_list (snd e)) kv with
          | Some e => snd e
          | None => VList []
          end)
  | _ => Raise AttributeError
  end.

Definition is_simple (v : value) : bool :=
  match v with
  | VList _ | VDict _ => false
  | _ => true
  end.

Definition _flatten_simple_fields (obj : value) (prefix : string) : result dict :=
  match obj with
  | VDict kv =>
      Ok (fold_left
            (fun out e => if is_simple (snd e)
                          then dict_set out (prefix ++ fst e) (snd e)
                          else out)
            kv [])
  | _ => Raise AttributeError
  end.

(* a or b, where b is only evaluated when a is falsy *)
Definition or_else (a : value) (b : result value) : result value :=
  if truthy a then Ok a else b.

Definition payload_data (json_obj : value) : result value :=
  get (py_or json_obj (VDict [])) "data" (VDict []).

Module SurfCSV.
Definition flatten_point (point : value) : result dict :=
  ts <- get point "timestamp" VNone ;;
  let row := dict_set [] "timestamp" ts in
  sb <- get point "surf" VNone ;;
  let surf_block := py_or sb (VDict []) in
  row <- (if is_dict surf_block then
            mn <- get surf_block "min" VNone ;;
            mx <- get surf_block "max" VNone ;;
            hr <- get surf_block "humanRelation" VNone ;;
            Ok (dict_set (dict_set (dict_set row "surf_min" mn) "surf_max" mx)
                  "surf_humanRelation" hr)
          else Ok row) ;;
  simple <- _flatten_simple_fields point "" ;;
  Ok (dict_update row simple).

Definition flatten (json_obj : value) : result (list dict) :=
  data <- payload_data json_obj ;;
  s <- get data "surf" VNone ;;
  series <- or_else s (_first_list_in_data data) ;;
  points <- iter (py_or series (VList [])) ;;
  mapM flatten_point points.
End SurfCSV.

Module SwellsCSV.
Definition flatten_component (ts : value) (c : nat * value) : result dict :=
  let row := [("timestamp", ts); ("component_index", VInt (Z.of_nat (fst c)))] in
  simple <- _flatten_simple_fields (snd c) "swell_" ;;
  Ok (dict_update row simple).

Definition flatten_point (point : value) : result (list dict) :=
  ts <- get point "timestamp" VNone ;;
  sw <- get point "swells" VNone ;;
  let comps := py_or sw (VList []) in
  let comps := match comps with VList l => l | _ => [] end in
  mapM (flatten_component ts) (enumerate_from 1 comps).

Definition flatten (json_obj : value) : result (list dict) :=
  data <- payload_data json_obj ;;
  s <- get data "swells" VNone ;;
  series <- or_else s (_first_list_in_data data) ;;
  points <- iter (py_or series (VList [])) ;;
  rows <- mapM flatten_point points ;;
  Ok (List.concat rows).
End SwellsCSV.

Module RatingCSV.
Definition flatten_point (point : value) : result dict :=
  ts <- get point "timestamp" VNone ;;
  let row := dict_set [] "timestamp" ts in
  rating_val <- get point "rating" VNone ;;
  row <- (match rating_val with
          | VDict _ =>
              simple <- _flatten_simple_fields rating_val "rating_" ;;
              Ok (dict_update row simple)
          | VNone => Ok row
          | _ => Ok (dict_set row "rating_value" rating_val)
          end) ;;
  simple <- _flatten_simple_fields point "" ;;
  Ok (dict_update row simple).

Definition flatten (json_obj : value) : result (list dict) :=
  data <- payload_data json_obj ;;
  s1 <- get data "rating" VNone ;;
  series <- or_else s1 (s2 <- get data "ratings" VNone ;;
                        or_else s2 (_first_list_in_data data)) ;;
  points <- iter (py_or series (VList [])) ;;
  mapM flatten_point points.
End RatingCSV.

Module SpectraCSV.
Definition flatten_bin (ts : value) (c : nat * value) : result (list dict) :=
  if is_dict (snd c) then
    let row := [("timestamp", ts); ("bin_index", VInt (Z.of_nat (fst c)))] in
    simple <- _flatten_simple_fields (snd c) "bin_" ;;
    Ok [dict_update row simple]
  else Ok [].

Definition flatten_point (point : value) : result (list dict) :=
  if is_dict point then
    ts <- get point "timestamp" VNone ;;
    b1 <- get point "bins" VNone ;;
    bins <- or_else b1 (b2 <- get point "data" VNone ;; Ok (py_or b2 (VList []))) ;;
    match bins with
    | VList l =>
        rows <- mapM (flatten_bin ts) (enumerate_from 1 l) ;;
        Ok (List.concat rows)
    | _ => Ok []
    end
  else Ok [].

Definition flatten (json_obj : value) : result (list dict) :=
  data <- payload_data json_obj ;;
  if is_dict data then
    s <- get data "spectra" VNone ;;
    series <- or_else s (_first_list_in_data data) ;;
    match series with
    | VList points =>
        rows <- mapM flatten_point points ;;
        Ok (List.concat rows)
    | _ => Ok []
    end
  else Ok [].
End SpectraCSV.

Module SunlightCSV.
Definition flatten_point (point : value) : result dict :=
  ts <- get point "timestamp" VNone ;;
  let row := dict_set [] "timestamp" ts in
  simple <- _flatten_simple_fields point "" ;;
  Ok (dict_update row simple).

Definition flatten (json_obj : value) : result (list dict) :=
  data <- payload_data json_obj ;;
  s <- get data "sunlight" VNone ;;
  series <- or_else s (_first_list_in_data data) ;;
  points <- iter (py_or series (VList [])) ;;
  mapM flatten_point points.
End SunlightCSV.

Module WindCSV.
Definition flatten_point (point : value) : result dict :=
  ts <- get point "timestamp" VNone ;;
  let row := [("timestamp", ts)] in
  simple <- _flatten_simple_fields point "" ;;
  Ok (dict_update row simple).

Definition flatten (json_obj : value) : result (list dict) :=
  data <- payload_data json_obj ;;
  s1 <- get data "wind" VNone ;;
  series <- or_else s1 (s2 <- get data "windModel" VNone ;;
                        or_else s2 (_first_list_in_data data)) ;;
  points <- iter (py_or series (VList [])) ;;
  mapM flatten_point points.
End WindCSV.

Module TidesCSV.
Definition flatten_point (t : value) : result dict :=
  ts <- get t "timestamp" VNone ;;
  ty <- get t "type" VNone ;;
  h <- get t "height" VNone ;;
  let row := [("timestamp", ts); ("type", ty); ("height", h)] in
  simple <- _flatten_simple_fields t "" ;;
  Ok (dict_update row simple).

Definition flatten (json_obj : value) : result (list dict) :=
  data <- payload_data json_obj ;;
  s <- get data "tides" (VList []) ;;
  points <- iter (py_or s (VList [])) ;;
  mapM flatten_point points.
End TidesCSV.

Module RegionConditionsCSV.
Definition flatten_point (c : value) : result dict :=
  ts <- get c "timestamp" VNone ;;
  let row := [("timestamp", ts)] in
  simple <- _flatten_simple_fields c "" ;;
  let row := dict_update row simple in
  w <- get c "weather" VNone ;;
  let weather := py_or w (VDict []) in
  if is_dict weather then
    ws <- _flatten_simple_fields weather "weather_" ;;
    Ok (dict_update row ws)
  else Ok row.

Definition flatten (json_obj : value) : result (list dict) :=
  data <- payload_data json_obj ;;
  s <- get data "conditions" VNone ;;
  series <- or_else s (_first_list_in_data data) ;;
  points <- iter (py_or series (VList [])) ;;
  mapM flatten_point points.
End RegionConditionsCSV.

End Client.

Module ApiClass.

(* swells[:6] *)
Definition slice6 (v : value) : result value :=
  match v with
  | VList l => Ok (VList (firstn 6 l))
  | VStr s => Ok (VStr (substring 0 6 s))
  | _ => Raise TypeError
  end.

Module WaveCSV.
Definition swell_fields (row : dict) (c : nat * value) : result dict :=
  let idx := str_of_nat (fst c) in
  h <- get (snd c) "height" VNone ;;
  let row := dict_set row ("swell" ++ idx ++ "_height_m") h in
  p <- get (snd c) "period" VNone ;;
  let row := dict_set row ("swell" ++ idx ++ "_period_s") p in
  d <- get (snd c) "direction" VNone ;;
  Ok (dict_set row ("swell" ++ idx ++ "_direction_deg") d).

Fixpoint add_swells (row : dict) (cs : list (nat * value)) : result dict :=
  match cs with
  | [] => Ok row
  | c :: cs' => row' <- swell_fields row c ;; add_swells row' cs'
  end.

Definition flatten_point (point : value) : result dict :=
  ts <- get point "timestamp" VNone ;;
  s1 <- get point "surf" VNone ;;
  mn <- get (py_or s1 (VDict [])) "min" VNone ;;
  s2 <- get point "surf" VNone ;;
  mx <- get (py_or s2 (VDict [])) "max" VNone ;;
  let row := [("timestamp", ts); ("surf_min", mn); ("surf_max", mx)] in
  sw <- get point "swells" (VList []) ;;
  let swells := py_or sw (VList []) in
  first6 <- slice6 swells ;;
  comps <- iter first6 ;;
  add_swells row (enumerate_from 1 comps).

Definition flatten (json_obj : value) : result (list dict) :=
  data <- Client.payload_data json_obj ;;
  s1 <- get data "wave" VNone ;;
  series <- Client.or_else s1 (s2 <- get data "waveModel" VNone ;;
                               Ok (py_or s2 (VList []))) ;;
  points <- iter series ;;
  mapM flatten_point points.
End WaveCSV.

End ApiClass.

Module IO.

Inductive seconds :=
| IntSeconds (n : Z)
| FloatSeconds (f : float).

Inductive message :=
| MsgWarnNoRows (path : string)
| MsgWroteRows (n : nat) (path : string)
| MsgRateLimit (url : string) (attempt max_attempts : nat) (wait : seconds)
| MsgFetching (start_str : string) (days_ahead : Z)
| MsgFetchFailed (label start_str : string) (e : exn)
| MsgSleeping (s : float).

Record csv_file := mk_csv {
  header : list string;
  records : list (list (option value))
}.

Record request := mk_request {
  req_url : string;
  req_params : dict;
  req_attempt : nat
}.

Record world := mk_world {
  files : list (string * csv_file);
  dirs : list string;
  stdout : list message;
  stderr : list message;
  sleeps : list seconds;
  requests : list request
}.

Definition print_out (m : message) (w : world) : world :=
  mk_world (files w) (dirs w) (stdout w ++ [m]) (stderr w) (sleeps w) (requests w).

Definition print_err (m : message) (w : world) : world :=
  mk_world (files w) (dirs w) (stdout w) (stderr w ++ [m]) (sleeps w) (requests w).

Definition sleep (s : seconds) (w : world) : world :=
  mk_world (files w) (dirs w) (stdout w) (stderr w) (sleeps w ++ [s]) (requests w).

Definition log_request (r : request) (w : world) : world :=
  mk_world (files w) (dirs w) (stdout w) (stderr w) (sleeps w) (requests w ++ [r]).

Definition makedirs (folder : string) (w : world) : world :=
  if existsb (String.eqb folder) (dirs w) then w
  else mk_world (files w) (folder :: dirs w) (stdout w) (stderr w) (sleeps w) (requests w).

Definition is_slash (c : ascii) : bool := Ascii.eqb c "/"%char.

Fixpoint rstrip_slashes_rev (r : list ascii) : list ascii :=
  match r with
  | c :: r' => if is_slash c then rstrip_slashes_rev r' else r
  | [] => []
  end.

Fixpoint drop_until_slash (r : list ascii) : list ascii :=
  match r with
  | c :: r' => if is_slash c then r else drop_until_slash r'
  | [] => []
  end.

(* posixpath.dirname *)
Definition dirname (path : string) : string :=
  let head_rev := drop_until_slash (rev (list_ascii_of_string path)) in
  if forallb is_slash head_rev then string_of_list_ascii (rev head_rev)
  else string_of_list_ascii (rev (rstrip_slashes_rev head_rev)).

Fixpoint remove_file (path : string) (fs : list (string * csv_file)) :=
  match fs with
  | [] => []
  | (p, c) :: fs' =>
      if String.eqb p path then remove_file path fs' else (p, c) :: remove_file path fs'
  end.

Section FileSystem.
Variable io_fault : string -> bool.

(* open(path, "w") followed by the writes and the close *)
Definition write_file (path : string) (c : csv_file) (w : world) : world * result unit :=
  let folder := dirname path in
  if io_fault path
     || (negb (String.eqb folder "") && negb (existsb (String.eqb folder) (dirs w)))
  then (w, Raise OSError)
  else (mk_world ((path, c) :: remove_file path (files w)) (dirs w)
          (stdout w) (stderr w) (sleeps w) (requests w), Ok tt).

Definition add_new_keys (acc : list string) (r : dict) : list string :=
  fold_left (fun acc e => if existsb (String.eqb (fst e)) acc then acc else (acc ++ [fst e])%list)
    r acc.

Definition union_fieldnames (rows : list dict) : list string :=
  fold_left add_new_keys rows [].

Definition to_record (fieldnames : list string) (r : dict) : list (option value) :=
  map (dict_get r) fieldnames.

Definition render (rows : list dict) : csv_file :=
  let fieldnames := union_fieldnames rows in
  mk_csv fieldnames (map (to_record fieldnames) rows).

(* surfline_client._write_dict_rows *)
Definition _write_dict_rows (rows : list dict) (path : string) (w : world)
    : world * result unit :=
  match rows with
  | [] => (print_err (MsgWarnNoRows path) w, Ok tt)
  | _ :: _ =>
      let folder := dirname path in
      let w := if String.eqb folder "" then w else makedirs folder w in
      match write_file path (render rows) w with
      | (w', Ok _) => (print_out (MsgWroteRows (List.length rows) path) w', Ok tt)
      | (w', Raise e) => (w', Raise e)
      end
  end.

(* surfline_api_class.WaveCSV._write_dict_rows *)
Definition WaveCSV_write_dict_rows (rows : list dict) (path : string) (w : world)
    : world * result unit :=
  match rows with
  | [] => (print_err (MsgWarnNoRows path) w, Ok tt)
  | _ :: _ =>
      match write_file path (render rows) w with
      | (w', Ok _) => (print_out (MsgWroteRows (List.length rows) path) w', Ok tt)
      | (w', Raise e) => (w', Raise e)
      end
  end.

End FileSystem.
End IO.

Import IO.

Module Datetime.

Record date := mk_date { year : Z; month : Z; day : Z }.

Definition is_leap (y : Z) : bool :=
  (y mod 4 =? 0)%Z && (negb (y mod 100 =? 0)%Z || (y mod 400 =? 0)%Z).

Definition days_in_month (y m : Z) : Z :=
  if (m =? 2)%Z then (if is_leap y then 29 else 28)
  else if ((m =? 4) || (m =? 6) || (m =? 9) || (m =? 11))%Z then 30
  else 31.

Definition valid (d : date) : bool :=
  ((1 <=? year d) && (1 <=? month d) && (month d <=? 12)
   && (1 <=? day d) && (day d <=? days_in_month (year d) (month d)))%Z.

(* date comparison: (year, month, day) compared as tuples *)
Definition leb (a b : date) : bool :=
  ((year a <? year b)
   || ((year a =? year b)
       && ((month a <? month b)
           || ((month a =? month b) && (day a <=? day b)))))%Z.

(* cur + timedelta(days=1) *)
Definition next_day (d : date) : date :=
  if (day d <? days_in_month (year d) (month d))%Z
  then mk_date (year d) (month d) (day d + 1)
  else if (month d <? 12)%Z then mk_date (year d) (month d + 1) 1
  else mk_date (year d + 1) 1 1.

Definition days_before_year (y : Z) : Z :=
  let p := y - 1 in p * 365 + p / 4 - p / 100 + p / 400.

Definition days_before_month (y m : Z) : Z :=
  (if (m =? 1)%Z then 0 else if (m =? 2)%Z then 31 else if (m =? 3)%Z then 59
   else if (m =? 4)%Z then 90 else if (m =? 5)%Z then 120 else if (m =? 6)%Z then 151
   else if (m =? 7)%Z then 181 else if (m =? 8)%Z then 212 else if (m =? 9)%Z then 243
   else if (m =? 10)%Z then 273 else if (m =? 11)%Z then 304 else 334)
  + (if (2 <? m)%Z && is_leap y then 1 else 0).

(* date.toordinal *)
Definition toordinal (d : date) : Z :=
  days_before_year (year d) + days_before_month (year d) (month d) + day d.

Definition digit (n : Z) : ascii := ascii_of_nat (48 + Z.to_nat n).

Definition str_of_Z (n : Z) : string :=
  NilEmpty.string_of_uint (N.to_uint (Z.to_N n)).

(* zero-padded two-digit field: %m, %d, %y *)
Definition pad2 (n : Z) : string :=
  String (digit (n / 10)) (String (digit (n mod 10)) EmptyString).

(* "%Y-%m-%d" *)
Definition strftime_iso (d : date) : string :=
  str_of_Z (year d) ++ "-" ++ pad2 (month d) ++ "-" ++ pad2 (day d).

(* "%Y%m%d" *)
Definition strftime_Ymd (d : date) : string :=
  str_of_Z (year d) ++ pad2 (month d) ++ pad2 (day d).

(* "%y%m%d" *)
Definition strftime_ymd (d : date) : string :=
  pad2 (year d mod 100) ++ pad2 (month d) ++ pad2 (day d).

End Datetime.

Import Datetime.

Module Http.

Record response := mk_response {
  status_code : Z;
  retry_after : option string;
  json : result value
}.

Inductive transport :=
| Delivered (r : response)
| Failed (e : exn).

Definition str_truthy (s : option string) : bool :=
  match s with
  | Some s => negb (String.eqb s "")
  | None => false
  end.

Definition max_attempts : nat := 5.
Definition base_sleep : float := 5.0%float.

Definition float_of_nat (n : nat) : float :=
  PrimFloat.of_uint63 (Uint63.of_Z (Z.of_nat n)).

Definition backoff (attempt : nat) : float :=
  PrimFloat.mul base_sleep (float_of_nat attempt).

Definition wait_for (r : response) (attempt : nat) : result seconds :=
  match retry_after r with
  | Some h =>
      if negb (String.eqb h "") && isdigit h
      then match int_of_digits h with
           | Ok n => Ok (IntSeconds n)
           | Raise e => Raise e
           end
      else Ok (FloatSeconds (backoff attempt))
  | None => Ok (FloatSeconds (backoff attempt))
  end.

(* the largest int that format spec .1f can turn into a float: from
   2^1024 - 2^970 on, the conversion rounds to 2^1024 and raises *)
Definition float_int_limit : Z := 2 ^ 1024 - 2 ^ 970.
Arguments float_int_limit : simpl never.

(* f"{wait:.1f}": OverflowError when an int delay does not convert to float *)
Definition format_overflows (wait : seconds) : bool :=
  match wait with
  | IntSeconds n => (float_int_limit <=? n)%Z
  | FloatSeconds _ => false
  end.

(* the largest whole number of seconds whose nanoseconds fit 64 bits *)
Definition sleep_int_limit : Z := 9223372036.

(* time.sleep(wait): OverflowError when an int delay exceeds what the
   interpreter can count in nanoseconds; a float delay here is one of
   5.0, 10.0, ..., 25.0 *)
Definition sleep_overflows (wait : seconds) : bool :=
  match wait with
  | IntSeconds n => (sleep_int_limit <? n)%Z
  | FloatSeconds _ => false
  end.

(* Response.raise_for_status *)
Definition is_http_error (r : response) : bool :=
  (400 <=? status_code r)%Z && (status_code r <? 600)%Z.

Section WithServer.
Variable server : list request -> transport.

Fixpoint attempts (remaining attempt : nat) (base_url : string) (params : dict)
    (w : world) : world * result value :=
  match remaining with
  | O => (w, Raise RuntimeError)
  | S remaining' =>
      let w := log_request (mk_request base_url params attempt) w in
      match server (requests w) with
      | Failed e => (w, Raise e)
      | Delivered r =>
          if is_http_error r then
            if (status_code r =? 429)%Z then
              match wait_for r attempt with
              | Raise e => (w, Raise e)
              | Ok wait =>
                  if format_overflows wait then (w, Raise OverflowError) else
                  let w := print_err (MsgRateLimit base_url attempt max_attempts wait) w in
                  if sleep_overflows wait then (w, Raise OverflowError) else
                  let w := sleep wait w in
                  attempts remaining' (S attempt) base_url params w
              end
            else (w, Raise (HTTPError (status_code r)))
          else (w, json r)
      end
  end.

Definition setdefault (d : dict) (k : string) (v : value) : dict :=
  match dict_get d k with
  | Some _ => d
  | None => dict_set d k v
  end.

(* the client object: only its stored token matters *)
Record SurflineAPI := mk_api { _access_token : option string }.

Definition _resolve_token (self : SurflineAPI) (access_token : option string)
    : option string :=
  if str_truthy access_token then access_token else _access_token self.

Definition _get (self : SurflineAPI) (base_url : string) (params : dict)
    (access_token : option string) (w : world) : world * result value :=
  let token := _resolve_token self access_token in
  let params := match token with
                | Some t => if str_truthy token
                            then setdefault params "accessToken" (VStr t) else params
                | None => params
                end in
  attempts max_attempts 1 base_url params w.

Definition BASE_SURF := "https://services.surfline.com/kbyg/spots/forecasts/surf".
Definition BASE_SWELLS := "https://services.surfline.com/kbyg/spots/forecasts/swells".
Definition BASE_SPECTRA := "https://services.surfline.com/kbyg/spots/forecasts/spectra".
Definition BASE_RATING := "https://services.surfline.com/kbyg/spots/forecasts/rating".
Definition BASE_SUNLIGHT := "https://services.surfline.com/kbyg/spots/forecasts/sunlight".
Definition BASE_WIND := "https://services.surfline.com/kbyg/spots/forecasts/wind".
Definition BASE_TIDES := "https://services.surfline.com/kbyg/spots/forecasts/tides".
Definition BASE_COND_REG := "https://services.surfline.com/kbyg/regions/forecasts/conditions".

Definition with_start (params : dict) (start : option string) : dict :=
  match start with
  | Some s => if str_truthy start then dict_set params "start" (VStr s) else params
  | None => params
  end.

Definition get_surf self (spot_id : string) (days interval_hours : Z)
    (start : option string) :=
  _get self BASE_SURF
    (with_start [("spotId", VStr spot_id); ("days", VInt days);
                 ("intervalHours", VInt interval_hours);
                 ("cacheEnabled", VStr "true");
                 ("units[waveHeight]", VStr "FT")] start) None.

Definition get_swells self (spot_id : string) (days interval_hours : Z)
    (start : option string) :=
  _get self BASE_SWELLS
    (with_start [("spotId", VStr spot_id); ("days", VInt days);
                 ("intervalHours", VInt interval_hours);
                 ("units[swellHeight]", VStr "FT")] start) None.

Definition get_rating self (spot_id : string) (days interval_hours : Z)
    (start : option string) :=
  _get self BASE_RATING
    (with_start [("spotId", VStr spot_id); ("days", VInt days);
                 ("intervalHours", VInt interval_hours);
                 ("cacheEnabled", VStr "true")] start) None.

Definition get_spectra self (spot_id : string) (days interval_hours : Z)
    (start : option string) :=
  _get self BASE_SPECTRA
    (with_start [("spotId", VStr spot_id); ("days", VInt days);
                 ("intervalHours", VInt interval_hours)] start) None.

Definition get_sunlight self (spot_id : string) (days interval_hours : Z)
    (start : option string) :=
  _get self BASE_SUNLIGHT
    (with_start [("spotId", VStr spot_id); ("days", VInt days);
                 ("intervalHours", VInt interval_hours)] start) None.

Definition get_wind self (spot_id : string) (days interval_hours : Z)
    (start : option string) :=
  _get self BASE_WIND
    (with_start [("spotId", VStr spot_id); ("days", VInt days);
                 ("intervalHours", VInt interval_hours);
                 ("corrected", VStr "true");
                 ("cacheEnabled", VStr "true");
                 ("units[windSpeed]", VStr "KTS")] start) None.

Definition get_tides self (spot_id : string) (days : Z) (start : option string) :=
  _get self BASE_TIDES
    (with_start [("spotId", VStr spot_id); ("days", VInt days);
                 ("cacheEnabled", VStr "true");
                 ("units[tideHeight]", VStr "FT")] start) None.

Definition get_region_conditions self (subregion_id : string) (days : Z)
    (start : option string) :=
  _get self BASE_COND_REG
    (with_start [("subregionId", VStr subregion_id); ("days", VInt days)] start) None.

End WithServer.
(* SurflineAPI.get_access_token, given what the POST to the login endpoint meets *)
Definition get_access_token (posted : transport) : result value :=
  match posted with
  | Failed e => Raise e
  | Delivered r =>
      if is_http_error r then Raise (HTTPError (status_code r))
      else
        bind (json r) (fun data =>
        bind (get data "accessToken" VNone) (fun a =>
        bind (if truthy a then Ok a else get data "access_token" VNone) (fun token =>
        if truthy token then Ok token else Raise RuntimeError)))
  end.

End Http.

Import Http.

Module Harvest.

Definition SLEEP_BETWEEN_DAYS : float := 10.0%float.

Inductive kind :=
| Surf | Swells | Rating | Spectra | Sunlight | Wind | Tides | Conditions.

Definition label (k : kind) : string :=
  match k with
  | Surf => "surf" | Swells => "swells" | Rating => "rating"
  | Spectra => "spectra" | Sunlight => "sunlight" | Wind => "wind"
  | Tides => "tides" | Conditions => "conditions"
  end.

Definition flatten (k : kind) : value -> result (list dict) :=
  match k with
  | Surf => Client.SurfCSV.flatten
  | Swells => Client.SwellsCSV.flatten
  | Rating => Client.RatingCSV.flatten
  | Spectra => Client.SpectraCSV.flatten
  | Sunlight => Client.SunlightCSV.flatten
  | Wind => Client.WindCSV.flatten
  | Tides => Client.TidesCSV.flatten
  | Conditions => Client.RegionConditionsCSV.flatten
  end.

(* posixpath.join with two components *)
Definition path_join (a b : string) : string :=
  if String.prefix "/" b then b
  else if String.eqb a "" then b
  else match rev (list_ascii_of_string a) with
       | c :: _ => if is_slash c then a ++ b else a ++ "/" ++ b
       | [] => b
       end.

Record job := mk_job {
  spot_id : string;
  subregion_id : option string;
  days_ahead : Z;
  interval_hours : Z;
  base_folder : string;
  spot_slug : string
}.

Section Run.
Variable server : list request -> transport.
Variable io_fault : string -> bool.
Variable api : SurflineAPI.
Variable j : job.

Definition fetch (k : kind) (start_str : string) (w : world) : world * result value :=
  match k with
  | Surf => get_surf server api (spot_id j) (days_ahead j) (interval_hours j) (Some start_str) w
  | Swells => get_swells server api (spot_id j) (days_ahead j) (interval_hours j) (Some start_str) w
  | Rating => get_rating server api (spot_id j) (days_ahead j) (interval_hours j) (Some start_str) w
  | Spectra => get_spectra server api (spot_id j) (days_ahead j) (interval_hours j) (Some start_str) w
  | Sunlight => get_sunlight server api (spot_id j) (days_ahead j) (interval_hours j) (Some start_str) w
  | Wind => get_wind server api (spot_id j) (days_ahead j) (interval_hours j) (Some start_str) w
  | Tides => get_tides server api (spot_id j) (days_ahead j) (Some start_str) w
  | Conditions =>
      get_region_conditions server api
        (match subregion_id j with Some s => s | None => "" end)
        (days_ahead j) (Some start_str) w
  end.

Definition out_path (k : kind) (date_tag : string) : string :=
  path_join (base_folder j) (spot_slug j ++ "_" ++ label k ++ "_" ++ date_tag ++ ".csv").

(* one try/except block of the loop body *)
Definition harvest_kind (k : kind) (start_str date_tag : string) (w : world) : world :=
  let failed e w := print_err (MsgFetchFailed (label k) start_str e) w in
  match fetch k start_str w with
  | (w1, Raise e) => failed e w1
  | (w1, Ok payload) =>
      match flatten k payload with
      | Raise e => failed e w1
      | Ok rows =>
          match _write_dict_rows io_fault rows (out_path k date_tag) w1 with
          | (w2, Raise e) => failed e w2
          | (w2, Ok _) => w2
          end
      end
  end.

Definition day_kinds : list kind :=
  ([Surf; Swells; Rating; Spectra; Sunlight; Wind; Tides]
   ++ (if str_truthy (subregion_id j) then [Conditions] else []))%list.

(* the body of the while loop, up to the increment of cur *)
Definition harvest_day (cur : date) (w : world) : world :=
  let start_str := strftime_iso cur in
  let date_tag := strftime_Ymd cur in
  let w := print_out (MsgFetching start_str (days_ahead j)) w in
  let w := fold_left (fun w k => harvest_kind k start_str date_tag w) day_kinds w in
  if PrimFloat.ltb 0%float SLEEP_BETWEEN_DAYS
  then sleep (FloatSeconds SLEEP_BETWEEN_DAYS)
         (print_out (MsgSleeping SLEEP_BETWEEN_DAYS) w)
  else w.

(* while cur <= end: ...; cur += timedelta(days=1) *)
Fixpoint harvest_loop (fuel : nat) (cur end_ : date) (w : world) : option world :=
  match fuel with
  | O => None
  | S fuel' =>
      if Datetime.leb cur end_
      then harvest_loop fuel' (next_day cur) end_ (harvest_day cur w)
      else Some w
  end.

End Run.
End Harvest.

Module Northside.

Definition COMMAND : string := "wave".

(* OUT_PATH, with date_str = now.strftime("%y%m%d") for the current date `today` *)
Definition OUT_PATH (today : date) : string :=
  "forecasts/forecast_" ++ COMMAND ++ "_" ++ strftime_ymd today ++ ".csv".

End Northside.

Module Analyze.

Fixpoint strip_prefix (p s : list ascii) : option (list ascii) :=
  match p, s with
  | [], _ => Some s
  | a :: p', b :: s' => if Ascii.eqb a b then strip_prefix p' s' else None
  | _ :: _, [] => None
  end.

Definition newline : ascii := ascii_of_nat 10.

(* forecast_wave_(\d{6})\.csv$ matched at the head of s: the captured group *)
Definition match_here (s : list ascii) : option (list ascii) :=
  match strip_prefix (list_ascii_of_string "forecast_wave_") s with
  | None => None
  | Some rest =>
      let group := firstn 6 rest in
      match strip_prefix (list_ascii_of_string ".csv") (skipn 6 rest) with
      | None => None
      | Some tail =>
          if (List.length group =? 6)%nat && forallb is_ascii_digit group
             && match tail with
                | [] => true
                | [c] => Ascii.eqb c newline
                | _ => false
                end
          then Some group else None
      end
  end.

(* re.search: the leftmost position where the pattern matches *)
Fixpoint search (s : list ascii) : option (list ascii) :=
  match match_here s with
  | Some g => Some g
  | None => match s with
            | [] => None
            | _ :: s' => search s'
            end
  end.

(* pd.Timestamp(year=, month=, day=, tz="UTC"): midnight UTC of a calendar date *)
Definition Timestamp (y m d : Z) : result date :=
  if valid (mk_date y m d) then Ok (mk_date y m d) else Raise ValueError.

Definition _parse_issue_date_from_name (filename : string) : result date :=
  match search (list_ascii_of_string filename) with
  | None => Raise ValueError
  | Some g =>
      bind (int_of_digits (string_of_list_ascii (firstn 2 g))) (fun y =>
      bind (int_of_digits (string_of_list_ascii (firstn 2 (skipn 2 g)))) (fun mo =>
      bind (int_of_digits (string_of_list_ascii (firstn 2 (skipn 4 g)))) (fun d =>
      Timestamp (2000 + y) mo d)))
  end.

(* The same function on a file name given by its code points, for names
   with characters outside Latin-1.  [decimal] is the Unicode database of
   the interpreter: the value of a code point that is a decimal digit
   (category Nd), None for every other code point; the class \d of the
   pattern and int() both go by it. *)
Module Unicode.
Section Database.
Variable decimal : N -> option Z.

Definition is_decimal (c : N) : bool :=
  match decimal c with Some _ => true | None => false end.

Definition decimal_value (c : N) : Z :=
  match decimal c with Some v => v | None => 0 end.

Fixpoint strip_prefix (p : list ascii) (s : list N) : option (list N) :=
  match p, s with
  | [], _ => Some s
  | a :: p', b :: s' => if N.eqb (N_of_ascii a) b then strip_prefix p' s' else None
  | _ :: _, [] => None
  end.

Definition match_here (s : list N) : option (list N) :=
  match strip_prefix (list_ascii_of_string "forecast_wave_") s with
  | None => None
  | Some rest =>
      let group := firstn 6 rest in
      match strip_prefix (list_ascii_of_string ".csv") (skipn 6 rest) with
      | None => None
      | Some tail =>
          if (List.length group =? 6)%nat && forallb is_decimal group
             && match tail with
                | [] => true
                | [c] => N.eqb c (N_of_ascii newline)
                | _ => false
                end
          then Some group else None
      end
  end.

Fixpoint search (s : list N) : option (list N) :=
  match match_here s with
  | Some g => Some g
  | None => match s with
            | [] => None
            | _ :: s' => search s'
            end
  end.

(* int(s) on a string of decimal digits *)
Definition int_of_decimals (cs : list N) : result Z :=
  if negb (Nat.eqb (List.length cs) 0) && forallb is_decimal cs
     && (List.length cs <=? int_max_str_digits)%nat
  then Ok (fold_left (fun acc c => 10 * acc + decimal_value c) cs 0)
  else Raise ValueError.

Definition _parse_issue_date_from_name (filename : list N) : result date :=
  match search filename with
  | None => Raise ValueError
  | Some g =>
      bind (int_of_decimals (firstn 2 g)) (fun y =>
      bind (int_of_decimals (firstn 2 (skipn 2 g))) (fun mo =>
      bind (int_of_decimals (firstn 2 (skipn 4 g))) (fun d =>
      Timestamp (2000 + y) mo d)))
  end.

End Database.
End Unicode.

Fixpoint after_last_slash (acc s : list ascii) : list ascii :=
  match s with
  | [] => acc
  | c :: s' => if IO.is_slash c then after_last_slash s' s' else after_last_slash acc s'
  end.

(* Path(...).name *)
Definition Path_name (path : string) : string :=
  let cs := list_ascii_of_string path in
  string_of_list_ascii (after_last_slash cs cs).

Definition swell_columns (k : nat) : list string :=
  ["swell" ++ str_of_nat k ++ "_height_m";
   "swell" ++ str_of_nat k ++ "_period_s";
   "swell" ++ str_of_nat k ++ "_direction_deg"].

Definition _expected_column_names : list string :=
  app ["timestamp"; "surf_min"; "surf_max"] (flat_map swell_columns (seq 1 6)).

(* nanoseconds since the epoch of midnight UTC of a date *)
Definition midnight_ns (d : date) : Z :=
  (toordinal d - 719163) * 86400 * 1000000000.

(* a row of the tidy frame that read_forecast_folder returns: issue_date and
   valid_time are datetime columns (nanoseconds since the epoch, None for
   NaT) and surf_mid is a float column (NaN when missing) *)
Record forecast_row := mk_row {
  issue_date : option Z;
  valid_time : option Z;
  surf_mid : float
}.

Definition notna_time (t : option Z) : bool :=
  match t with Some _ => true | None => false end.

Definition notna_row (r : forecast_row) : bool :=
  notna_time (issue_date r) && notna_time (valid_time r)
  && negb (PrimFloat.is_nan (surf_mid r)).

Definition dropna (df : list forecast_row) : list forecast_row :=
  filter notna_row df.

Definition one_day : Z := 86400 * 1000000000.

Definition add_timedelta (t : option Z) (delta : Z) : option Z :=
  option_map (fun v => v + delta) t.

Record left_row := mk_left {
  l_issue_date : option Z;
  l_valid_time : option Z;
  l_surf_mid_D : float;
  l_next_issue_date : option Z
}.

Definition make_left (r : forecast_row) : left_row :=
  mk_left (issue_date r) (valid_time r) (surf_mid r)
          (add_timedelta (issue_date r) one_day).

Definition time_eqb (a b : option Z) : bool :=
  match a, b with
  | Some x, Some y => Z.eqb x y
  | None, None => true
  | _, _ => false
  end.

Definition key_eqb (a b : option Z * option Z) : bool :=
  time_eqb (fst a) (fst b) && time_eqb (snd a) (snd b).

Definition merge_inner {L R K : Type} (keq : K -> K -> bool)
    (left_on : L -> K) (right_on : R -> K)
    (left : list L) (right : list R) : list (L * R) :=
  flat_map (fun l => map (pair l) (filter (fun r => keq (left_on l) (right_on r)) right)) left.

Record drift_pair := mk_pair {
  issue_date_x : option Z;
  dp_valid_time : option Z;
  surf_mid_D : float;
  next_issue_date : option Z;
  issue_date_y : option Z;
  surf_mid_Dplus1 : float;
  error : float;
  abs_error : float;
  hour : option Z
}.

Definition one_hour : Z := 3600 * 1000000000.

Definition dt_hour (t : option Z) : option Z :=
  option_map (fun v => (v / one_hour) mod 24) t.

Definition merged_row (lr : left_row * forecast_row) : drift_pair :=
  let (l, r) := lr in
  let err := PrimFloat.sub (surf_mid r) (l_surf_mid_D l) in
  mk_pair (l_issue_date l) (l_valid_time l) (l_surf_mid_D l) (l_next_issue_date l)
          (issue_date r) (surf_mid r) err (PrimFloat.abs err) (dt_hour (l_valid_time l)).

Definition compute_24h_forecast_drift (df : list forecast_row) : list drift_pair :=
  let base := dropna df in
  let left := map make_left base in
  let right := base in
  map merged_row
    (merge_inner key_eqb
       (fun l => (l_valid_time l, l_next_issue_date l))
       (fun r => (valid_time r, issue_date r))
       left right).

Inductive drift_summary :=
| NoOverlap
| OverallMAE (abs_errors : list float).

Definition report (drift : list drift_pair) : nat * drift_summary :=
  (List.length drift,
   match drift with
   | [] => NoOverlap
   | _ :: _ => OverallMAE (map abs_error drift)
   end).

Section Folder.

(* what lines 72-92 of read_forecast_folder make of one file: its rows, each
   a valid time (never missing after the dropna on timestamp) and a surf
   midpoint (NaN when missing), or the exception pandas raises on the file *)
Variable read_csv : string -> result (list (Z * float)).

(* one turn of the loop over the files: the issue date comes from the name *)
Definition read_file_rows (fp : string) : result (list forecast_row) :=
  bind (_parse_issue_date_from_name (Path_name fp)) (fun issue_date =>
  bind (read_csv fp) (fun rows =>
  Ok (map (fun r => mk_row (Some (midnight_ns issue_date)) (Some (fst r)) (snd r))
          rows))).

(* [files] is sorted(folder.glob("forecast_wave_*.csv")), the paths the folder
   holds under that pattern; the frame returned has datetime columns
   issue_date and valid_time and a float column surf_mid *)
Definition read_forecast_folder (files : list string) : result (list forecast_row) :=
  match files with
  | [] => Raise FileNotFoundError
  | _ :: _ => bind (mapM read_file_rows files) (fun frames => Ok (List.concat frames))
  end.

(* the __main__ block: what it reports of the drift (the number of matched
   pairs, then the summary); the preview it prints of each issue day before
   is left out.  An exception of read_forecast_folder ends the script. *)
Definition main (files : list string) : result (nat * drift_summary) :=
  bind (read_forecast_folder files) (fun df_all =>
  Ok (report (compute_24h_forecast_drift df_all))).

End Folder.

End Analyze.

Import Client ApiClass Harvest Northside Analyze.

(* ================================================================== *)
(** * Part II: vocabulary of the statements and concrete inputs *)
(* ================================================================== *)

Close Scope string_scope.

(* spec-level predicates *)
Definition consecutive (a b : forecast_row) : Prop :=
  issue_date b = add_timedelta (issue_date a) one_day /\ valid_time b = valid_time a.

Definition is_pair_of (a b : forecast_row) (p : drift_pair) : Prop :=
  issue_date_x p = issue_date a /\ dp_valid_time p = valid_time a /\
  issue_date_y p = issue_date b /\
  surf_mid_D p = surf_mid a /\ surf_mid_Dplus1 p = surf_mid b /\
  error p = PrimFloat.sub (surf_mid b) (surf_mid a) /\
  abs_error p = PrimFloat.abs (error p).

Definition one_pair_per_match (eligible : forecast_row -> Prop)
    (df : list forecast_row) (out : list drift_pair) : Prop :=
  exists ps : list (nat * nat),
    NoDup ps /\
    (forall i j, In (i, j) ps <->
       exists a b, nth_error df i = Some a /\ nth_error df j = Some b /\
                   eligible a /\ eligible b /\ consecutive a b) /\
    Forall2 (fun p ij => exists a b,
               nth_error df (fst ij) = Some a /\ nth_error df (snd ij) = Some b /\
               is_pair_of a b p) out ps.

Definition indexed_from {A} (k : nat) (l : list A) : list (nat * A) :=
  combine (seq k (List.length l)) l.

Definition matches (a b : forecast_row) : bool :=
  key_eqb (valid_time a, add_timedelta (issue_date a) one_day)
          (valid_time b, issue_date b).

Definition kept (df : list forecast_row) : list (nat * forecast_row) :=
  filter (fun x => notna_row (snd x)) (indexed_from 0 df).

Definition cands (xs ys : list (nat * forecast_row)) :=
  flat_map (fun x => map (pair x) (filter (fun y => matches (snd x) (snd y)) ys)) xs.

Definition pair_at (q : (nat * forecast_row) * (nat * forecast_row)) : drift_pair :=
  merged_row (make_left (snd (fst q)), snd (snd q)).

Definition idx_pair (q : (nat * forecast_row) * (nat * forecast_row)) : nat * nat :=
  (fst (fst q), fst (snd q)).

(* concrete datasets *)
Definition ts (seconds : Z) : option Z := Some (seconds * 1000000000).

Definition spec_rows_consecutive : list forecast_row :=
  [ mk_row (ts 1735689600) (ts 1735797600) 3.0%float;
    mk_row (ts 1735776000) (ts 1735797600) 3.5%float ].

Definition spec_rows_two_days_apart : list forecast_row :=
  [ mk_row (ts 1735689600) (ts 1735797600) 3.0%float;
    mk_row (ts 1735862400) (ts 1735797600) 3.5%float ].

Definition rows_with_missing_surf : list forecast_row :=
  [ mk_row (ts 1735689600) (ts 1735797600) PrimFloat.nan;
    mk_row (ts 1735776000) (ts 1735797600) 3.5%float ].

Definition has_key (d t : Z) (r : forecast_row) : bool :=
  time_eqb (issue_date r) (Some d) && time_eqb (valid_time r) (Some t).

Definition rows_with_key (eligible : forecast_row -> bool) (d t : Z)
    (df : list forecast_row) : nat :=
  List.length (filter (fun r => eligible r && has_key d t r) df).

Definition pairs_with_key (d t : Z) (out : list drift_pair) : nat :=
  List.length (filter (fun p => time_eqb (issue_date_x p) (Some d)
                           && time_eqb (dp_valid_time p) (Some t)) out).

(* a folder of two forecast files issued two days apart, and what pandas
   reads from them: one row each, for the same valid time *)
Definition folder_two_days_apart : list string :=
  ["forecasts/forecast_wave_250101.csv"%string;
   "forecasts/forecast_wave_250103.csv"%string].

Definition read_two_days_apart (fp : string) : result (list (Z * float)) :=
  if String.eqb fp "forecasts/forecast_wave_250101.csv"
  then Ok [(1735797600 * 1000000000, 3.0%float)]
  else Ok [(1735797600 * 1000000000, 3.5%float)].


Open Scope string_scope.

Definition payload (series_key : string) (points : list value) : value :=
  VDict [("data", VDict [(series_key, VList points)])].

Definition surf_point (ts mn mx : value) : value :=
  VDict [("timestamp", ts); ("surf", VDict [("min", mn); ("max", mx)])].

Definition spec_point : value :=
  surf_point (VInt 1700000000) (VFloat 2.1) (VFloat 3.4).

Definition null_data_payload : value := VDict [("data", VNone)].

(* C4 *)
Definition field (c : value) (k : string) : value :=
  match c with
  | VDict kv => match dict_get kv k with Some v => v | None => VNone end
  | _ => VNone
  end.

Definition swells_point_7 : value :=
  VDict [("timestamp", VInt 1700000000);
         ("swells", VList (map (fun h => VDict [("height", VInt h)]) [1; 2; 3; 4; 5; 6; 7]))].

Definition surf_block_ok (kv : dict) : bool :=
  is_dict (py_or (field (VDict kv) "surf") (VDict [])).

Definition swell_entries (ic : nat * dict) : dict :=
  [("swell" ++ str_of_nat (fst ic) ++ "_height_m", field (VDict (snd ic)) "height");
   ("swell" ++ str_of_nat (fst ic) ++ "_period_s", field (VDict (snd ic)) "period");
   ("swell" ++ str_of_nat (fst ic) ++ "_direction_deg",
    field (VDict (snd ic)) "direction")].

Definition wave_row (kv : dict) (cs : list dict) : dict :=
  app [("timestamp", field (VDict kv) "timestamp");
       ("surf_min", field (py_or (field (VDict kv) "surf") (VDict [])) "min");
       ("surf_max", field (py_or (field (VDict kv) "surf") (VDict [])) "max")]
      (flat_map swell_entries (combine (seq 1 (List.length cs)) cs)).

Definition empty_world : world := mk_world [] [] [] [] [] [].

Definition rate_limited (h : option string) : response :=
  mk_response 429 h (Raise ValueError).

Definition always_429 (h : option string) (_ : list request) : transport :=
  Delivered (rate_limited h).

Definition superscript_two : string := String (ascii_of_nat 178) EmptyString.

(* 2^32 - 1 milliseconds in whole seconds: a delay that time.sleep accepts
   on every platform; beyond it some platforms refuse the delay before the
   interpreter's own limit [sleep_int_limit] is reached *)
Definition max_portable_delay : Z := 4294967.

(* a Retry-After value that leads to a completed sleep: absent, empty or not
   numeric (the backoff delay is used), or an ASCII decimal number that
   [int] converts and that is at most [max_portable_delay] *)
Definition usable_header (h : option string) : bool :=
  match h with
  | Some s => negb (isdigit s)
              || match int_of_digits s with
                 | Ok n => (n <=? max_portable_delay)%Z
                 | Raise _ => false
                 end
  | None => true
  end.

Definition endpoint (k : kind) : string :=
  match k with
  | Surf => BASE_SURF | Swells => BASE_SWELLS | Rating => BASE_RATING
  | Spectra => BASE_SPECTRA | Sunlight => BASE_SUNLIGHT | Wind => BASE_WIND
  | Tides => BASE_TIDES | Conditions => BASE_COND_REG
  end.

Definition is_first (r : request) : bool := (req_attempt r =? 1)%nat.

(* the series fetches begun so far: endpoint and start parameter of every first attempt *)
Definition started (w : world) : list (string * option value) :=
  map (fun r => (req_url r, dict_get (req_params r) "start"))
      (filter is_first (requests w)).

Fixpoint days_from (d : date) (n : nat) : list date :=
  match n with
  | O => []
  | S n' => d :: days_from (next_day d) n'
  end.

Definition days_between (start_date end_date : date) : list date :=
  days_from start_date (Z.to_nat (toordinal end_date - toordinal start_date + 1)).

Definition schedule (j : job) (start_date end_date : date)
    : list (string * option value) :=
  flat_map (fun d => map (fun k => (endpoint k, Some (VStr (strftime_iso d))))
                         (day_kinds j))
           (days_between start_date end_date).

Definition ok_server (body : value) (_ : list request) : transport :=
  Delivered (mk_response 200 None (Ok body)).

Definition job_example : job :=
  mk_job "5842041f4e65fad6a7708827" None 7 1 "forecasts/HB_Pier" "HB_Pier".

Definition failing_server (_ : list request) : transport := Failed ConnectionError.

Definition name_of_digits (c1 c2 c3 c4 c5 c6 : ascii) : string :=
  "forecast_wave_" ++ string_of_list_ascii [c1; c2; c3; c4; c5; c6] ++ ".csv".

(* the content stored under a path *)
Definition read_file (path : string) (w : world) : option csv_file :=
  option_map snd (find (fun e => String.eqb (fst e) path) (files w)).

Definition add_key (acc : list string) (e : string * value) : list string :=
  if existsb (String.eqb (fst e)) acc then acc else (acc ++ [fst e])%list.

Definition two_rows : list dict :=
  [[("timestamp", VInt 1); ("speed", VInt 7)];
   [("timestamp", VInt 2); ("gust", VInt 9)]].

(* the query parameters _get sends: params with the resolved token attached *)
Definition token_of (api : SurflineAPI) (access_token : option string) : option string :=
  if str_truthy access_token then access_token
  else if str_truthy (_access_token api) then _access_token api
  else None.

Definition not_found : response := mk_response 404 None (Raise ValueError).

Definition once (r : response) (log : list request) : transport :=
  Delivered r.


Definition login_reply (body : value) : transport :=
  Delivered (mk_response 200 None (Ok body)).

Definition wind_point : dict :=
  [("timestamp", VInt 1700000000); ("speed", VFloat 7.5); ("gust", VNone);
   ("directionType", VStr "Offshore"); ("utcOffset", VInt (-8));
   ("probe", VDict [("depth", VInt 3)]); ("history", VList [VInt 1])].

Definition keep_simple (prefix : string) (out : dict) (e : string * value) : dict :=
  if is_simple (snd e) then dict_set out (prefix ++ fst e) (snd e) else out.

Definition series_keys : list string :=
  ["surf"; "swells"; "rating"; "ratings"; "spectra"; "sunlight"; "wind"; "windModel";
   "tides"; "conditions"; "wave"; "waveModel"].

Definition all_flatteners : list (value -> result (list dict)) :=
  [SurfCSV.flatten; SwellsCSV.flatten; RatingCSV.flatten; SpectraCSV.flatten;
   SunlightCSV.flatten; WindCSV.flatten; TidesCSV.flatten; RegionConditionsCSV.flatten;
   WaveCSV.flatten].

Definition passes_through (p : value) (row : dict) : Prop :=
  dict_get row "timestamp" = Some (field p "timestamp")
  /\ (forall kv k v, p = VDict kv -> dict_get kv k = Some v ->
        is_simple v = true -> dict_get row k = Some v).

(* the number of swell components of a point *)
Definition swell_count (point : value) : nat :=
  match py_or (field point "swells") (VList []) with
  | VList l => List.length l
  | _ => 0%nat
  end.

Definition two_swell_point : value :=
  VDict [("timestamp", VInt 1700000000);
         ("surf", VDict [("min", VInt 2); ("max", VInt 3)]);
         ("swells", VList [VDict [("height", VFloat 1.5); ("period", VInt 12);
                                  ("direction", VInt 270)];
                           VDict [("height", VFloat 0.5)]])].

Definition object_series_flatteners : list (string * (value -> result (list dict))) :=
  [("surf", SurfCSV.flatten); ("rating", RatingCSV.flatten);
   ("sunlight", SunlightCSV.flatten); ("wind", WindCSV.flatten);
   ("tides", TidesCSV.flatten); ("conditions", RegionConditionsCSV.flatten)].

(* a network on which every request fails in transport with the exception e *)
Definition unreachable (e : exn) (_ : list request) : transport := Failed e.

Definition day_count (start_date end_date : date) : nat :=
  Z.to_nat (toordinal end_date - toordinal start_date + 1).

Definition failure_report (j : job) (e : exn) (d : date) : list message :=
  map (fun k => MsgFetchFailed (label k) (strftime_iso d) e) (day_kinds j).

Definition job_with_region : job :=
  mk_job "5842041f4e65fad6a7708827" (Some "58581a836630e24c44878fd6") 16 1
    "forecasts/HB_Pier" "HB_Pier".

(* the code points of a Latin-1 string *)
Definition codes (s : string) : list N := map N_of_ascii (list_ascii_of_string s).

(* a part of the Unicode database: the ASCII digits and the Arabic-Indic
   digits U+0660 to U+0669 *)
Definition ascii_and_arabic_indic (c : N) : option Z :=
  if ((48 <=? c) && (c <=? 57))%N then Some (Z.of_N c - 48)
  else if ((1632 <=? c) && (c <=? 1641))%N then Some (Z.of_N c - 1632)
  else None.

(* forecast_wave_<24-02-29 in Arabic-Indic and ASCII digits>.csv *)
Definition mixed_digits_name : list N :=
  (codes "forecast_wave_" ++ [1634; 1636; 48; 50; 1634; 1641]%N ++ codes ".csv")%list.

(* ================================================================== *)
(** * Part III: lemmas and theorems *)
(* ================================================================== *)

(* ------------------------------------------------------------------ *)
(** ** Dicts and the error monad *)

Lemma dict_get_set_same d k v : dict_get (dict_set d k v) k = Some v.
Proof.
  induction d as [|[k' v'] d IH]; simpl.
  - now rewrite String.eqb_refl.
  - destruct (String.eqb k k') eqn:E; simpl; rewrite E; auto.
Qed.

Lemma dict_get_set_other d k v k' :
  k <> k' -> dict_get (dict_set d k v) k' = dict_get d k'.
Proof.
  intro Hne. induction d as [|[k0 v0] d IH]; simpl.
  - destruct (String.eqb k' k) eqn:E; [|reflexivity].
    apply String.eqb_eq in E. congruence.
  - destruct (String.eqb k k0) eqn:E; simpl.
    + apply String.eqb_eq in E. subst k0.
      destruct (String.eqb k' k) eqn:E'; [|reflexivity].
      apply String.eqb_eq in E'. congruence.
    + now rewrite IH.
Qed.

Lemma in_dict_set d k v e : In e (dict_set d k v) -> In e d \/ fst e = k.
Proof.
  induction d as [|[k0 v0] d IH]; simpl.
  - intros [<-|[]]. now right.
  - destruct (String.eqb k k0) eqn:E; simpl.
    + apply String.eqb_eq in E. subst k0. intros [<-|H]; auto.
    + intros [<-|H]; auto. destruct (IH H); auto.
Qed.

Lemma dict_update_get_other other : forall d k,
  (forall e, In e other -> fst e <> k) ->
  dict_get (dict_update d other) k = dict_get d k.
Proof.
  unfold dict_update.
  induction other as [|e other IH]; intros d k H; simpl; [reflexivity|].
  rewrite IH by (intros e' He'; apply H; now right).
  apply dict_get_set_other. apply H. now left.
Qed.

Lemma mapM_ok {A B} (f : A -> result B) (l : list A) :
  (forall a, In a l -> exists b, f a = Ok b) -> exists bs, mapM f l = Ok bs.
Proof.
  induction l as [|a l IH]; intro H; simpl; [eauto|].
  destruct (H a (or_introl eq_refl)) as [b ->].
  destruct IH as [bs ->]; [intros; apply H; now right|]. eauto.
Qed.

Lemma mapM_length {A B} (f : A -> result B) (l : list A) bs :
  mapM f l = Ok bs -> List.length bs = List.length l.
Proof.
  revert bs. induction l as [|a l IH]; intros bs; simpl.
  - intro H; inversion H; reflexivity.
  - destruct (f a); [|discriminate]. destruct (mapM f l); [|discriminate].
    intro H; inversion H; subst. simpl. f_equal. now apply IH.
Qed.

(* ------------------------------------------------------------------ *)
(** ** Calendar dates: ordinals, the next day, comparison *)

Close Scope string_scope.

Lemma days_before_next_year y :
  days_before_year (y + 1) = days_before_year y + (if is_leap y then 366 else 365).
Proof.
  unfold days_before_year, is_leap.
  replace (y + 1 - 1) with y by lia.
  destruct (y mod 4 =? 0) eqn:E4; destruct (y mod 100 =? 0) eqn:E100;
    destruct (y mod 400 =? 0) eqn:E400; simpl;
    rewrite ?Z.eqb_eq, ?Z.eqb_neq in *;
    Z.div_mod_to_equations; lia.
Qed.

Lemma days_before_year_mono a b : a <= b -> days_before_year a <= days_before_year b.
Proof.
  unfold days_before_year. intros. Z.div_mod_to_equations. lia.
Qed.

Lemma valid_iff d :
  valid d = true <->
  1 <= year d /\ 1 <= month d <= 12 /\ 1 <= day d <= days_in_month (year d) (month d).
Proof.
  unfold valid. rewrite !andb_true_iff, !Z.leb_le. tauto.
Qed.

Ltac month_cases m :=
  let H := fresh "Hm" in
  assert (H : m = 1 \/ m = 2 \/ m = 3 \/ m = 4 \/ m = 5 \/ m = 6 \/ m = 7 \/
              m = 8 \/ m = 9 \/ m = 10 \/ m = 11 \/ m = 12) by lia;
  repeat (destruct H as [H | H]); subst m.

Ltac zcases :=
  cbn [Z.eqb Z.ltb Z.leb Z.compare Pos.eqb Pos.compare Pos.compare_cont
       andb orb negb CompOpp].

Lemma days_in_month_bounds y m : 28 <= days_in_month y m <= 31.
Proof.
  unfold days_in_month.
  destruct (m =? 2); [destruct (is_leap y); lia|].
  destruct ((m =? 4) || (m =? 6) || (m =? 9) || (m =? 11)); lia.
Qed.

Lemma days_before_next_month y m :
  1 <= m < 12 ->
  days_before_month y (m + 1) = days_before_month y m + days_in_month y m.
Proof.
  intro H. unfold days_before_month, days_in_month.
  month_cases m; simpl; destruct (is_leap y); simpl; lia.
Qed.

Lemma days_before_month_dec y :
  days_before_month y 12 + days_in_month y 12 = if is_leap y then 366 else 365.
Proof.
  unfold days_before_month, days_in_month. simpl. destruct (is_leap y); reflexivity.
Qed.

Lemma next_day_valid d : valid d = true -> valid (next_day d) = true.
Proof.
  rewrite !valid_iff. destruct d as [y m dd]; simpl. intros (Hy & Hm & Hd).
  unfold next_day; simpl.
  destruct (dd <? days_in_month y m) eqn:E; simpl.
  - apply Z.ltb_lt in E. lia.
  - destruct (m <? 12) eqn:E2; simpl.
    + apply Z.ltb_lt in E2. pose proof (days_in_month_bounds y (m + 1)). lia.
    + pose proof (days_in_month_bounds (y + 1) 1). lia.
Qed.

Lemma toordinal_next_day d :
  valid d = true -> toordinal (next_day d) = toordinal d + 1.
Proof.
  rewrite valid_iff. destruct d as [y m dd]; simpl. intros (Hy & Hm & Hd).
  unfold next_day, toordinal; simpl.
  destruct (dd <? days_in_month y m) eqn:E; simpl; [lia|].
  apply Z.ltb_ge in E.
  destruct (m <? 12) eqn:E2; simpl.
  - apply Z.ltb_lt in E2. rewrite days_before_next_month by lia. lia.
  - apply Z.ltb_ge in E2. assert (m = 12) by lia. subst m.
    rewrite days_before_next_year. pose proof (days_before_month_dec y).
    change (days_before_month (y + 1) 1) with 0. lia.
Qed.

Lemma days_before_month_mono y m1 m2 :
  1 <= m1 -> m1 < m2 -> m2 <= 12 ->
  days_before_month y m1 + days_in_month y m1 <= days_before_month y m2.
Proof.
  intros H1 H2 H3. unfold days_before_month, days_in_month.
  month_cases m1; month_cases m2; try lia; zcases; destruct (is_leap y); zcases; lia.
Qed.

Lemma day_of_year_bounds y m dd :
  1 <= m <= 12 -> 1 <= dd <= days_in_month y m ->
  1 <= days_before_month y m + dd <= (if is_leap y then 366 else 365).
Proof.
  intros Hm. unfold days_before_month, days_in_month.
  month_cases m; zcases; destruct (is_leap y); zcases; lia.
Qed.

Lemma leb_toordinal a b :
  valid a = true -> valid b = true -> leb a b = (toordinal a <=? toordinal b).
Proof.
  rewrite !valid_iff. destruct a as [y1 m1 d1], b as [y2 m2 d2]; simpl.
  intros (Hy1 & Hm1 & Hd1) (Hy2 & Hm2 & Hd2).
  unfold leb, toordinal; simpl.
  pose proof (day_of_year_bounds y1 m1 d1 Hm1 Hd1) as B1.
  pose proof (day_of_year_bounds y2 m2 d2 Hm2 Hd2) as B2.
  destruct (Z.lt_trichotomy y1 y2) as [Hlt | [Heq | Hgt]].
  - assert (E : (y1 <? y2) = true) by now apply Z.ltb_lt. rewrite E. simpl.
    symmetry. apply Z.leb_le.
    pose proof (days_before_next_year y1).
    pose proof (days_before_year_mono (y1 + 1) y2 ltac:(lia)). lia.
  - subst y2. rewrite Z.ltb_irrefl, Z.eqb_refl. simpl.
    destruct (Z.lt_trichotomy m1 m2) as [Mlt | [Meq | Mgt]].
    + assert (E : (m1 <? m2) = true) by now apply Z.ltb_lt. rewrite E. simpl.
      symmetry. apply Z.leb_le.
      pose proof (days_before_month_mono y1 m1 m2 ltac:(lia) Mlt ltac:(lia)). lia.
    + subst m2. rewrite Z.ltb_irrefl, Z.eqb_refl. simpl.
      destruct (d1 <=? d2) eqn:E; symmetry.
      * apply Z.leb_le in E. apply Z.leb_le. lia.
      * apply Z.leb_gt in E. apply Z.leb_gt. lia.
    + assert (E : (m1 <? m2) = false) by (apply Z.ltb_ge; lia). rewrite E.
      assert (E' : (m1 =? m2) = false) by (apply Z.eqb_neq; lia). rewrite E'. simpl.
      symmetry. apply Z.leb_gt.
      pose proof (days_before_month_mono y1 m2 m1 ltac:(lia) Mgt ltac:(lia)). lia.
  - assert (E : (y1 <? y2) = false) by (apply Z.ltb_ge; lia). rewrite E.
    assert (E' : (y1 =? y2) = false) by (apply Z.eqb_neq; lia). rewrite E'. simpl.
    symmetry. apply Z.leb_gt.
    pose proof (days_before_next_year y2).
    pose proof (days_before_year_mono (y2 + 1) y1 ltac:(lia)). lia.
Qed.

Open Scope string_scope.

(* ------------------------------------------------------------------ *)
(** ** analyze_history.py: the 24 h drift (C1, C8, C9) *)

Close Scope string_scope.

Lemma in_indexed_from {A} (l : list A) : forall k i a,
  In (i, a) (indexed_from k l) <-> (k <= i)%nat /\ nth_error l (i - k) = Some a.
Proof.
  unfold indexed_from. induction l as [|x l IH]; intros k i a; simpl.
  - split; [tauto|]. intros [_ H]. destruct (i - k)%nat; discriminate.
  - rewrite IH. split.
    + intros [E | [Hle Hn]].
      * inversion E; subst. split; [lia|]. now rewrite Nat.sub_diag.
      * split; [lia|]. replace (i - k)%nat with (S (i - S k)) by lia. exact Hn.
    + intros [Hle Hn]. destruct (Nat.eq_dec i k) as [->|Hne].
      * rewrite Nat.sub_diag in Hn. simpl in Hn. left. congruence.
      * right. split; [lia|]. replace (i - k)%nat with (S (i - S k)) in Hn by lia. exact Hn.
Qed.

Lemma map_fst_indexed_from {A} (l : list A) k :
  map fst (indexed_from k l) = seq k (List.length l).
Proof.
  unfold indexed_from. revert k. induction l; intro k; simpl; [reflexivity|].
  now rewrite IHl.
Qed.

Lemma map_snd_indexed_from {A} (l : list A) k :
  map snd (indexed_from k l) = l.
Proof.
  unfold indexed_from. revert k. induction l; intro k; simpl; [reflexivity|].
  now rewrite IHl.
Qed.

Lemma map_snd_filter {A B} (P : B -> bool) (l : list (A * B)) :
  map snd (filter (fun x => P (snd x)) l) = filter P (map snd l).
Proof.
  induction l as [|x l IH]; simpl; [reflexivity|].
  destruct (P (snd x)); simpl; now rewrite IH.
Qed.

Lemma NoDup_map_fst_filter {A B} (P : A * B -> bool) (l : list (A * B)) :
  NoDup (map fst l) -> NoDup (map fst (filter P l)).
Proof.
  induction l as [|x l IH]; simpl; intro H; [constructor|].
  inversion H; subst. destruct (P x); simpl; auto.
  constructor; auto. intro Hin. apply H2.
  apply in_map_iff in Hin. destruct Hin as [y [E Hy]]. apply filter_In in Hy.
  apply in_map_iff. exists y. tauto.
Qed.

Lemma NoDup_map_fst_inj {A B} (l : list (A * B)) :
  NoDup (map fst l) -> forall x y, In x l -> In y l -> fst x = fst y -> x = y.
Proof.
  induction l as [|z l IH]; simpl; intros H x y Hx Hy E; [tauto|].
  inversion H; subst.
  destruct Hx as [-> | Hx], Hy as [-> | Hy]; auto.
  - exfalso. apply H2. rewrite E. now apply in_map.
  - exfalso. apply H2. rewrite <- E. now apply in_map.
Qed.

Lemma NoDup_map_fst {A B} (l : list (A * B)) : NoDup (map fst l) -> NoDup l.
Proof.
  induction l as [|z l IH]; simpl; intro H; [constructor|].
  inversion H; subst. constructor; auto. intro Hin. apply H2. now apply in_map.
Qed.

Lemma time_eqb_eq a b : time_eqb a b = true <-> a = b.
Proof.
  destruct a as [x|], b as [y|]; simpl; split; intro H; try congruence.
  - apply Z.eqb_eq in H. congruence.
  - inversion H. apply Z.eqb_refl.
Qed.

Lemma matches_consecutive a b : matches a b = true <-> consecutive a b.
Proof.
  unfold matches, key_eqb, consecutive; simpl.
  rewrite andb_true_iff, !time_eqb_eq. split; intros [H1 H2]; split; congruence.
Qed.

Lemma merge_block (a : nat * forecast_row) ys :
  map merged_row
    (map (pair (make_left (snd a)))
       (filter (fun r => key_eqb (l_valid_time (make_left (snd a)),
                                  l_next_issue_date (make_left (snd a)))
                                 (valid_time r, issue_date r)) (map snd ys)))
  = map pair_at (map (pair a) (filter (fun y => matches (snd a) (snd y)) ys)).
Proof.
  induction ys as [|y ys IH]; simpl; [reflexivity|].
  unfold matches at 1. simpl.
  destruct (key_eqb _ (valid_time (snd y), issue_date (snd y))); simpl; [|exact IH].
  f_equal. exact IH.
Qed.

Lemma merge_as_cands xs ys :
  map merged_row
    (merge_inner key_eqb (fun l => (l_valid_time l, l_next_issue_date l))
       (fun r => (valid_time r, issue_date r))
       (map make_left (map snd xs)) (map snd ys))
  = map pair_at (cands xs ys).
Proof.
  unfold merge_inner, cands.
  induction xs as [|a xs IH]; simpl; [reflexivity|].
  rewrite !map_app, IH. f_equal. apply merge_block.
Qed.

Lemma compute_as_cands df :
  compute_24h_forecast_drift df = map pair_at (cands (kept df) (kept df)).
Proof.
  unfold compute_24h_forecast_drift, dropna.
  rewrite <- merge_as_cands. unfold kept.
  now rewrite map_snd_filter, map_snd_indexed_from.
Qed.

Lemma in_kept df i a :
  In (i, a) (kept df) <-> nth_error df i = Some a /\ notna_row a = true.
Proof.
  unfold kept. rewrite filter_In, in_indexed_from. simpl.
  rewrite Nat.sub_0_r. split; intros H; intuition lia.
Qed.

Lemma NoDup_kept df : NoDup (map fst (kept df)).
Proof.
  unfold kept. apply NoDup_map_fst_filter.
  rewrite map_fst_indexed_from. apply seq_NoDup.
Qed.

Lemma in_cands xs ys x y :
  In (x, y) (cands xs ys) <-> In x xs /\ In y ys /\ matches (snd x) (snd y) = true.
Proof.
  unfold cands. rewrite in_flat_map. split.
  - intros [x' [Hx Hin]]. apply in_map_iff in Hin. destruct Hin as [y' [E Hy]].
    inversion E; subst. apply filter_In in Hy. tauto.
  - intros [Hx [Hy Hm]]. exists x. split; [exact Hx|].
    apply in_map. apply filter_In. tauto.
Qed.

Lemma NoDup_idx_cands xs ys :
  NoDup (map fst xs) -> NoDup (map fst ys) -> NoDup (map idx_pair (cands xs ys)).
Proof.
  intros Hxs Hys. unfold cands.
  induction xs as [|a xs IH]; simpl; [constructor|].
  simpl in Hxs. apply NoDup_cons_iff in Hxs. destruct Hxs as [Hnin Hnd].
  rewrite map_app. apply NoDup_app.
  - rewrite map_map. unfold idx_pair; simpl.
    assert (Hf : NoDup (map fst (filter (fun y => matches (snd a) (snd y)) ys)))
      by now apply NoDup_map_fst_filter.
    revert Hf. generalize (filter (fun y => matches (snd a) (snd y)) ys).
    induction l as [|y l IHl]; simpl; intro Hf; [constructor|].
    apply NoDup_cons_iff in Hf. destruct Hf as [Hy Hl]. constructor; auto.
    intro Hin. apply in_map_iff in Hin. destruct Hin as [z [E Hz]].
    inversion E as [E']. apply Hy. rewrite <- E'. now apply in_map.
  - now apply IH.
  - intros ij Hin1 Hin2.
    apply in_map_iff in Hin1. destruct Hin1 as [q1 [E1 Hq1]].
    apply in_map_iff in Hq1. destruct Hq1 as [y1 [Ey1 _]]. subst q1.
    apply in_map_iff in Hin2. destruct Hin2 as [q2 [E2 Hq2]].
    apply in_flat_map in Hq2. destruct Hq2 as [x2 [Hx2 Hq2]].
    apply in_map_iff in Hq2. destruct Hq2 as [y2 [Ey2 _]]. subst q2.
    unfold idx_pair in *; simpl in *. subst ij. inversion E2 as [[E3 E4]].
    apply Hnin. rewrite <- E3. now apply in_map.
Qed.

Lemma pair_at_is_pair_of x y : is_pair_of (snd x) (snd y) (pair_at (x, y)).
Proof. unfold is_pair_of, pair_at; simpl. repeat split. Qed.

Lemma drift_one_pair_per_match df :
  one_pair_per_match (fun r => notna_row r = true) df (compute_24h_forecast_drift df).
Proof.
  exists (map idx_pair (cands (kept df) (kept df))). split; [|split].
  - apply NoDup_idx_cands; apply NoDup_kept.
  - intros i j. rewrite in_map_iff. split.
    + intros [[[i' a] [j' b]] [E Hin]]. unfold idx_pair in E; simpl in E.
      inversion E; subst. apply in_cands in Hin. simpl in Hin.
      destruct Hin as [Ha [Hb Hm]]. apply in_kept in Ha, Hb.
      exists a, b. rewrite <- matches_consecutive. tauto.
    + intros [a [b [Ha [Hb [Ea [Eb Hc]]]]]].
      exists ((i, a), (j, b)). split; [reflexivity|].
      apply in_cands. simpl. rewrite !in_kept, matches_consecutive. tauto.
  - rewrite compute_as_cands.
    assert (H : forall q, In q (cands (kept df) (kept df)) ->
                 In (fst q) (kept df) /\ In (snd q) (kept df)).
    { intros [x y] Hq. apply in_cands in Hq. simpl. tauto. }
    revert H. generalize (cands (kept df) (kept df)).
    induction l as [|[[i a] [j b]] l IH]; simpl; intro H; constructor.
    + destruct (H _ (or_introl eq_refl)) as [Ha Hb]. simpl in *.
      apply in_kept in Ha, Hb. exists a, b. unfold idx_pair; simpl.
      split; [tauto|]. split; [tauto|]. apply (pair_at_is_pair_of (i, a) (j, b)).
    + apply IH. intros q Hq. apply H. now right.
Qed.

(** C1, counterexample.  Two rows issued on consecutive days for the same
    valid time, the first with a missing (NaN) [surf_mid]: the claim as stated
    asks for a pair, [dropna] removes the row and the result is empty. *)
Lemma drift_join_ignores_missing_surf_counterexample :
  ~ one_pair_per_match (fun _ => True) rows_with_missing_surf
      (compute_24h_forecast_drift rows_with_missing_surf).
Proof.
  intros [ps [_ [Hin Hall]]].
  assert (E : compute_24h_forecast_drift rows_with_missing_surf = []) by reflexivity.
  rewrite E in Hall. inversion Hall; subst.
  apply (Hin 0%nat 1%nat).
  eexists. eexists. simpl. repeat split.
Qed.

(** C1, amended.  For every dataset, the result of
    [compute_24h_forecast_drift] is in one-to-one correspondence with the
    ordered pairs of row positions (i, j) whose rows have no missing
    [issue_date], [valid_time] or [surf_mid], with [issue_date] of row j equal
    to that of row i plus one day and equal [valid_time]; the pair carries
    [error = surf_mid_Dplus1 - surf_mid_D] and [abs_error = |error|].  The two
    rows 3.0 / 3.5 of the specification give one pair with error 0.5; rows
    issued two days apart give none. *)
Theorem drift_exact_join_on_present_rows :
  (forall df, one_pair_per_match (fun r => notna_row r = true) df
                (compute_24h_forecast_drift df))
  /\ map (fun p => (surf_mid_D p, surf_mid_Dplus1 p, error p, abs_error p))
         (compute_24h_forecast_drift spec_rows_consecutive)
     = [(3.0, 3.5, 0.5, 0.5)%float]
  /\ compute_24h_forecast_drift spec_rows_two_days_apart = [].
Proof.
  split; [exact drift_one_pair_per_match|]. split; reflexivity.
Qed.

Lemma time_eqb_sym a b : time_eqb a b = time_eqb b a.
Proof. destruct a, b; simpl; auto using Z.eqb_sym. Qed.

Lemma filter_const_true {A B} (f : A -> B) (P : B -> bool) (l : list A) :
  (forall a, P (f a) = true) -> List.length (filter P (map f l)) = List.length l.
Proof. intro H. induction l; simpl; [reflexivity|]. rewrite H. simpl. now rewrite IHl. Qed.

Lemma filter_const_false {A B} (f : A -> B) (P : B -> bool) (l : list A) :
  (forall a, P (f a) = false) -> List.length (filter P (map f l)) = 0%nat.
Proof. intro H. induction l; simpl; [reflexivity|]. now rewrite H. Qed.

Lemma pairs_with_key_merge d t (L Rt : list forecast_row) :
  pairs_with_key d t
    (map merged_row
       (merge_inner key_eqb (fun l => (l_valid_time l, l_next_issue_date l))
          (fun r => (valid_time r, issue_date r)) (map make_left L) Rt))
  = (List.length (filter (has_key d t) L) * List.length (filter (has_key (d + one_day) t) Rt))%nat.
Proof.
  unfold pairs_with_key, merge_inner.
  induction L as [|a L IH]; simpl; [reflexivity|].
  rewrite map_app, filter_app, length_app, IH. clear IH.
  rewrite map_map.
  destruct (has_key d t a) eqn:Hk.
  - simpl. f_equal.
    rewrite filter_const_true.
    + f_equal. apply filter_ext. intro r.
      unfold has_key in *. apply andb_true_iff in Hk. destruct Hk as [Hd Ht].
      apply time_eqb_eq in Hd, Ht. unfold key_eqb; simpl. rewrite Hd, Ht.
      change (add_timedelta (Some d) one_day) with (Some (d + one_day)).
      rewrite (time_eqb_sym (Some t)), (time_eqb_sym (Some (d + one_day))).
      apply andb_comm.
    + intro r. exact Hk.
  - simpl. rewrite filter_const_false; [reflexivity|]. intro r. exact Hk.
Qed.

Lemma filter_filter {A} (P Q : A -> bool) (l : list A) :
  filter P (filter Q l) = filter (fun a => Q a && P a) l.
Proof.
  induction l as [|a l IH]; simpl; [reflexivity|].
  destruct (Q a); simpl; [destruct (P a)|]; now rewrite IH.
Qed.

(** C8, amended.  With m the number of rows of key (d, t) and n the number of
    rows of key (d + 1 day, t), counting only rows whose [surf_mid] is not
    missing, the result holds exactly m * n pairs of that key. *)
Theorem drift_fan_out_on_present_rows (df : list forecast_row) (d t : Z) :
  pairs_with_key d t (compute_24h_forecast_drift df)
  = (rows_with_key notna_row d t df * rows_with_key notna_row (d + one_day) t df)%nat.
Proof.
  unfold compute_24h_forecast_drift. rewrite pairs_with_key_merge.
  unfold dropna, rows_with_key. now rewrite !filter_filter.
Qed.

(** C8, counterexample.  One row of key (d, t) with a missing [surf_mid] and
    one row of key (d + 1 day, t): m = n = 1 as the claim counts, and there is
    no pair. *)
Lemma drift_fan_out_counts_missing_surf_counterexample :
  let d := 1735689600 * 1000000000 in
  let t := 1735797600 * 1000000000 in
  rows_with_key (fun _ => true) d t rows_with_missing_surf = 1%nat
  /\ rows_with_key (fun _ => true) (d + one_day) t rows_with_missing_surf = 1%nat
  /\ pairs_with_key d t (compute_24h_forecast_drift rows_with_missing_surf) = 0%nat.
Proof. repeat split. Qed.




(* the same on the folder itself: the two files read as these rows, and the
   script reports that nothing overlaps *)
Example main_two_days_apart :
  read_forecast_folder read_two_days_apart folder_two_days_apart
  = Ok spec_rows_two_days_apart
  /\ main read_two_days_apart folder_two_days_apart = Ok (0%nat, NoOverlap).
Proof. split; vm_compute; reflexivity. Qed.

Open Scope string_scope.

(* ------------------------------------------------------------------ *)
(** ** The flatteners (C3, C4, C6) *)

(* C6 *)
(** C6, counterexample.  [SurfCSV.flatten] does not return the three-field row
    on the payload of the specification. *)
Lemma surf_flatten_adds_human_relation_counterexample :
  SurfCSV.flatten (payload "surf" [spec_point])
  <> Ok [[("timestamp", VInt 1700000000); ("surf_min", VFloat 2.1);
          ("surf_max", VFloat 3.4)]].
Proof. vm_compute. discriminate. Qed.

(** C6, amended.  On a payload whose series holds the single point
    {timestamp, surf: {min, max}}, [WaveCSV.flatten] returns exactly one row
    {timestamp, surf_min, surf_max}; [SurfCSV.flatten] returns exactly one row
    with these three fields and [surf_humanRelation] set to None.  Both hold
    for all field values, and in particular for 1700000000, 2.1 and 3.4. *)
Theorem flatten_single_surf_point (ts mn mx : value) :
  WaveCSV.flatten (payload "wave" [surf_point ts mn mx])
  = Ok [[("timestamp", ts); ("surf_min", mn); ("surf_max", mx)]]
  /\ SurfCSV.flatten (payload "surf" [surf_point ts mn mx])
     = Ok [[("timestamp", ts); ("surf_min", mn); ("surf_max", mx);
            ("surf_humanRelation", VNone)]]
  /\ WaveCSV.flatten (payload "wave" [spec_point])
     = Ok [[("timestamp", VInt 1700000000); ("surf_min", VFloat 2.1);
            ("surf_max", VFloat 3.4)]]
  /\ SurfCSV.flatten (payload "surf" [spec_point])
     = Ok [[("timestamp", VInt 1700000000); ("surf_min", VFloat 2.1);
            ("surf_max", VFloat 3.4); ("surf_humanRelation", VNone)]].
Proof.
  split; [reflexivity|]. split; [|split; reflexivity].
  destruct ts; reflexivity.
Qed.

(* C3 *)
(** C3, the failing input.  On the payload {"data": null} every flattener but
    [SpectraCSV] raises AttributeError ([None] has no [get]); [SpectraCSV],
    which checks the type of [data], returns no row.  A series holding a point
    that is not an object makes [SurfCSV.flatten] raise as well. *)
Theorem flatten_null_data_raises :
  SurfCSV.flatten null_data_payload = Raise AttributeError
  /\ SwellsCSV.flatten null_data_payload = Raise AttributeError
  /\ RatingCSV.flatten null_data_payload = Raise AttributeError
  /\ SunlightCSV.flatten null_data_payload = Raise AttributeError
  /\ WindCSV.flatten null_data_payload = Raise AttributeError
  /\ TidesCSV.flatten null_data_payload = Raise AttributeError
  /\ RegionConditionsCSV.flatten null_data_payload = Raise AttributeError
  /\ WaveCSV.flatten null_data_payload = Raise AttributeError
  /\ SpectraCSV.flatten null_data_payload = Ok []
  /\ SurfCSV.flatten (payload "surf" [VInt 1]) = Raise AttributeError
  /\ SpectraCSV.flatten (payload "spectra" [VInt 1]) = Ok [].
Proof. repeat split. Qed.

(** C4, counterexample.  [SwellsCSV.flatten] on a point with seven swell
    components returns seven rows, the seventh component included. *)
Lemma swells_flatten_keeps_seventh_component_counterexample :
  exists rows,
    SwellsCSV.flatten (payload "swells" [swells_point_7]) = Ok rows
    /\ List.length rows = 7%nat
    /\ In [("timestamp", VInt 1700000000); ("component_index", VInt 7);
           ("swell_height", VInt 7)] rows.
Proof. eexists. split; [reflexivity|]. split; [reflexivity|]. simpl. tauto. Qed.

Lemma simple_fields_keys prefix kv : forall out0 e,
  In e (fold_left (fun out e => if is_simple (snd e)
                                then dict_set out (prefix ++ fst e) (snd e)
                                else out) kv out0) ->
  In e out0 \/ exists k, fst e = prefix ++ k.
Proof.
  induction kv as [|x kv IH]; intros out0 e H; simpl in H; [now left|].
  apply IH in H. destruct H as [H|H]; [|now right].
  destruct (is_simple (snd x)); [|now left].
  apply in_dict_set in H. destruct H as [H|H]; [now left|].
  right. eauto.
Qed.

Lemma flatten_component_index ts i kv :
  exists row,
    SwellsCSV.flatten_component ts (i, VDict kv) = Ok row
    /\ dict_get row "component_index" = Some (VInt (Z.of_nat i))
    /\ dict_get row "timestamp" = Some ts.
Proof.
  unfold SwellsCSV.flatten_component, _flatten_simple_fields, bind.
  cbn [fst snd]. eexists. split; [reflexivity|].
  assert (H : forall e,
            In e (fold_left (fun out e => if is_simple (snd e)
                                          then dict_set out ("swell_" ++ fst e) (snd e)
                                          else out) kv []) ->
            fst e <> "component_index" /\ fst e <> "timestamp").
  { intros e He. apply simple_fields_keys in He.
    destruct He as [[]|[k Hk]]. rewrite Hk. split; discriminate. }
  split; (rewrite dict_update_get_other; [reflexivity|]); intros e He; now apply H.
Qed.

Lemma swells_rows ts : forall comps start,
  Forall (fun c => is_dict c = true) comps ->
  exists rows,
    mapM (SwellsCSV.flatten_component ts) (enumerate_from start comps) = Ok rows
    /\ map (fun r => dict_get r "component_index") rows
       = map (fun i => Some (VInt (Z.of_nat i))) (seq start (List.length comps)).
Proof.
  unfold enumerate_from.
  induction comps as [|c comps IH]; intros start Hd; [simpl; eauto|].
  apply Forall_cons_iff in Hd. destruct Hd as [Hc Hd].
  destruct c as [| | | | | |kv]; try discriminate.
  destruct (IH (S start) Hd) as [rows [Hrows Hidx]].
  destruct (flatten_component_index ts start kv) as [row [Hrow [Hi _]]].
  exists (row :: rows). cbn [List.length seq combine mapM map].
  rewrite Hrow, Hrows, Hi, Hidx. split; reflexivity.
Qed.

Lemma get_dict kv k default :
  get (VDict kv) k default
  = Ok (match dict_get kv k with Some v => v | None => default end).
Proof. reflexivity. Qed.

Lemma wave_point_first_six kv c1 c2 c3 c4 c5 c6 rest :
  dict_get kv "swells"
  = Some (VList (VDict c1 :: VDict c2 :: VDict c3 :: VDict c4 :: VDict c5
                 :: VDict c6 :: rest)) ->
  surf_block_ok kv = true ->
  WaveCSV.flatten_point (VDict kv) = Ok (wave_row kv [c1; c2; c3; c4; c5; c6]).
Proof.
  intros Hsw Hsurf. unfold WaveCSV.flatten_point, wave_row.
  rewrite !get_dict, Hsw. cbn [bind].
  unfold surf_block_ok in Hsurf. cbn [field] in *.
  destruct (py_or match dict_get kv "surf" with
                  | Some v => v
                  | None => VNone
                  end (VDict [])) as [| | | | | |sb] eqn:Esurf; try discriminate.
  rewrite !get_dict. cbn [bind].
  destruct rest; reflexivity.
Qed.

Lemma field_set_other kv k v k' :
  k <> k' -> field (VDict (dict_set kv k v)) k' = field (VDict kv) k'.
Proof. intro H. unfold field. now rewrite dict_get_set_other. Qed.

Lemma wave_row_set_swells kv v cs :
  wave_row (dict_set kv "swells" v) cs = wave_row kv cs.
Proof.
  unfold wave_row. now rewrite !field_set_other by discriminate.
Qed.

(** C4, amended.  For a point whose swell list has N > 6 components (each an
    object): [WaveCSV.flatten] gives a row whose columns are exactly
    timestamp, surf_min, surf_max and swell1_* .. swell6_*, filled from the
    first six components in order, and the row is the one obtained from the
    point with the other N - 6 components removed.  [SwellsCSV.flatten] does
    not truncate: it gives one row per component, indexed 1 .. N. *)
Theorem swell_components_per_flattener (kv : dict) (comps : list value)
    (Hsw : dict_get kv "swells" = Some (VList comps))
    (Hlen : (6 < List.length comps)%nat)
    (Hdicts : Forall (fun c => is_dict c = true) comps)
    (Hsurf : surf_block_ok kv = true) :
  (exists row,
     WaveCSV.flatten_point (VDict kv) = Ok row
     /\ map fst row = Analyze._expected_column_names
     /\ (forall i c, (i < 6)%nat -> nth_error comps i = Some c ->
           dict_get row ("swell" ++ str_of_nat (S i) ++ "_height_m")
           = Some (field c "height")
           /\ dict_get row ("swell" ++ str_of_nat (S i) ++ "_period_s")
              = Some (field c "period")
           /\ dict_get row ("swell" ++ str_of_nat (S i) ++ "_direction_deg")
              = Some (field c "direction"))
     /\ WaveCSV.flatten_point (VDict (dict_set kv "swells" (VList (firstn 6 comps))))
        = Ok row)
  /\ (exists rows,
        SwellsCSV.flatten_point (VDict kv) = Ok rows
        /\ List.length rows = List.length comps
        /\ map (fun r => dict_get r "component_index") rows
           = map (fun i => Some (VInt (Z.of_nat i))) (seq 1 (List.length comps))).
Proof.
  split.
  - destruct comps as [|x1 [|x2 [|x3 [|x4 [|x5 [|x6 [|x7 rest]]]]]]];
      simpl in Hlen; try lia.
    repeat (apply Forall_cons_iff in Hdicts; destruct Hdicts as [? Hdicts]).
    destruct x1 as [| | | | | |c1]; try discriminate.
    destruct x2 as [| | | | | |c2]; try discriminate.
    destruct x3 as [| | | | | |c3]; try discriminate.
    destruct x4 as [| | | | | |c4]; try discriminate.
    destruct x5 as [| | | | | |c5]; try discriminate.
    destruct x6 as [| | | | | |c6]; try discriminate.
    exists (wave_row kv [c1; c2; c3; c4; c5; c6]).
    split; [now apply wave_point_first_six with (rest := x7 :: rest)|].
    split; [reflexivity|]. split.
    + intros i c Hi Hc.
      do 6 (destruct i as [|i];
            [simpl in Hc; inversion Hc; subst c; repeat split; reflexivity|]).
      lia.
    + cbn [firstn].
      rewrite <- (wave_row_set_swells kv
                    (VList [VDict c1; VDict c2; VDict c3; VDict c4; VDict c5; VDict c6])).
      apply wave_point_first_six with (rest := []).
      * apply dict_get_set_same.
      * unfold surf_block_ok in *. now rewrite field_set_other by discriminate.
  - unfold SwellsCSV.flatten_point. rewrite !get_dict, Hsw. cbn [bind].
    assert (E : py_or (VList comps) (VList []) = VList comps)
      by (destruct comps; [simpl in Hlen; lia | reflexivity]).
    rewrite E.
    destruct (swells_rows (match dict_get kv "timestamp" with
                           | Some v => v
                           | None => VNone
                           end) comps 1 Hdicts) as [rows [Hrows Hidx]].
    exists rows. split; [exact Hrows|]. split; [|exact Hidx].
    apply mapM_length in Hrows. rewrite Hrows. unfold enumerate_from.
    rewrite length_combine, length_seq. lia.
Qed.

(** C4 at a point with seven components. *)
Lemma swell_components_per_flattener_witness :
  let comps := map (fun h => VDict [("height", VInt h)]) [1; 2; 3; 4; 5; 6; 7] in
  let kv := [("timestamp", VInt 1700000000); ("swells", VList comps)] in
  (exists row,
     WaveCSV.flatten_point (VDict kv) = Ok row
     /\ map fst row = Analyze._expected_column_names
     /\ (forall i c, (i < 6)%nat -> nth_error comps i = Some c ->
           dict_get row ("swell" ++ str_of_nat (S i) ++ "_height_m")
           = Some (field c "height")
           /\ dict_get row ("swell" ++ str_of_nat (S i) ++ "_period_s")
              = Some (field c "period")
           /\ dict_get row ("swell" ++ str_of_nat (S i) ++ "_direction_deg")
              = Some (field c "direction"))
     /\ WaveCSV.flatten_point (VDict (dict_set kv "swells" (VList (firstn 6 comps))))
        = Ok row)
  /\ (exists rows,
        SwellsCSV.flatten_point (VDict kv) = Ok rows
        /\ List.length rows = List.length comps
        /\ map (fun r => dict_get r "component_index") rows
           = map (fun i => Some (VInt (Z.of_nat i))) (seq 1 (List.length comps))).
Proof.
  intros comps kv.
  apply (swell_components_per_flattener kv comps).
  - reflexivity.
  - simpl. lia.
  - repeat constructor.
  - reflexivity.
Defined.

(* ------------------------------------------------------------------ *)
(** ** SurflineAPI._get: rate limiting (C2) *)

Lemma portable_delay_sleeps n :
  n <= max_portable_delay ->
  format_overflows (IntSeconds n) = false /\ sleep_overflows (IntSeconds n) = false.
Proof.
  intro H. unfold format_overflows, sleep_overflows.
  assert (L : max_portable_delay < float_int_limit) by (vm_compute; reflexivity).
  assert (S : max_portable_delay <= sleep_int_limit) by (vm_compute; discriminate).
  split; [apply Z.leb_gt | apply Z.ltb_ge]; lia.
Qed.

Lemma wait_for_usable r attempt :
  usable_header (retry_after r) = true ->
  exists s, wait_for r attempt = Ok s
            /\ format_overflows s = false /\ sleep_overflows s = false.
Proof.
  unfold usable_header, wait_for. destruct (retry_after r) as [h|]; [|eauto].
  intro H. destruct (String.eqb h "") eqn:E0; simpl; [eauto|].
  destruct (isdigit h) eqn:Ed; simpl; [|eauto].
  simpl in H. destruct (int_of_digits h) as [n|e]; [|discriminate].
  exists (IntSeconds n). split; [reflexivity|].
  apply portable_delay_sleeps. now apply Z.leb_le.
Qed.

Lemma attempts_all_429 server url params :
  (forall log, exists r, server log = Delivered r /\ status_code r = 429
                         /\ usable_header (retry_after r) = true) ->
  forall n attempt w,
    exists w', attempts server n attempt url params w = (w', Raise RuntimeError)
      /\ List.length (requests w') = (List.length (requests w) + n)%nat
      /\ List.length (sleeps w') = (List.length (sleeps w) + n)%nat
      /\ files w' = files w.
Proof.
  intros Hsrv. induction n as [|n IH]; intros attempt w; simpl.
  - exists w. repeat split; lia.
  - destruct (Hsrv (requests w ++ [mk_request url params attempt])%list)
      as [r [Hr [H429 Hh]]].
    rewrite Hr. unfold is_http_error. rewrite H429. simpl.
    destruct (wait_for_usable r attempt Hh) as [s [Hs [Hf Hsl]]].
    rewrite Hs, Hf, Hsl.
    match goal with |- context [attempts server n (S attempt) url params ?w1] =>
      destruct (IH (S attempt) w1) as [w' [E [Hreq [Hsl' Hfi]]]] end.
    exists w'. rewrite E. simpl in *. rewrite length_app in *. simpl in *.
    repeat split; try lia. exact Hfi.
Qed.

Lemma attempts_backoff server url params :
  (forall log, exists r, server log = Delivered r /\ status_code r = 429
                         /\ retry_after r = None) ->
  forall n attempt w,
    sleeps (fst (attempts server n attempt url params w))
    = (sleeps w ++ map (fun a => FloatSeconds (backoff a)) (seq attempt n))%list.
Proof.
  intros Hsrv. induction n as [|n IH]; intros attempt w; simpl.
  - now rewrite app_nil_r.
  - destruct (Hsrv (requests w ++ [mk_request url params attempt])%list)
      as [r [Hr [H429 Hh]]].
    rewrite Hr. unfold is_http_error. rewrite H429. simpl.
    unfold wait_for. rewrite Hh. cbn [format_overflows sleep_overflows].
    rewrite IH. simpl.
    now rewrite <- app_assoc.
Qed.

(** C2, the failing input.  Every response is a 429 whose Retry-After header
    is the superscript two (byte 178 in Latin-1): [isdigit] accepts it, [int]
    does not, and [_get] raises ValueError after a single request, without
    sleeping. *)
Theorem get_non_ascii_digit_retry_after_raises_ValueError :
  isdigit superscript_two = true
  /\ int_of_digits superscript_two = Raise ValueError
  /\ snd (_get (always_429 (Some superscript_two)) (mk_api None) BASE_SURF [] None
            empty_world) = Raise ValueError
  /\ List.length (requests (fst (_get (always_429 (Some superscript_two)) (mk_api None)
                                   BASE_SURF [] None empty_world))) = 1%nat
  /\ sleeps (fst (_get (always_429 (Some superscript_two)) (mk_api None)
                    BASE_SURF [] None empty_world)) = [].
Proof. repeat split. Qed.



(** X2.  If every response is a 429 without Retry-After header, the delays
    [_get] sleeps are 5, 10, 15, 20 and 25 seconds, in this order: the base
    delay times the attempt number, strictly increasing over the attempts
    1 to 5. *)
Theorem get_linear_backoff_without_retry_after
    (server : list request -> transport) (api : SurflineAPI) (url : string)
    (params : dict) (token : option string) (w : world)
    (Hsrv : forall log, exists r, server log = Delivered r /\ status_code r = 429
                                  /\ retry_after r = None) :
  sleeps (fst (_get server api url params token w))
  = (sleeps w ++ map FloatSeconds [5; 10; 15; 20; 25]%float)%list
  /\ snd (_get server api url params token w) = Raise RuntimeError
  /\ (forall a b, (1 <= a)%nat -> (a < b)%nat -> (b <= 5)%nat ->
        PrimFloat.ltb (backoff a) (backoff b) = true).
Proof.
  split; [|split].
  - unfold _get. rewrite (attempts_backoff server _ _ Hsrv). reflexivity.
  - unfold _get.
    match goal with |- snd (attempts server ?n ?a ?u ?p ?w0) = _ =>
      destruct (attempts_all_429 server u p) with n a w0 as [w' [E _]] end.
    + intro log. destruct (Hsrv log) as [r [H1 [H2 H3]]]. exists r.
      rewrite H3. auto.
    + now rewrite E.
  - intros a b Ha Hab Hb.
    assert (Ca : (a = 1 \/ a = 2 \/ a = 3 \/ a = 4)%nat) by lia.
    assert (Cb : (b = 2 \/ b = 3 \/ b = 4 \/ b = 5)%nat) by lia.
    repeat (destruct Ca as [Ca | Ca]); repeat (destruct Cb as [Cb | Cb]);
      subst a b; try lia; reflexivity.
Qed.

(** X2 at the server that always answers 429 with no header. *)
Lemma get_linear_backoff_without_retry_after_witness :
  sleeps (fst (_get (always_429 None) (mk_api None) BASE_SURF [] None empty_world))
  = (sleeps empty_world ++ map FloatSeconds [5; 10; 15; 20; 25]%float)%list
  /\ snd (_get (always_429 None) (mk_api None) BASE_SURF [] None empty_world)
     = Raise RuntimeError
  /\ (forall a b, (1 <= a)%nat -> (a < b)%nat -> (b <= 5)%nat ->
        PrimFloat.ltb (backoff a) (backoff b) = true).
Proof.
  apply (get_linear_backoff_without_retry_after (always_429 None) (mk_api None)
           BASE_SURF [] None empty_world).
  intro log. exists (rate_limited None). repeat split.
Defined.

(* ------------------------------------------------------------------ *)
(** ** The harvest loop (C7, C10) *)

Lemma dict_get_setdefault_other d k v k' :
  k <> k' -> dict_get (setdefault d k v) k' = dict_get d k'.
Proof.
  intro Hne. unfold setdefault. destruct (dict_get d k); [reflexivity|].
  now apply dict_get_set_other.
Qed.

Section Frames.
Variable server : list request -> transport.
Variable io_fault : string -> bool.

Lemma attempts_started url params : forall n attempt w,
  (2 <= attempt)%nat ->
  started (fst (attempts server n attempt url params w)) = started w.
Proof.
  induction n as [|n IH]; intros attempt w Ha; simpl; [reflexivity|].
  assert (Hlog : started (log_request (mk_request url params attempt) w) = started w).
  { unfold started, log_request; simpl. rewrite filter_app; simpl.
    unfold is_first at 2; simpl.
    destruct (Nat.eqb_spec attempt 1); [lia|]. now rewrite app_nil_r. }
  destruct (server _) as [r|e]; simpl; [|exact Hlog].
  destruct (is_http_error r); simpl; [|exact Hlog].
  destruct (status_code r =? 429)%Z; simpl; [|exact Hlog].
  destruct (wait_for r attempt) as [s|e]; simpl; [|exact Hlog].
  destruct (format_overflows s); simpl; [exact Hlog|].
  destruct (sleep_overflows s); simpl; [exact Hlog|].
  rewrite IH by lia. exact Hlog.
Qed.

Lemma attempts_first_started url params w :
  started (fst (attempts server max_attempts 1 url params w))
  = (started w ++ [(url, dict_get params "start")])%list.
Proof.
  unfold max_attempts. generalize 4%nat. intro n. simpl.
  assert (Hlog : started (log_request (mk_request url params 1) w)
                 = (started w ++ [(url, dict_get params "start")])%list).
  { unfold started, log_request; simpl. rewrite filter_app, map_app. reflexivity. }
  destruct (server _) as [r|e]; simpl; [|exact Hlog].
  destruct (is_http_error r); simpl; [|exact Hlog].
  destruct (status_code r =? 429)%Z; simpl; [|exact Hlog].
  destruct (wait_for r 1) as [s|e]; simpl; [|exact Hlog].
  destruct (format_overflows s); simpl; [exact Hlog|].
  destruct (sleep_overflows s); simpl; [exact Hlog|].
  rewrite attempts_started by lia. exact Hlog.
Qed.

Lemma get_started api url params tok w :
  started (fst (_get server api url params tok w))
  = (started w ++ [(url, dict_get params "start")])%list.
Proof.
  unfold _get. rewrite attempts_first_started.
  destruct (_resolve_token api tok) as [t|]; [|reflexivity].
  destruct (str_truthy (Some t)); [|reflexivity].
  rewrite dict_get_setdefault_other by discriminate. reflexivity.
Qed.

Lemma write_rows_requests rows path w :
  requests (fst (_write_dict_rows io_fault rows path w)) = requests w.
Proof.
  unfold _write_dict_rows. destruct rows as [|r rows]; [reflexivity|].
  set (w1 := if String.eqb (dirname path) "" then w else makedirs (dirname path) w).
  assert (H1 : requests w1 = requests w).
  { unfold w1. destruct (String.eqb (dirname path) ""); [reflexivity|].
    unfold makedirs. now destruct (existsb _ _). }
  unfold write_file. destruct (_ || _); simpl; exact H1.
Qed.

End Frames.

Lemma append_nonempty a c b : String.eqb (a ++ String c b) "" = false.
Proof. destruct a; reflexivity. Qed.

Lemma strftime_iso_truthy d : str_truthy (Some (strftime_iso d)) = true.
Proof.
  unfold str_truthy, strftime_iso.
  change ("-" ++ pad2 (month d) ++ "-" ++ pad2 (day d))
    with (String "-"%char (pad2 (month d) ++ "-" ++ pad2 (day d))).
  now rewrite append_nonempty.
Qed.

Section Progress.
Variable server : list request -> transport.
Variable io_fault : string -> bool.
Variable api : SurflineAPI.
Variable j : job.

Lemma fetch_started k s w :
  str_truthy (Some s) = true ->
  started (fst (fetch server api j k s w))
  = (started w ++ [(endpoint k, Some (VStr s))])%list.
Proof.
  intro Hs.
  destruct k; unfold fetch, get_surf, get_swells, get_rating, get_spectra,
    get_sunlight, get_wind, get_tides, get_region_conditions;
    rewrite get_started; unfold with_start; rewrite Hs;
    rewrite dict_get_set_same; reflexivity.
Qed.

Lemma started_print_err m w : started (print_err m w) = started w.
Proof. reflexivity. Qed.

Lemma harvest_kind_started k s tag w :
  str_truthy (Some s) = true ->
  started (harvest_kind server io_fault api j k s tag w)
  = (started w ++ [(endpoint k, Some (VStr s))])%list.
Proof.
  intro Hs. unfold harvest_kind.
  pose proof (fetch_started k s w Hs) as Hf.
  destruct (fetch server api j k s w) as [w1 [payload|e]]; simpl in Hf;
    [|now rewrite started_print_err].
  destruct (flatten k payload) as [rows|e]; [|now rewrite started_print_err].
  pose proof (write_rows_requests io_fault rows (out_path j k tag) w1) as Hw.
  destruct (_write_dict_rows io_fault rows (out_path j k tag) w1) as [w2 [u|e]];
    simpl in Hw; rewrite ?started_print_err; unfold started; rewrite Hw; exact Hf.
Qed.

Lemma fold_kinds_started s tag : forall ks w,
  str_truthy (Some s) = true ->
  started (fold_left (fun w k => harvest_kind server io_fault api j k s tag w) ks w)
  = (started w ++ map (fun k => (endpoint k, Some (VStr s))) ks)%list.
Proof.
  induction ks as [|k ks IH]; intros w Hs; simpl.
  - now rewrite app_nil_r.
  - rewrite IH by exact Hs. rewrite harvest_kind_started by exact Hs.
    now rewrite <- app_assoc.
Qed.

Lemma harvest_day_started d w :
  started (harvest_day server io_fault api j d w)
  = (started w ++ map (fun k => (endpoint k, Some (VStr (strftime_iso d))))
                      (day_kinds j))%list.
Proof.
  unfold harvest_day.
  assert (E : forall w', started
            (if PrimFloat.ltb 0 SLEEP_BETWEEN_DAYS
             then sleep (FloatSeconds SLEEP_BETWEEN_DAYS)
                    (print_out (MsgSleeping SLEEP_BETWEEN_DAYS) w')
             else w') = started w').
  { intro w'. destruct (PrimFloat.ltb 0 SLEEP_BETWEEN_DAYS); reflexivity. }
  rewrite E, fold_kinds_started by apply strftime_iso_truthy. reflexivity.
Qed.

Lemma harvest_loop_runs end_date : forall n cur w,
  valid cur = true -> valid end_date = true ->
  Z.to_nat (toordinal end_date - toordinal cur + 1) = n ->
  exists w',
    harvest_loop server io_fault api j (S n) cur end_date w = Some w'
    /\ started w'
       = (started w
          ++ flat_map (fun d => map (fun k => (endpoint k, Some (VStr (strftime_iso d))))
                                    (day_kinds j))
                      (days_from cur n))%list.
Proof.
  induction n as [|n IH]; intros cur w Hc He Hn.
  - simpl. rewrite (leb_toordinal _ _ Hc He).
    destruct (Z.leb_spec (toordinal cur) (toordinal end_date)); [lia|].
    exists w. now rewrite app_nil_r.
  - cbn [harvest_loop]. rewrite (leb_toordinal _ _ Hc He).
    destruct (Z.leb_spec (toordinal cur) (toordinal end_date)); [|lia].
    destruct (IH (next_day cur) (harvest_day server io_fault api j cur w))
      as [w' [Hrun Hst]].
    + now apply next_day_valid.
    + exact He.
    + rewrite toordinal_next_day by exact Hc. lia.
    + exists w'. split; [exact Hrun|].
      rewrite Hst, harvest_day_started. simpl. now rewrite <- app_assoc.
Qed.

End Progress.

Lemma toordinal_days_from : forall n d k e,
  valid d = true -> nth_error (days_from d n) k = Some e ->
  valid e = true /\ toordinal e = toordinal d + Z.of_nat k.
Proof.
  induction n as [|n IH]; intros d k e Hd Hk; simpl in Hk.
  - destruct k; discriminate.
  - destruct k as [|k]; simpl in Hk.
    + inversion Hk; subst. split; [exact Hd|lia].
    + destruct (IH _ _ _ (next_day_valid _ Hd) Hk) as [Hv Ho].
      split; [exact Hv|]. rewrite Ho, toordinal_next_day by exact Hd. lia.
Qed.

Lemma length_days_from n : forall d, List.length (days_from d n) = n.
Proof. induction n; intro d; simpl; auto. Qed.

Lemma toordinal_inj a b :
  valid a = true -> valid b = true -> toordinal a = toordinal b -> a = b.
Proof.
  intros Ha Hb E.
  assert (L1 : Datetime.leb a b = true)
    by (rewrite leb_toordinal by assumption; apply Z.leb_le; lia).
  assert (L2 : Datetime.leb b a = true)
    by (rewrite leb_toordinal by assumption; apply Z.leb_le; lia).
  destruct a as [y1 m1 d1], b as [y2 m2 d2]. unfold Datetime.leb in *; simpl in *.
  rewrite ?orb_true_iff, ?andb_true_iff, ?Z.ltb_lt, ?Z.eqb_eq, ?Z.leb_le in L1, L2.
  assert (y1 = y2) by lia. subst.
  assert (m1 = m2) by lia. subst.
  assert (d1 = d2) by lia. subst. reflexivity.
Qed.

Lemma in_days_between s e d :
  valid s = true -> valid e = true -> valid d = true ->
  (In d (days_between s e) <-> Datetime.leb s d = true /\ Datetime.leb d e = true).
Proof.
  intros Hs He Hd. unfold days_between.
  rewrite (leb_toordinal _ _ Hs Hd), (leb_toordinal _ _ Hd He), !Z.leb_le.
  split.
  - intro Hin. apply In_nth_error in Hin. destruct Hin as [k Hk].
    assert (Hlt : (k < Z.to_nat (toordinal e - toordinal s + 1))%nat).
    { rewrite <- (length_days_from (Z.to_nat (toordinal e - toordinal s + 1)) s).
      apply nth_error_Some. congruence. }
    destruct (toordinal_days_from _ _ _ _ Hs Hk) as [_ Ho]. lia.
  - intros [H1 H2].
    set (n := Z.to_nat (toordinal e - toordinal s + 1)).
    set (k := Z.to_nat (toordinal d - toordinal s)).
    assert (Hlt : (k < List.length (days_from s n))%nat)
      by (rewrite length_days_from; unfold k, n; lia).
    apply nth_error_Some in Hlt.
    destruct (nth_error (days_from s n) k) as [x|] eqn:Hx; [|congruence].
    destruct (toordinal_days_from _ _ _ _ Hs Hx) as [Hv Ho].
    assert (x = d) by (apply toordinal_inj; auto; unfold k in Ho; lia).
    subst x. eapply nth_error_In; eauto.
Qed.

Lemma attempts_files server url params : forall n attempt w,
  files (fst (attempts server n attempt url params w)) = files w
  /\ dirs (fst (attempts server n attempt url params w)) = dirs w.
Proof.
  induction n as [|n IH]; intros attempt w; simpl; [auto|].
  destruct (server _) as [r|e]; simpl; [|auto].
  destruct (is_http_error r); simpl; [|auto].
  destruct (status_code r =? 429)%Z; simpl; [|auto].
  destruct (wait_for r attempt) as [s|e]; simpl; [|auto].
  destruct (format_overflows s); simpl; [auto|].
  destruct (sleep_overflows s); simpl; [auto|].
  destruct (IH (S attempt)
              (sleep s (print_err (MsgRateLimit url attempt max_attempts s)
                 (log_request (mk_request url params attempt) w)))) as [H1 H2].
  now rewrite H1, H2.
Qed.

Lemma fetch_files server api j k s w :
  files (fst (fetch server api j k s w)) = files w
  /\ dirs (fst (fetch server api j k s w)) = dirs w.
Proof.
  destruct k; unfold fetch, get_surf, get_swells, get_rating, get_spectra,
    get_sunlight, get_wind, get_tides, get_region_conditions, _get;
    apply attempts_files.
Qed.

(** C10.  Both CSV writers, given no rows, only print a warning to stderr:
    files, directories and stdout are untouched.  Hence a fetched payload that
    flattens to no row leaves the file system as it was. *)
Theorem empty_rows_write_nothing
    (server : list request -> transport) (io_fault : string -> bool)
    (api : SurflineAPI) (j : job) (k : kind) (start_str date_tag path : string)
    (w w1 : world) (payload : value)
    (Hfetch : fetch server api j k start_str w = (w1, Ok payload))
    (Hflat : flatten k payload = Ok []) :
  _write_dict_rows io_fault [] path w = (print_err (MsgWarnNoRows path) w, Ok tt)
  /\ WaveCSV_write_dict_rows io_fault [] path w
     = (print_err (MsgWarnNoRows path) w, Ok tt)
  /\ files (print_err (MsgWarnNoRows path) w) = files w
  /\ dirs (print_err (MsgWarnNoRows path) w) = dirs w
  /\ stdout (print_err (MsgWarnNoRows path) w) = stdout w
  /\ files (harvest_kind server io_fault api j k start_str date_tag w) = files w
  /\ dirs (harvest_kind server io_fault api j k start_str date_tag w) = dirs w.
Proof.
  repeat (split; [reflexivity|]).
  unfold harvest_kind. rewrite Hfetch, Hflat. simpl.
  pose proof (fetch_files server api j k start_str w) as H.
  rewrite Hfetch in H. exact H.
Qed.

(** C10 at a server answering the empty object. *)
Lemma empty_rows_write_nothing_witness :
  let w := empty_world in
  let path := out_path job_example Surf "20250101" in
  _write_dict_rows (fun _ => false) [] path w = (print_err (MsgWarnNoRows path) w, Ok tt)
  /\ WaveCSV_write_dict_rows (fun _ => false) [] path w
     = (print_err (MsgWarnNoRows path) w, Ok tt)
  /\ files (print_err (MsgWarnNoRows path) w) = files w
  /\ dirs (print_err (MsgWarnNoRows path) w) = dirs w
  /\ stdout (print_err (MsgWarnNoRows path) w) = stdout w
  /\ files (harvest_kind (ok_server (VDict [])) (fun _ => false) (mk_api None)
              job_example Surf "2025-01-01" "20250101" w) = files w
  /\ dirs (harvest_kind (ok_server (VDict [])) (fun _ => false) (mk_api None)
             job_example Surf "2025-01-01" "20250101" w) = dirs w.
Proof.
  intros w path.
  eapply (empty_rows_write_nothing (ok_server (VDict [])) (fun _ => false)
            (mk_api None) job_example Surf "2025-01-01" "20250101" path w _ (VDict [])).
  - reflexivity.
  - reflexivity.
Defined.

(** C7.  Whatever the network answers and whichever paths the file system
    refuses, the day loop terminates, and the series fetches it has begun are
    exactly one per configured series kind, in order, for each day of
    [days_between start_date end_date]; these days are exactly the dates from
    [start_date] to [end_date] inclusive. *)
Theorem harvest_completes_despite_failures
    (server : list request -> transport) (io_fault : string -> bool)
    (api : SurflineAPI) (j : job) (start_date end_date : date) (w : world)
    (Hstart : valid start_date = true) (Hend : valid end_date = true) :
  exists fuel w',
    harvest_loop server io_fault api j fuel start_date end_date w = Some w'
    /\ started w' = (started w ++ schedule j start_date end_date)%list
    /\ (forall d, valid d = true ->
          (In d (days_between start_date end_date)
           <-> Datetime.leb start_date d = true /\ Datetime.leb d end_date = true)).
Proof.
  destruct (harvest_loop_runs server io_fault api j end_date
              (Z.to_nat (toordinal end_date - toordinal start_date + 1))
              start_date w Hstart Hend eq_refl) as [w' [Hrun Hst]].
  exists (S (Z.to_nat (toordinal end_date - toordinal start_date + 1))), w'.
  split; [exact Hrun|]. split; [exact Hst|].
  intros d Hd. now apply in_days_between.
Qed.

(** C7 at a network that always fails and a file system that refuses every
    path, over the end of February 2025. *)
Lemma harvest_completes_despite_failures_witness :
  let s := mk_date 2025 2 27 in
  let e := mk_date 2025 3 1 in
  exists fuel w',
    harvest_loop failing_server (fun _ => true) (mk_api None) job_example fuel s e
      empty_world = Some w'
    /\ started w' = (started empty_world ++ schedule job_example s e)%list
    /\ (forall d, valid d = true ->
          (In d (days_between s e)
           <-> Datetime.leb s d = true /\ Datetime.leb d e = true)).
Proof.
  intros s e.
  apply (harvest_completes_despite_failures failing_server (fun _ => true)
           (mk_api None) job_example s e empty_world); reflexivity.
Defined.

Example harvest_failing_server_trace :
  exists w',
    harvest_loop failing_server (fun _ => true) (mk_api None) job_example 4
      (mk_date 2025 2 28) (mk_date 2025 3 1) empty_world = Some w'
    /\ map snd (started w')
       = (repeat (Some (VStr "2025-02-28")) 7 ++ repeat (Some (VStr "2025-03-01")) 7)%list
    /\ List.length (stderr w') = 14%nat
    /\ files w' = [].
Proof. eexists. split; [vm_compute; reflexivity|]. repeat split. Qed.

(* ------------------------------------------------------------------ *)
(** ** File names and issue dates (C5) *)

Lemma digit_facts k :
  0 <= k <= 9 ->
  is_ascii_digit (digit k) = true /\ digit_value (digit k) = k
  /\ IO.is_slash (digit k) = false.
Proof.
  intro H.
  assert (C : k = 0 \/ k = 1 \/ k = 2 \/ k = 3 \/ k = 4 \/ k = 5 \/ k = 6 \/
              k = 7 \/ k = 8 \/ k = 9) by lia.
  repeat (destruct C as [C | C]); subst k; vm_compute; auto.
Qed.

Lemma search_name c1 c2 c3 c4 c5 c6 :
  forallb is_ascii_digit [c1; c2; c3; c4; c5; c6] = true ->
  search (list_ascii_of_string (name_of_digits c1 c2 c3 c4 c5 c6))
  = Some [c1; c2; c3; c4; c5; c6].
Proof.
  intro H. unfold name_of_digits. cbn. unfold match_here. cbn.
  cbn in H. rewrite H. reflexivity.
Qed.

Lemma path_name_of_digits c1 c2 c3 c4 c5 c6 :
  forallb (fun c => negb (IO.is_slash c)) [c1; c2; c3; c4; c5; c6] = true ->
  Path_name ("forecasts/" ++ name_of_digits c1 c2 c3 c4 c5 c6)
  = name_of_digits c1 c2 c3 c4 c5 c6.
Proof.
  cbn. rewrite !andb_true_iff, !negb_true_iff.
  intros (H1 & H2 & H3 & H4 & H5 & H6 & _).
  unfold Path_name, name_of_digits. cbn. rewrite H1, H2, H3, H4, H5, H6. reflexivity.
Qed.

Lemma int_of_two_digits a b :
  is_ascii_digit a = true -> is_ascii_digit b = true ->
  int_of_digits (string_of_list_ascii [a; b]) = Ok (10 * digit_value a + digit_value b).
Proof.
  intros Ha Hb. unfold int_of_digits. cbn. rewrite Ha, Hb. cbn. f_equal.
Qed.

Lemma pad2_digits n :
  0 <= n <= 99 -> 0 <= n / 10 <= 9 /\ 0 <= n mod 10 <= 9 /\ 10 * (n / 10) + n mod 10 = n.
Proof. intro H. Z.div_mod_to_equations. lia. Qed.

Lemma out_path_shape d :
  OUT_PATH d
  = "forecasts/" ++ name_of_digits
      (digit (year d mod 100 / 10)) (digit ((year d mod 100) mod 10))
      (digit (month d / 10)) (digit (month d mod 10))
      (digit (day d / 10)) (digit (day d mod 10)).
Proof. reflexivity. Qed.

(** C5, amended.  For every date of the years 2000 to 2099, the path
    [OUT_PATH] of [surfline_hb_northside.py] has the name
    forecast_wave_<tag>.csv with a tag of six decimal digits, and
    [_parse_issue_date_from_name] recovers the date from that name. *)
Theorem northside_filename_roundtrip (d : date)
    (Hvalid : valid d = true) (Hcentury : 2000 <= year d <= 2099) :
  String.length (strftime_ymd d) = 6%nat
  /\ forallb is_ascii_digit (list_ascii_of_string (strftime_ymd d)) = true
  /\ Path_name (OUT_PATH d) = "forecast_wave_" ++ strftime_ymd d ++ ".csv"
  /\ _parse_issue_date_from_name (Path_name (OUT_PATH d)) = Ok d.
Proof.
  pose proof Hvalid as Hv. apply valid_iff in Hv. destruct Hv as (Hy & Hm & Hd).
  pose proof (days_in_month_bounds (year d) (month d)) as Hdim.
  destruct (pad2_digits (year d mod 100)) as (Y1 & Y2 & Y3);
    [Z.div_mod_to_equations; lia|].
  destruct (pad2_digits (month d)) as (M1 & M2 & M3); [lia|].
  destruct (pad2_digits (day d)) as (D1 & D2 & D3); [lia|].
  destruct (digit_facts _ Y1) as (Ya & Yb & Yc).
  destruct (digit_facts _ Y2) as (Ya' & Yb' & Yc').
  destruct (digit_facts _ M1) as (Ma & Mb & Mc).
  destruct (digit_facts _ M2) as (Ma' & Mb' & Mc').
  destruct (digit_facts _ D1) as (Da & Db & Dc).
  destruct (digit_facts _ D2) as (Da' & Db' & Dc').
  assert (Hdigits : forallb is_ascii_digit (list_ascii_of_string (strftime_ymd d)) = true).
  { change (list_ascii_of_string (strftime_ymd d))
      with [digit (year d mod 100 / 10); digit ((year d mod 100) mod 10);
            digit (month d / 10); digit (month d mod 10);
            digit (day d / 10); digit (day d mod 10)].
    cbn [forallb]. now rewrite Ya, Ya', Ma, Ma', Da, Da'. }
  split; [reflexivity|]. split; [exact Hdigits|].
  rewrite out_path_shape, path_name_of_digits
    by (cbn [forallb]; now rewrite Yc, Yc', Mc, Mc', Dc, Dc').
  split; [reflexivity|].
  unfold _parse_issue_date_from_name.
  rewrite search_name by exact Hdigits.
  cbn [firstn skipn].
  rewrite !int_of_two_digits by assumption. cbn [bind].
  rewrite Yb, Yb', Mb, Mb', Db, Db', Y3, M3, D3.
  replace (2000 + year d mod 100) with (year d) by (Z.div_mod_to_equations; lia).
  unfold Timestamp. destruct d as [y m dd]. cbn [year month day].
  now rewrite Hvalid.
Qed.

(** C5 at 2025-11-10, the example of the docstring. *)
Lemma northside_filename_roundtrip_witness :
  String.length (strftime_ymd (mk_date 2025 11 10)) = 6%nat
  /\ forallb is_ascii_digit (list_ascii_of_string (strftime_ymd (mk_date 2025 11 10))) = true
  /\ Path_name (OUT_PATH (mk_date 2025 11 10))
     = "forecast_wave_" ++ strftime_ymd (mk_date 2025 11 10) ++ ".csv"
  /\ _parse_issue_date_from_name (Path_name (OUT_PATH (mk_date 2025 11 10)))
     = Ok (mk_date 2025 11 10).
Proof.
  apply (northside_filename_roundtrip (mk_date 2025 11 10)); [reflexivity | simpl; lia].
Defined.

(** C5, counterexample.  [harvest_forecasts_for_range] tags its files with
    eight digits ("%Y%m%d"), and [_parse_issue_date_from_name] rejects the
    name. *)
Lemma harvest_filename_tag_counterexample :
  let d := mk_date 2025 1 1 in
  let path := Harvest.out_path job_example Harvest.Surf
                (strftime_Ymd d) in
  path = "forecasts/HB_Pier/HB_Pier_surf_20250101.csv"
  /\ String.length (strftime_Ymd d) = 8%nat
  /\ _parse_issue_date_from_name (Path_name path) = Raise ValueError.
Proof. vm_compute. repeat split. Qed.

(* ------------------------------------------------------------------ *)
(** ** The CSV writer *)

Lemma existsb_eqb_in k acc : existsb (String.eqb k) acc = true <-> In k acc.
Proof.
  rewrite existsb_exists. split.
  - intros [x [Hx E]]. apply String.eqb_eq in E. now subst.
  - intro H. exists k. split; [exact H | apply String.eqb_refl].
Qed.

Lemma add_key_in acc e k : In k (add_key acc e) <-> In k acc \/ k = fst e.
Proof.
  unfold add_key. destruct (existsb (String.eqb (fst e)) acc) eqn:E.
  - apply existsb_eqb_in in E. split; [tauto|]. intros [H | ->]; assumption.
  - rewrite in_app_iff. simpl. intuition congruence.
Qed.

Lemma add_key_nodup acc e : NoDup acc -> NoDup (add_key acc e).
Proof.
  intro H. unfold add_key. destruct (existsb (String.eqb (fst e)) acc) eqn:E; [exact H|].
  apply NoDup_app; [exact H | repeat constructor; intros [] |].
  intros k Hk [<-|[]].
  assert (existsb (String.eqb (fst e)) acc = true) by now apply existsb_eqb_in.
  congruence.
Qed.

Lemma add_new_keys_spec r : forall acc,
  (NoDup acc -> NoDup (add_new_keys acc r))
  /\ (forall k, In k (add_new_keys acc r) <-> In k acc \/ In k (map fst r)).
Proof.
  unfold add_new_keys.
  induction r as [|e r IH]; intro acc; cbn [fold_left map].
  - split; [auto|]. intro k. simpl. tauto.
  - destruct (IH (add_key acc e)) as [IH1 IH2]. split.
    + intro H. apply IH1. now apply add_key_nodup.
    + intro k. unfold add_key in IH2. rewrite IH2.
      fold (add_key acc e). rewrite add_key_in. simpl. intuition congruence.
Qed.

Lemma union_fieldnames_spec rows : forall acc,
  (NoDup acc -> NoDup (fold_left add_new_keys rows acc))
  /\ (forall k, In k (fold_left add_new_keys rows acc)
                <-> In k acc \/ exists r, In r rows /\ In k (map fst r)).
Proof.
  induction rows as [|r rows IH]; intro acc; cbn [fold_left].
  - split; [auto|]. intro k. split; [tauto|]. intros [H|[r [[] _]]]. exact H.
  - destruct (IH (add_new_keys acc r)) as [IH1 IH2].
    destruct (add_new_keys_spec r acc) as [A1 A2]. split.
    + intro H. apply IH1, A1, H.
    + intro k. rewrite IH2, A2. split.
      * intros [[H|H]|[r' [H1 H2]]]; [now left | right; exists r; simpl; auto |].
        right. exists r'. simpl. auto.
      * intros [H|[r' [[<-|H1] H2]]]; [tauto | tauto |].
        right. exists r'. auto.
Qed.

Lemma dict_get_in_keys (r : dict) k : dict_get r k <> None <-> In k (map fst r).
Proof.
  induction r as [|[k' v] r IH]; simpl; [tauto|].
  destruct (String.eqb k k') eqn:E.
  - apply String.eqb_eq in E. subst. split; [auto | discriminate].
  - rewrite IH. split; [auto|]. intros [->|H]; [|exact H].
    rewrite String.eqb_refl in E. discriminate.
Qed.

(** X6.  The table the CSV writer lays out: its header lists every key that
    occurs in some row, each once; every record has one cell per column; and
    the cell of row i under column k is the value of k in row i (empty when
    the row lacks the key). *)
Theorem render_columns_are_the_union_of_keys (rows : list dict) :
  NoDup (header (render rows))
  /\ (forall k, In k (header (render rows))
                <-> exists r, In r rows /\ dict_get r k <> None)
  /\ List.length (records (render rows)) = List.length rows
  /\ (forall i r rec c k,
        nth_error rows i = Some r -> nth_error (records (render rows)) i = Some rec ->
        nth_error (header (render rows)) c = Some k ->
        nth_error rec c = Some (dict_get r k)).
Proof.
  unfold render. cbn [header records]. unfold union_fieldnames.
  destruct (union_fieldnames_spec rows []) as [H1 H2].
  split; [apply H1; constructor|]. split.
  - intro k. rewrite H2. split.
    + intros [[]|[r [Hr Hk]]]. exists r. split; [exact Hr|].
      now apply dict_get_in_keys.
    + intros [r [Hr Hk]]. right. exists r. split; [exact Hr|].
      now apply dict_get_in_keys.
  - split; [apply length_map|].
    intros i r rec c k Hr Hrec Hk.
    rewrite nth_error_map, Hr in Hrec. cbn in Hrec. inversion Hrec; subst rec.
    unfold to_record. rewrite nth_error_map, Hk. reflexivity.
Qed.

Lemma existsb_makedirs folder w :
  existsb (String.eqb folder) (dirs (makedirs folder w)) = true.
Proof.
  unfold makedirs. destruct (existsb (String.eqb folder) (dirs w)) eqn:E; [exact E|].
  cbn. now rewrite String.eqb_refl.
Qed.

Lemma find_remove_file path p fs :
  find (fun e => String.eqb (fst e) p) (remove_file path fs)
  = if String.eqb p path then None
    else find (fun e : string * csv_file => String.eqb (fst e) p) fs.
Proof.
  induction fs as [|[q c] fs IH]; cbn [remove_file find fst].
  - now destruct (String.eqb p path).
  - destruct (String.eqb q path) eqn:Eq.
    + rewrite IH. apply String.eqb_eq in Eq. subst q.
      destruct (String.eqb p path) eqn:Ep; [reflexivity|].
      rewrite String.eqb_sym, Ep. reflexivity.
    + cbn [find fst]. rewrite IH.
      destruct (String.eqb q p) eqn:Eqp; [|reflexivity].
      apply String.eqb_eq in Eqp. subst q. now rewrite Eq.
Qed.

Lemma filter_remove_file path fs :
  filter (fun e : string * csv_file => String.eqb (fst e) path) (remove_file path fs) = [].
Proof.
  induction fs as [|[q c] fs IH]; [reflexivity|].
  cbn [remove_file]. destruct (String.eqb q path) eqn:E; [exact IH|].
  cbn [filter fst]. now rewrite E.
Qed.

Lemma write_rows_ok io_fault r rows path w :
  io_fault path = false ->
  exists w',
    _write_dict_rows io_fault (r :: rows) path w = (w', Ok tt)
    /\ read_file path w' = Some (render (r :: rows))
    /\ (forall p, p <> path -> read_file p w' = read_file p w)
    /\ List.length (filter (fun e => String.eqb (fst e) path) (files w')) = 1%nat.
Proof.
  intro Hio. unfold _write_dict_rows, write_file. rewrite Hio.
  set (folder := dirname path).
  set (w1 := if String.eqb folder "" then w else makedirs folder w).
  assert (Hf : files w1 = files w).
  { unfold w1. destruct (String.eqb folder ""); [reflexivity|].
    unfold makedirs. now destruct (existsb _ _). }
  assert (Hd : negb (String.eqb folder "")
               && negb (existsb (String.eqb folder) (dirs w1)) = false).
  { unfold w1. destruct (String.eqb folder "") eqn:E; [reflexivity|].
    now rewrite existsb_makedirs. }
  cbn [orb]. rewrite Hd.
  eexists. split; [reflexivity|]. unfold read_file. cbn [files print_out].
  rewrite Hf. split; [|split].
  - cbn [find fst]. now rewrite String.eqb_refl.
  - intros p Hp. cbn [find fst].
    destruct (String.eqb path p) eqn:E; [apply String.eqb_eq in E; congruence|].
    rewrite find_remove_file.
    destruct (String.eqb p path) eqn:E'; [apply String.eqb_eq in E'; congruence|].
    reflexivity.
  - cbn [filter fst]. rewrite String.eqb_refl, filter_remove_file. reflexivity.
Qed.

(** X7.  Writing a non-empty table creates the folder of the path if needed
    and stores the table under the path; writing again to the same path
    replaces the earlier content (one file remains, holding the second table)
    and no other file changes. *)
Theorem write_dict_rows_overwrites
    (io_fault : string -> bool) (rows1 rows2 : list dict) (path : string) (w : world)
    (Hio : io_fault path = false) (H1 : rows1 <> []) (H2 : rows2 <> []) :
  exists w1 w2,
    _write_dict_rows io_fault rows1 path w = (w1, Ok tt)
    /\ read_file path w1 = Some (render rows1)
    /\ _write_dict_rows io_fault rows2 path w1 = (w2, Ok tt)
    /\ read_file path w2 = Some (render rows2)
    /\ List.length (filter (fun e => String.eqb (fst e) path) (files w2)) = 1%nat
    /\ (forall p, p <> path -> read_file p w2 = read_file p w).
Proof.
  destruct rows1 as [|r1 rows1]; [congruence|].
  destruct rows2 as [|r2 rows2]; [congruence|].
  destruct (write_rows_ok io_fault r1 rows1 path w Hio) as [w1 [E1 [R1 [O1 _]]]].
  destruct (write_rows_ok io_fault r2 rows2 path w1 Hio) as [w2 [E2 [R2 [O2 C2]]]].
  exists w1, w2. repeat split; try assumption.
  intros p Hp. rewrite O2, O1 by assumption. reflexivity.
Qed.

Lemma write_dict_rows_overwrites_witness :
  exists w1 w2,
    _write_dict_rows (fun _ => false) two_rows "forecasts/x.csv" empty_world = (w1, Ok tt)
    /\ read_file "forecasts/x.csv" w1 = Some (render two_rows)
    /\ _write_dict_rows (fun _ => false) [[("timestamp", VInt 3)]] "forecasts/x.csv" w1
       = (w2, Ok tt)
    /\ read_file "forecasts/x.csv" w2 = Some (render [[("timestamp", VInt 3)]])
    /\ List.length (filter (fun e => String.eqb (fst e) "forecasts/x.csv") (files w2))
       = 1%nat
    /\ (forall p, p <> "forecasts/x.csv" -> read_file p w2 = read_file p empty_world).
Proof.
  apply (write_dict_rows_overwrites (fun _ => false) two_rows
           [[("timestamp", VInt 3)]] "forecasts/x.csv" empty_world);
    [reflexivity | discriminate | discriminate].
Defined.

(* ------------------------------------------------------------------ *)
(** ** SurflineAPI._get and get_access_token: further properties *)

(** X3.  A response with an error status other than 429 is not retried:
    [_get] raises the HTTPError of that status after this one request, having
    slept and printed nothing. *)
Theorem get_propagates_other_http_errors
    (server : list request -> transport) (api : SurflineAPI) (url : string)
    (params : dict) (token : option string) (w : world) (r : response)
    (Hfirst : forall p, server (requests w ++ [mk_request url p 1])%list = Delivered r)
    (Herr : is_http_error r = true) (Hnot429 : status_code r <> 429) :
  snd (_get server api url params token w) = Raise (HTTPError (status_code r))
  /\ List.length (requests (fst (_get server api url params token w)))
     = S (List.length (requests w))
  /\ sleeps (fst (_get server api url params token w)) = sleeps w
  /\ stderr (fst (_get server api url params token w)) = stderr w
  /\ files (fst (_get server api url params token w)) = files w.
Proof.
  unfold _get, max_attempts. cbn [attempts log_request requests].
  rewrite Hfirst, Herr.
  destruct (Z.eqb_spec (status_code r) 429) as [E|_]; [contradiction|].
  cbn. rewrite length_app. cbn. repeat split; lia.
Qed.

Lemma get_propagates_other_http_errors_witness :
  snd (_get (once not_found) (mk_api None) BASE_SURF [] None empty_world)
  = Raise (HTTPError (status_code not_found))
  /\ List.length (requests (fst (_get (once not_found) (mk_api None) BASE_SURF [] None
                                   empty_world)))
     = S (List.length (requests empty_world))
  /\ sleeps (fst (_get (once not_found) (mk_api None) BASE_SURF [] None empty_world))
     = sleeps empty_world
  /\ stderr (fst (_get (once not_found) (mk_api None) BASE_SURF [] None empty_world))
     = stderr empty_world
  /\ files (fst (_get (once not_found) (mk_api None) BASE_SURF [] None empty_world))
     = files empty_world.
Proof.
  apply (get_propagates_other_http_errors (once not_found) (mk_api None) BASE_SURF []
           None empty_world not_found).
  - reflexivity.
  - reflexivity.
  - discriminate.
Defined.




Lemma attempts_requests_extend server url params : forall n attempt w,
  exists rest,
    requests (fst (attempts server n attempt url params w)) = (requests w ++ rest)%list.
Proof.
  induction n as [|n IH]; intros attempt w; cbn [attempts].
  - exists []. now rewrite app_nil_r.
  - assert (Hone : exists rest,
              requests (log_request (mk_request url params attempt) w)
              = (requests w ++ rest)%list) by (eexists; reflexivity).
    destruct (server _) as [r|e]; [|exact Hone].
    destruct (is_http_error r); [|exact Hone].
    destruct (status_code r =? 429)%Z; [|exact Hone].
    destruct (wait_for r attempt) as [s|e]; [|exact Hone].
    destruct (format_overflows s); [exact Hone|].
    destruct (sleep_overflows s); [exact Hone|].
    match goal with |- context [attempts server n (S attempt) url params ?w1] =>
      destruct (IH (S attempt) w1) as [rest Hrest] end.
    rewrite Hrest. cbn. rewrite <- app_assoc. eexists. reflexivity.
Qed.

Lemma attempts_first_request server url params n attempt w :
  nth_error (requests (fst (attempts server (S n) attempt url params w)))
            (List.length (requests w))
  = Some (mk_request url params attempt).
Proof.
  cbn [attempts].
  assert (Hone : nth_error (requests (log_request (mk_request url params attempt) w))
                           (List.length (requests w))
                 = Some (mk_request url params attempt)).
  { cbn. rewrite nth_error_app2 by lia. now rewrite Nat.sub_diag. }
  destruct (server _) as [r|e]; [|exact Hone].
  destruct (is_http_error r); [|exact Hone].
  destruct (status_code r =? 429)%Z; [|exact Hone].
  destruct (wait_for r attempt) as [s|e]; [|exact Hone].
  destruct (format_overflows s); [exact Hone|].
  destruct (sleep_overflows s); [exact Hone|].
  match goal with |- context [attempts server n (S attempt) url params ?w1] =>
    destruct (attempts_requests_extend server url params n (S attempt) w1)
      as [rest Hrest] end.
  rewrite Hrest. cbn. rewrite <- app_assoc. cbn.
  rewrite nth_error_app2 by lia. now rewrite Nat.sub_diag.
Qed.

(** X5.  The first request [_get] sends goes to the given endpoint and carries
    the caller's parameters, plus the access token unless the parameters
    already hold one: the token given with the call if it is non-empty, else
    the token stored at login if it is non-empty, else none. *)
Theorem get_attaches_resolved_token
    (server : list request -> transport) (api : SurflineAPI) (url : string)
    (params : dict) (token : option string) (w : world) :
  exists r,
    nth_error (requests (fst (_get server api url params token w)))
              (List.length (requests w)) = Some r
    /\ req_url r = url /\ req_attempt r = 1%nat
    /\ dict_get (req_params r) "accessToken"
       = match dict_get params "accessToken" with
         | Some v => Some v
         | None => option_map VStr (token_of api token)
         end
    /\ (forall k, k <> "accessToken" ->
          dict_get (req_params r) k = dict_get params k).
Proof.
  unfold _get, max_attempts. rewrite attempts_first_request.
  eexists. split; [reflexivity|]. cbn [req_url req_attempt req_params].
  split; [reflexivity|]. split; [reflexivity|].
  unfold _resolve_token, token_of.
  destruct token as [t|]; cbn [str_truthy].
  - destruct (negb (String.eqb t "")) eqn:Et.
    + cbn [str_truthy]. rewrite Et. split.
      * unfold setdefault. destruct (dict_get params "accessToken") eqn:E.
        -- exact E.
        -- apply dict_get_set_same.
      * intros k Hk. unfold setdefault.
        destruct (dict_get params "accessToken"); [reflexivity|].
        apply dict_get_set_other. congruence.
    + destruct (_access_token api) as [s|]; cbn [str_truthy].
      * destruct (negb (String.eqb s "")) eqn:Es.
        -- split.
           ++ unfold setdefault. destruct (dict_get params "accessToken") eqn:E.
              ** exact E.
              ** apply dict_get_set_same.
           ++ intros k Hk. unfold setdefault.
              destruct (dict_get params "accessToken"); [reflexivity|].
              apply dict_get_set_other. congruence.
        -- split; [now destruct (dict_get params "accessToken")|reflexivity].
      * split; [now destruct (dict_get params "accessToken")|reflexivity].
  - destruct (_access_token api) as [s|]; cbn [str_truthy].
    + destruct (negb (String.eqb s "")) eqn:Es.
      * split.
        -- unfold setdefault. destruct (dict_get params "accessToken") eqn:E.
           ++ exact E.
           ++ apply dict_get_set_same.
        -- intros k Hk. unfold setdefault.
           destruct (dict_get params "accessToken"); [reflexivity|].
           apply dict_get_set_other. congruence.
      * split; [now destruct (dict_get params "accessToken")|reflexivity].
    + split; [now destruct (dict_get params "accessToken")|reflexivity].
Qed.




(** X20.  [get_access_token] never returns an empty token: a token it returns
    is truthy and is the [accessToken] field of the reply when that field is
    truthy, else its [access_token] field; a reply that is an object with
    neither makes it raise RuntimeError, and an error status raises the
    HTTPError of that status. *)
Theorem get_access_token_contract (posted : transport) :
  (forall token, get_access_token posted = Ok token ->
     truthy token = true
     /\ exists r kv,
          posted = Delivered r /\ is_http_error r = false /\ json r = Ok (VDict kv)
          /\ token = (if truthy (field (VDict kv) "accessToken")
                      then field (VDict kv) "accessToken"
                      else field (VDict kv) "access_token"))
  /\ (forall r kv, posted = Delivered r -> is_http_error r = false ->
        json r = Ok (VDict kv) ->
        truthy (field (VDict kv) "accessToken") = false ->
        truthy (field (VDict kv) "access_token") = false ->
        get_access_token posted = Raise RuntimeError)
  /\ (forall r, posted = Delivered r -> is_http_error r = true ->
        get_access_token posted = Raise (HTTPError (status_code r))).
Proof.
  split; [|split].
  - intros token H. unfold get_access_token in H.
    destruct posted as [r|e]; [|discriminate].
    destruct (is_http_error r) eqn:Eerr; [discriminate|].
    destruct (json r) as [data|e] eqn:Ej; [|discriminate]. cbn [bind] in H.
    destruct data as [| | | | | |kv]; try discriminate.
    rewrite get_dict in H. cbn [bind] in H.
    change (match dict_get kv "accessToken" with Some v => v | None => VNone end)
      with (field (VDict kv) "accessToken") in H.
    destruct (truthy (field (VDict kv) "accessToken")) eqn:Ea; cbn [bind] in H.
    + rewrite Ea in H. inversion H; subst token. split; [exact Ea|].
      exists r, kv. rewrite Ea. auto.
    + rewrite get_dict in H. cbn [bind] in H.
      change (match dict_get kv "access_token" with Some v => v | None => VNone end)
        with (field (VDict kv) "access_token") in H.
      destruct (truthy (field (VDict kv) "access_token")) eqn:Eb; [|discriminate].
      inversion H; subst token. split; [exact Eb|].
      exists r, kv. rewrite Ea. auto.
  - intros r kv -> Herr Hj Ha Hb. unfold get_access_token.
    rewrite Herr, Hj. cbn [bind]. rewrite get_dict. cbn [bind].
    change (match dict_get kv "accessToken" with Some v => v | None => VNone end)
      with (field (VDict kv) "accessToken").
    rewrite Ha. cbn [bind]. rewrite get_dict. cbn [bind].
    change (match dict_get kv "access_token" with Some v => v | None => VNone end)
      with (field (VDict kv) "access_token").
    now rewrite Hb.
  - intros r -> Herr. unfold get_access_token. now rewrite Herr.
Qed.

(* ------------------------------------------------------------------ *)
(** ** The flatteners: further properties *)

Lemma in_dict_set_entry d k v e :
  In e (dict_set d k v) -> In e d \/ (fst e = k /\ snd e = v).
Proof.
  induction d as [|[k0 v0] d IH]; simpl.
  - intros [<-|[]]. now right.
  - destruct (String.eqb k k0) eqn:E; simpl.
    + apply String.eqb_eq in E. subst k0. intros [<-|H]; auto.
    + intros [<-|H]; auto. destruct (IH H); auto.
Qed.

Lemma append_inj p a b : p ++ a = p ++ b -> a = b.
Proof. induction p as [|c p IH]; simpl; intro H; [exact H|]. inversion H. auto. Qed.

Lemma dict_get_absent (kv : dict) k : ~ In k (map fst kv) -> dict_get kv k = None.
Proof.
  induction kv as [|[k0 v0] kv IH]; simpl; intro H; [reflexivity|].
  destruct (String.eqb k k0) eqn:E.
  - apply String.eqb_eq in E. subst. tauto.
  - apply IH. tauto.
Qed.

Lemma simple_fields_lookup prefix kv : forall acc k,
  NoDup (map fst kv) ->
  dict_get (fold_left (keep_simple prefix) kv acc) (prefix ++ k)
  = match dict_get kv k with
    | Some v => if is_simple v then Some v else dict_get acc (prefix ++ k)
    | None => dict_get acc (prefix ++ k)
    end.
Proof.
  induction kv as [|[k0 v0] kv IH]; intros acc k Hnd; cbn [fold_left].
  - reflexivity.
  - cbn [map fst] in Hnd. apply NoDup_cons_iff in Hnd. destruct Hnd as [Hnin Hnd].
    rewrite IH by exact Hnd. cbn [dict_get].
    destruct (String.eqb k k0) eqn:E.
    + apply String.eqb_eq in E. subst k0.
      rewrite (dict_get_absent kv k Hnin).
      unfold keep_simple. cbn [fst snd].
      destruct (is_simple v0); [apply dict_get_set_same | reflexivity].
    + assert (Hne : prefix ++ k0 <> prefix ++ k).
      { intro H. apply append_inj in H. subst. rewrite String.eqb_refl in E.
        discriminate. }
      assert (Hacc : dict_get (keep_simple prefix acc (k0, v0)) (prefix ++ k)
                     = dict_get acc (prefix ++ k)).
      { unfold keep_simple. cbn [fst snd].
        destruct (is_simple v0); [now apply dict_get_set_other | reflexivity]. }
      rewrite Hacc. reflexivity.
Qed.

Lemma simple_fields_values prefix kv : forall acc e,
  In e (fold_left (keep_simple prefix) kv acc) ->
  In e acc \/ (is_simple (snd e) = true /\ exists k, fst e = prefix ++ k /\ In k (map fst kv)).
Proof.
  induction kv as [|x kv IH]; intros acc e H; cbn [fold_left] in H; [now left|].
  apply IH in H. destruct H as [H|[H1 [k [H2 H3]]]].
  - unfold keep_simple in H. destruct (is_simple (snd x)) eqn:Es; [|now left].
    apply in_dict_set_entry in H. destruct H as [H|[H1 H2]]; [now left|].
    right. split; [congruence|]. exists (fst x). split; [exact H1 | now left].
  - right. split; [exact H1|]. exists k. split; [exact H2 | now right].
Qed.

(** X8.  [_flatten_simple_fields] on an object with distinct keys keeps
    exactly its scalar fields (strings, numbers, booleans, null) under the
    prefixed key and drops nested lists and objects: a prefixed key maps to
    the value of the key if that value is a scalar and is absent otherwise,
    and every entry of the result is a prefixed key of the object with a
    scalar value. *)
Theorem flatten_simple_fields_keeps_scalars
    (kv : dict) (prefix : string) (Hkeys : NoDup (map fst kv)) :
  exists out,
    _flatten_simple_fields (VDict kv) prefix = Ok out
    /\ (forall k, dict_get out (prefix ++ k)
                  = match dict_get kv k with
                    | Some v => if is_simple v then Some v else None
                    | None => None
                    end)
    /\ (forall e, In e out ->
          is_simple (snd e) = true
          /\ exists k, fst e = prefix ++ k /\ In k (map fst kv)).
Proof.
  eexists. split; [reflexivity|]. split.
  - intro k. change (fun out e => if is_simple (snd e)
                                  then dict_set out (prefix ++ fst e) (snd e)
                                  else out) with (keep_simple prefix).
    rewrite simple_fields_lookup by exact Hkeys. cbn [dict_get].
    destruct (dict_get kv k) as [v|]; [destruct (is_simple v)|]; reflexivity.
  - intros e He. apply (simple_fields_values prefix kv []) in He.
    destruct He as [[]|He]. exact He.
Qed.

Lemma flatten_simple_fields_keeps_scalars_witness :
  exists out,
    _flatten_simple_fields (VDict wind_point) "wind_" = Ok out
    /\ (forall k, dict_get out ("wind_" ++ k)
                  = match dict_get wind_point k with
                    | Some v => if is_simple v then Some v else None
                    | None => None
                    end)
    /\ (forall e, In e out ->
          is_simple (snd e) = true
          /\ exists k, fst e = "wind_" ++ k /\ In k (map fst wind_point)).
Proof.
  apply (flatten_simple_fields_keeps_scalars wind_point "wind_").
  repeat constructor; simpl; intuition discriminate.
Defined.

Lemma simple_fields_dict kv prefix :
  _flatten_simple_fields (VDict kv) prefix = Ok (fold_left (keep_simple prefix) kv []).
Proof. reflexivity. Qed.

Lemma dict_update_get_kept other : forall d k,
  dict_get d k <> None -> dict_get (dict_update d other) k <> None.
Proof.
  unfold dict_update.
  induction other as [|e other IH]; intros d k H; cbn [fold_left]; [exact H|].
  apply IH. destruct (String.eqb (fst e) k) eqn:E.
  - apply String.eqb_eq in E. subst k. rewrite dict_get_set_same. discriminate.
  - rewrite dict_get_set_other; [exact H|].
    intro E'. subst k. rewrite String.eqb_refl in E. discriminate.
Qed.

Lemma spectra_bin_ok ts c :
  exists rows,
    SpectraCSV.flatten_bin ts c = Ok rows
    /\ Forall (fun r => dict_get r "timestamp" <> None /\ dict_get r "bin_index" <> None)
         rows.
Proof.
  unfold SpectraCSV.flatten_bin. destruct (snd c) as [| | | | | |kv] eqn:E; cbn [is_dict];
    try (exists []; split; [reflexivity | constructor]).
  rewrite simple_fields_dict. cbn [bind]. eexists. split; [reflexivity|].
  constructor; [|constructor].
  split; apply dict_update_get_kept; cbn; discriminate.
Qed.

Lemma mapM_concat_Forall {A} (f : A -> result (list dict)) (P : dict -> Prop) l :
  (forall a, exists rows, f a = Ok rows /\ Forall P rows) ->
  exists rs, mapM f l = Ok rs /\ Forall P (List.concat rs).
Proof.
  intro H. induction l as [|a l IH]; cbn [mapM].
  - exists []. split; [reflexivity | constructor].
  - destruct (H a) as [rows [-> Hrows]]. destruct IH as [rs [-> Hrs]].
    exists (rows :: rs). split; [reflexivity|]. cbn [List.concat].
    apply Forall_app. split; assumption.
Qed.

Lemma spectra_point_ok p :
  exists rows,
    SpectraCSV.flatten_point p = Ok rows
    /\ Forall (fun r => dict_get r "timestamp" <> None /\ dict_get r "bin_index" <> None)
         rows.
Proof.
  unfold SpectraCSV.flatten_point.
  destruct p as [| | | | | |kv]; cbn [is_dict];
    try (exists []; split; [reflexivity | constructor]).
  rewrite !get_dict. cbn [bind]. unfold or_else.
  set (ts := match dict_get kv "timestamp" with Some v => v | None => VNone end).
  assert (Hbins : forall bins, exists rows,
            match bins with
            | VList l => bind (mapM (SpectraCSV.flatten_bin ts) (enumerate_from 1 l))
                              (fun rows => Ok (List.concat rows))
            | _ => Ok []
            end = Ok rows
            /\ Forall (fun r => dict_get r "timestamp" <> None
                                /\ dict_get r "bin_index" <> None) rows).
  { intros [| | | | |l|]; try (exists []; split; [reflexivity | constructor]).
    destruct (mapM_concat_Forall (SpectraCSV.flatten_bin ts) _ (enumerate_from 1 l)
                (spectra_bin_ok ts)) as [rs [-> Hrs]].
    eexists. split; [reflexivity | exact Hrs]. }
  destruct (truthy _); cbn [bind]; apply Hbins.
Qed.

(** X9.  [SpectraCSV.flatten] never raises on a payload that is an object
    (or null): whatever the types of [data], of the series, of its points and
    of their bins, it returns rows, and each row has a timestamp and a
    bin_index column. *)
Theorem spectra_flatten_never_raises (kv : dict) :
  (exists rows,
     SpectraCSV.flatten (VDict kv) = Ok rows
     /\ Forall (fun r => dict_get r "timestamp" <> None /\ dict_get r "bin_index" <> None)
          rows)
  /\ SpectraCSV.flatten VNone = Ok [].
Proof.
  split; [|reflexivity].
  unfold SpectraCSV.flatten, payload_data.
  assert (Hd : exists data, get (py_or (VDict kv) (VDict [])) "data" (VDict []) = Ok data).
  { unfold py_or. destruct (truthy (VDict kv)); eexists; reflexivity. }
  destruct Hd as [data ->]. cbn [bind].
  destruct data as [| | | | | |dkv]; cbn [is_dict];
    try (exists []; split; [reflexivity | constructor]).
  rewrite get_dict. cbn [bind].
  assert (Hseries : forall series, exists rows,
            match series with
            | VList points => bind (mapM SpectraCSV.flatten_point points)
                                   (fun rows => Ok (List.concat rows))
            | _ => Ok []
            end = Ok rows
            /\ Forall (fun r => dict_get r "timestamp" <> None
                                /\ dict_get r "bin_index" <> None) rows).
  { intros [| | | | |l|]; try (exists []; split; [reflexivity | constructor]).
    destruct (mapM_concat_Forall SpectraCSV.flatten_point _ l spectra_point_ok)
      as [rs [-> Hrs]].
    eexists. split; [reflexivity | exact Hrs]. }
  unfold or_else. destruct (truthy _); cbn [bind]; [apply Hseries|].
  unfold _first_list_in_data. cbn [bind]. apply Hseries.
Qed.

Lemma first_list_none kv :
  (forall e, In e kv -> is_list (snd e) = false) ->
  _first_list_in_data (VDict kv) = Ok (VList []).
Proof.
  intro H. unfold _first_list_in_data.
  destruct (find (fun e => is_list (snd e)) kv) as [e|] eqn:E; [|reflexivity].
  apply find_some in E. destruct E as [Hin He]. rewrite (H e Hin) in He. discriminate.
Qed.

(** X10.  When the [data] object holds none of the series keys and no
    list-valued entry at all, every flattener returns the empty sequence; so
    they do on the empty object and on null. *)
Theorem flatten_without_series_is_empty (kv : dict)
    (Hnolist : forall e, In e kv -> is_list (snd e) = false)
    (Habsent : forall k, In k series_keys -> dict_get kv k = None) :
  Forall (fun flatten =>
            flatten (VDict [("data", VDict kv)]) = Ok []
            /\ flatten (VDict []) = Ok [] /\ flatten VNone = Ok [])
         all_flatteners.
Proof.
  assert (K : forall k, In k series_keys ->
                get (VDict kv) k VNone = Ok VNone /\ get (VDict kv) k (VList []) = Ok (VList [])).
  { intros k Hk. rewrite !get_dict, (Habsent k Hk). auto. }
  pose proof (first_list_none kv Hnolist) as F.
  unfold series_keys in K.
  assert (T : forall k d, get (VDict [("data", VDict kv)]) k d
                          = Ok (match dict_get [("data", VDict kv)] k with
                                | Some v => v | None => d end)) by reflexivity.
  unfold all_flatteners.
  repeat (apply Forall_cons; [split; [|split; reflexivity] | ]); [..|apply Forall_nil];
    unfold SurfCSV.flatten, SwellsCSV.flatten, RatingCSV.flatten, SpectraCSV.flatten,
      SunlightCSV.flatten, WindCSV.flatten, TidesCSV.flatten,
      RegionConditionsCSV.flatten, WaveCSV.flatten, payload_data;
    change (py_or (VDict [("data", VDict kv)]) (VDict []))
      with (VDict [("data", VDict kv)]);
    rewrite T; cbn [dict_get String.eqb Ascii.eqb Bool.eqb bind is_dict];
    repeat match goal with
    | |- context [get (VDict kv) ?k ?d] =>
        first [ rewrite (proj1 (K k ltac:(simpl; tauto)))
              | rewrite (proj2 (K k ltac:(simpl; tauto))) ];
        cbn [bind or_else truthy py_or]
    end;
    rewrite ?F; reflexivity.
Qed.

Lemma flatten_without_series_is_empty_witness :
  Forall (fun flatten =>
            flatten (VDict [("data", VDict [("units", VDict [("wind", VStr "KTS")])])])
            = Ok []
            /\ flatten (VDict []) = Ok [] /\ flatten VNone = Ok [])
         all_flatteners.
Proof.
  apply (flatten_without_series_is_empty [("units", VDict [("wind", VStr "KTS")])]).
  - intros e [<-|[]]. reflexivity.
  - intros k Hk. simpl in Hk.
    repeat (destruct Hk as [<-|Hk]; [reflexivity|]). destruct Hk.
Defined.

Lemma dict_set_keys d k v :
  NoDup (map fst d) -> NoDup (map fst (dict_set d k v)).
Proof.
  induction d as [|[k0 v0] d IH]; cbn [dict_set map fst]; intro H.
  - repeat constructor. intros [].
  - apply NoDup_cons_iff in H. destruct H as [Hnin Hnd].
    destruct (String.eqb k k0) eqn:E; cbn [map fst].
    + constructor; assumption.
    + constructor; [|now apply IH].
      intro Hin. apply in_map_iff in Hin. destruct Hin as [e [He Hin]].
      apply in_dict_set in Hin. destruct Hin as [Hin|Hk].
      * apply Hnin. rewrite <- He. now apply in_map.
      * assert (Ek : k = k0) by congruence.
        apply String.eqb_neq in E. contradiction.
Qed.

Lemma simple_fields_nodup prefix kv : forall acc,
  NoDup (map fst acc) -> NoDup (map fst (fold_left (keep_simple prefix) kv acc)).
Proof.
  induction kv as [|e kv IH]; intros acc H; cbn [fold_left]; [exact H|].
  apply IH. unfold keep_simple. destruct (is_simple (snd e)); [|exact H].
  now apply dict_set_keys.
Qed.

Lemma dict_update_get other : forall d k,
  NoDup (map fst other) ->
  dict_get (dict_update d other) k
  = match dict_get other k with Some v => Some v | None => dict_get d k end.
Proof.
  unfold dict_update.
  induction other as [|[k0 v0] other IH]; intros d k H; cbn [fold_left]; [reflexivity|].
  cbn [map fst] in H. apply NoDup_cons_iff in H. destruct H as [Hnin Hnd].
  rewrite IH by exact Hnd. cbn [dict_get fst snd].
  destruct (String.eqb k k0) eqn:E.
  - apply String.eqb_eq in E. subst k0.
    rewrite (dict_get_absent other k Hnin). apply dict_get_set_same.
  - destruct (dict_get other k); [reflexivity|].
    apply dict_get_set_other. intro E'. subst k0. rewrite String.eqb_refl in E.
    discriminate.
Qed.

Lemma mapM_Forall2 {A B} (f : A -> result B) (R : A -> B -> Prop) (l : list A) :
  Forall (fun a => exists b, f a = Ok b /\ R a b) l ->
  exists bs, mapM f l = Ok bs /\ Forall2 R l bs.
Proof.
  induction 1 as [|a l [b [Hb HR]] _ [bs [Hbs HF]]]; cbn [mapM].
  - exists []. split; [reflexivity | constructor].
  - rewrite Hb, Hbs. exists (b :: bs). split; [reflexivity | now constructor].
Qed.

Lemma surf_point_passes_through kv :
  NoDup (map fst kv) ->
  exists row, SurfCSV.flatten_point (VDict kv) = Ok row /\ passes_through (VDict kv) row.
Proof.
  intro Hnd. unfold SurfCSV.flatten_point.
  rewrite !get_dict, simple_fields_dict. cbn [bind].
  set (ts := match dict_get kv "timestamp" with Some v => v | None => VNone end).
  set (sb := py_or match dict_get kv "surf" with Some v => v | None => VNone end
                   (VDict [])).
  assert (Hrow0 : exists row0,
            (if is_dict sb
             then bind (get sb "min" VNone) (fun mn =>
                  bind (get sb "max" VNone) (fun mx =>
                  bind (get sb "humanRelation" VNone) (fun hr =>
                  Ok (dict_set (dict_set (dict_set (dict_set [] "timestamp" ts)
                                            "surf_min" mn) "surf_max" mx)
                        "surf_humanRelation" hr))))
             else Ok (dict_set [] "timestamp" ts)) = Ok row0
            /\ dict_get row0 "timestamp" = Some ts).
  { destruct sb as [| | | | | |skv]; cbn [is_dict]; rewrite ?get_dict; cbn [bind];
      eexists; split; reflexivity. }
  destruct Hrow0 as [row0 [-> Hts]]. cbn [bind].
  eexists. split; [reflexivity|].
  pose proof (simple_fields_nodup "" kv [] (NoDup_nil _)) as Hn.
  assert (L : forall k, dict_get (fold_left (keep_simple "") kv []) k
                        = match dict_get kv k with
                          | Some v => if is_simple v then Some v else None
                          | None => None
                          end).
  { intro k. pose proof (simple_fields_lookup "" kv [] k Hnd) as H.
    cbn [String.append dict_get] in H. rewrite H.
    destruct (dict_get kv k) as [v|]; [destruct (is_simple v)|]; reflexivity. }
  split.
  - rewrite dict_update_get by exact Hn. rewrite L. cbn [field]. fold ts.
    destruct (dict_get kv "timestamp") as [v|] eqn:E; [|exact Hts].
    destruct (is_simple v); [subst ts; reflexivity | exact Hts].
  - intros kv' k v E Hk Hs. inversion E; subst kv'.
    rewrite dict_update_get by exact Hn. now rewrite L, Hk, Hs.
Qed.

(** X11.  On a series of points that are objects with distinct keys,
    [SurfCSV.flatten] returns one row per point, in order; the row's
    timestamp is the point's (null when the point has none), and every
    top-level scalar field of the point is in the row under its own name. *)
Theorem surf_flatten_one_row_per_point (points : list value)
    (Hpoints : Forall (fun p => exists kv, p = VDict kv /\ NoDup (map fst kv)) points) :
  exists rows,
    SurfCSV.flatten (payload "surf" points) = Ok rows
    /\ Forall2 passes_through points rows.
Proof.
  assert (H : exists rows, mapM SurfCSV.flatten_point points = Ok rows
                           /\ Forall2 passes_through points rows).
  { apply mapM_Forall2. eapply Forall_impl; [|exact Hpoints].
    intros p [kv [-> Hnd]]. now apply surf_point_passes_through. }
  destruct H as [rows [Hrows HF]]. exists rows. split; [|exact HF].
  unfold SurfCSV.flatten, payload, payload_data. cbn [py_or truthy get dict_get
    String.eqb Ascii.eqb Bool.eqb bind or_else].
  destruct points as [|p points]; [inversion HF; reflexivity|].
  cbn [truthy bind py_or iter]. exact Hrows.
Qed.

Lemma surf_flatten_one_row_per_point_witness :
  exists rows,
    SurfCSV.flatten (payload "surf" [spec_point; VDict wind_point]) = Ok rows
    /\ Forall2 passes_through [spec_point; VDict wind_point] rows.
Proof.
  apply (surf_flatten_one_row_per_point [spec_point; VDict wind_point]).
  repeat constructor; eexists; (split; [reflexivity|]);
    repeat constructor; simpl; intuition discriminate.
Defined.

Ltac next_swell cs H :=
  let c := fresh "c" in
  destruct cs as [|c cs];
  [ cbn in H; inversion H; reflexivity
  | destruct c; try (cbn in H; discriminate H) ].

Lemma add_swells_columns ts mn mx cs row :
  (List.length cs <= 6)%nat ->
  WaveCSV.add_swells [("timestamp", ts); ("surf_min", mn); ("surf_max", mx)]
    (enumerate_from 1 cs) = Ok row ->
  map fst row = firstn (3 + 3 * List.length cs) _expected_column_names.
Proof.
  intros Hlen H. unfold enumerate_from in H.
  next_swell cs H. next_swell cs H. next_swell cs H.
  next_swell cs H. next_swell cs H. next_swell cs H.
  destruct cs; [|simpl in Hlen; lia].
  cbn in H. inversion H. reflexivity.
Qed.

(** X12.  Whenever [WaveCSV.flatten] produces a row for a point, the row's
    columns are timestamp, surf_min, surf_max followed by the three columns
    of each of the first min(N, 6) swell components, N being the number of
    components of the point: always an initial segment of the 21 columns
    [analyze_history] expects. *)
Theorem wave_row_columns_bounded (point : value) (row : dict)
    (Hrow : WaveCSV.flatten_point point = Ok row) :
  map fst row
  = firstn (3 + 3 * Nat.min 6 (swell_count point)) _expected_column_names
  /\ (List.length row <= 21)%nat.
Proof.
  assert (Hcols : map fst row
            = firstn (3 + 3 * Nat.min 6 (swell_count point)) _expected_column_names).
  { unfold WaveCSV.flatten_point in Hrow.
    destruct point as [| | | | | |kv]; try discriminate Hrow.
    rewrite !get_dict in Hrow. cbn [bind] in Hrow.
    destruct (py_or match dict_get kv "surf" with Some v => v | None => VNone end
                    (VDict [])) as [| | | | | |skv]; try discriminate Hrow.
    rewrite !get_dict in Hrow. cbn [bind] in Hrow.
    unfold swell_count. cbn [field].
    assert (Esw : py_or match dict_get kv "swells" with Some v => v | None => VList [] end
                        (VList [])
                  = py_or match dict_get kv "swells" with Some v => v | None => VNone end
                          (VList [])).
    { now destruct (dict_get kv "swells"). }
    rewrite Esw in Hrow. clear Esw.
    unfold py_or in *.
    destruct (match dict_get kv "swells" with Some v => v | None => VNone end)
      as [|b|z|f|s|l|d] eqn:E; cbn [truthy] in *.
    - cbn in Hrow. inversion Hrow. reflexivity.
    - destruct b; [discriminate Hrow | cbn in Hrow; inversion Hrow; reflexivity].
    - destruct (negb (Z.eqb z 0)); [discriminate Hrow|].
      cbn in Hrow. inversion Hrow. reflexivity.
    - destruct (negb (PrimFloat.eqb f 0)); [discriminate Hrow|].
      cbn in Hrow. inversion Hrow. reflexivity.
    - destruct s as [|c s]; [cbn in Hrow; inversion Hrow; reflexivity|].
      cbn in Hrow. discriminate Hrow.
    - destruct l as [|x l]; [cbn in Hrow; inversion Hrow; reflexivity|].
      cbn [ApiClass.slice6 bind iter] in Hrow.
      apply add_swells_columns in Hrow; [|apply firstn_le_length].
      rewrite Hrow, length_firstn. reflexivity.
    - destruct d; [cbn in Hrow; inversion Hrow; reflexivity | discriminate Hrow]. }
  split; [exact Hcols|].
  rewrite <- (length_map fst), Hcols, length_firstn.
  change (List.length _expected_column_names) with 21%nat. lia.
Qed.

Lemma wave_row_columns_bounded_witness :
  exists row,
    WaveCSV.flatten_point two_swell_point = Ok row
    /\ map fst row
       = firstn (3 + 3 * Nat.min 6 (swell_count two_swell_point)) _expected_column_names
    /\ (List.length row <= 21)%nat.
Proof.
  eexists. split; [reflexivity|].
  apply (wave_row_columns_bounded two_swell_point). reflexivity.
Defined.

Lemma mapM_total_length {A B} (f : A -> result B) (l : list A) :
  Forall (fun a => exists b, f a = Ok b) l ->
  exists bs, mapM f l = Ok bs /\ List.length bs = List.length l.
Proof.
  intro H. destruct (mapM_ok f l) as [bs Hbs].
  - intros a Ha. rewrite Forall_forall in H. now apply H.
  - exists bs. split; [exact Hbs | now apply mapM_length in Hbs].
Qed.

Lemma rating_point_ok kv : exists row, RatingCSV.flatten_point (VDict kv) = Ok row.
Proof.
  unfold RatingCSV.flatten_point. rewrite !get_dict, !simple_fields_dict. cbn [bind].
  destruct (match dict_get kv "rating" with Some v => v | None => VNone end);
    rewrite ?simple_fields_dict; cbn [bind]; eexists; reflexivity.
Qed.

Lemma conditions_point_ok kv :
  exists row, RegionConditionsCSV.flatten_point (VDict kv) = Ok row.
Proof.
  unfold RegionConditionsCSV.flatten_point. rewrite !get_dict, !simple_fields_dict.
  cbn [bind].
  destruct (py_or match dict_get kv "weather" with Some v => v | None => VNone end
                  (VDict [])); cbn [is_dict]; rewrite ?simple_fields_dict; cbn [bind];
    eexists; reflexivity.
Qed.

Lemma surf_point_ok kv : exists row, SurfCSV.flatten_point (VDict kv) = Ok row.
Proof.
  unfold SurfCSV.flatten_point. rewrite !get_dict, !simple_fields_dict. cbn [bind].
  destruct (py_or match dict_get kv "surf" with Some v => v | None => VNone end
                  (VDict [])); cbn [is_dict]; rewrite ?get_dict; cbn [bind];
    eexists; reflexivity.
Qed.

(** X21.  The envelope in which the point-per-row flatteners do not raise:
    when the payload is {"data": {<series key>: [...]}} and every point of
    the series is an object, whatever its fields and their types, the surf,
    rating, sunlight, wind, tides and conditions flatteners each return
    exactly one row per point. *)
Theorem flatten_object_series_one_row_each (points : list value)
    (Hpoints : Forall (fun p => is_dict p = true) points) :
  Forall (fun kf => exists rows,
            snd kf (payload (fst kf) points) = Ok rows
            /\ List.length rows = List.length points)
         object_series_flatteners.
Proof.
  assert (P : forall f : value -> result dict,
            (forall kv, exists row, f (VDict kv) = Ok row) ->
            exists rows, mapM f points = Ok rows
                         /\ List.length rows = List.length points).
  { intros f Hf. apply mapM_total_length. eapply Forall_impl; [|exact Hpoints].
    intros [| | | | | |kv] Hp; try discriminate. apply Hf. }
  unfold object_series_flatteners.
  repeat (apply Forall_cons; [|]); [..|apply Forall_nil]; cbn [fst snd];
    unfold SurfCSV.flatten, RatingCSV.flatten, SunlightCSV.flatten, WindCSV.flatten,
      TidesCSV.flatten, RegionConditionsCSV.flatten, payload, payload_data;
    cbn [py_or truthy get dict_get String.eqb Ascii.eqb Bool.eqb bind or_else];
    (destruct points as [|p points];
     [ eexists; split; reflexivity
     | cbn [truthy bind py_or iter or_else]; apply P; intro kv ]).
  - apply surf_point_ok.
  - apply rating_point_ok.
  - unfold SunlightCSV.flatten_point. rewrite !get_dict, simple_fields_dict.
    eexists; reflexivity.
  - unfold WindCSV.flatten_point. rewrite !get_dict, simple_fields_dict.
    eexists; reflexivity.
  - unfold TidesCSV.flatten_point. rewrite !get_dict, simple_fields_dict.
    eexists; reflexivity.
  - apply conditions_point_ok.
Qed.

Lemma flatten_object_series_one_row_each_witness :
  Forall (fun kf => exists rows,
            snd kf (payload (fst kf) [spec_point; VDict wind_point; VDict []]) = Ok rows
            /\ List.length rows = List.length [spec_point; VDict wind_point; VDict []])
         object_series_flatteners.
Proof.
  apply (flatten_object_series_one_row_each [spec_point; VDict wind_point; VDict []]).
  repeat constructor.
Defined.

(* ------------------------------------------------------------------ *)
(** ** The harvest loop: further properties *)

Section Loop.
Variable server : list request -> transport.
Variable io_fault : string -> bool.
Variable api : SurflineAPI.
Variable j : job.

Lemma harvest_loop_step fuel cur end_date w :
  harvest_loop server io_fault api j (S fuel) cur end_date w
  = if Datetime.leb cur end_date
    then harvest_loop server io_fault api j fuel (next_day cur) end_date
           (harvest_day server io_fault api j cur w)
    else Some w.
Proof. reflexivity. Qed.

Lemma harvest_loop_is_fold end_date : forall n cur w,
  valid cur = true -> valid end_date = true ->
  Z.to_nat (toordinal end_date - toordinal cur + 1) = n ->
  harvest_loop server io_fault api j (S n) cur end_date w
  = Some (fold_left (fun w d => harvest_day server io_fault api j d w)
                    (days_from cur n) w).
Proof.
  induction n as [|n IH]; intros cur w Hc He Hn.
  - rewrite harvest_loop_step, (leb_toordinal _ _ Hc He).
    destruct (Z.leb_spec (toordinal cur) (toordinal end_date)); [lia|]. reflexivity.
  - rewrite harvest_loop_step, (leb_toordinal _ _ Hc He).
    destruct (Z.leb_spec (toordinal cur) (toordinal end_date)); [|lia].
    rewrite IH; [reflexivity | now apply next_day_valid | exact He |].
    rewrite toordinal_next_day by exact Hc. lia.
Qed.

End Loop.

Lemma day_kinds_count j :
  List.length (day_kinds j) = if str_truthy (subregion_id j) then 8%nat else 7%nat.
Proof. unfold day_kinds. now destruct (str_truthy (subregion_id j)). Qed.

(** X13.  The day loop begins exactly 7 series fetches per day, 8 when a
    subregion is configured, for each of the (end - start + 1) days of the
    range, whatever the outcomes; none when the end date precedes the start
    date. *)
Theorem harvest_fetch_count
    (server : list request -> transport) (io_fault : string -> bool)
    (api : SurflineAPI) (j : job) (start_date end_date : date) (w : world)
    (Hstart : valid start_date = true) (Hend : valid end_date = true) :
  exists fuel w',
    harvest_loop server io_fault api j fuel start_date end_date w = Some w'
    /\ List.length (started w')
       = (List.length (started w)
          + day_count start_date end_date
            * (if str_truthy (subregion_id j) then 8 else 7))%nat
    /\ (Datetime.leb start_date end_date = false -> w' = w).
Proof.
  exists (S (day_count start_date end_date)).
  destruct (harvest_loop_runs server io_fault api j end_date
              (day_count start_date end_date) start_date w Hstart Hend eq_refl)
    as [w' [Hrun Hst]].
  exists w'. split; [exact Hrun|]. split.
  - rewrite Hst, length_app. f_equal.
    rewrite <- day_kinds_count.
    generalize (day_count start_date end_date) as n. generalize start_date as d.
    intros d n. revert d. induction n as [|n IH]; intro d; cbn [days_from flat_map].
    + reflexivity.
    + rewrite length_app, length_map, IH. reflexivity.
  - intro Hlt. rewrite harvest_loop_is_fold in Hrun by auto.
    rewrite (leb_toordinal _ _ Hstart Hend) in Hlt. apply Z.leb_gt in Hlt.
    unfold day_count in Hrun.
    replace (Z.to_nat (toordinal end_date - toordinal start_date + 1)) with 0%nat
      in Hrun by lia.
    cbn in Hrun. congruence.
Qed.

Lemma harvest_fetch_count_witness :
  exists fuel w',
    harvest_loop failing_server (fun _ => false) (mk_api None) job_with_region fuel
      (mk_date 2024 2 28) (mk_date 2024 3 1) empty_world = Some w'
    /\ List.length (started w')
       = (List.length (started empty_world)
          + day_count (mk_date 2024 2 28) (mk_date 2024 3 1)
            * (if str_truthy (subregion_id job_with_region) then 8 else 7))%nat
    /\ (Datetime.leb (mk_date 2024 2 28) (mk_date 2024 3 1) = false -> w' = empty_world).
Proof.
  apply (harvest_fetch_count failing_server (fun _ => false) (mk_api None)
           job_with_region (mk_date 2024 2 28) (mk_date 2024 3 1) empty_world);
    reflexivity.
Defined.

Section Unreachable.
Variable e : exn.
Variable io_fault : string -> bool.
Variable api : SurflineAPI.
Variable j : job.

Lemma fetch_unreachable k s w :
  exists rq, fetch (unreachable e) api j k s w = (log_request rq w, Raise e).
Proof.
  destruct k; unfold fetch, get_surf, get_swells, get_rating, get_spectra,
    get_sunlight, get_wind, get_tides, get_region_conditions, _get, max_attempts;
    cbn [attempts]; unfold unreachable; eexists; reflexivity.
Qed.

Lemma harvest_kind_unreachable k s tag w :
  let w' := harvest_kind (unreachable e) io_fault api j k s tag w in
  files w' = files w /\ dirs w' = dirs w /\ sleeps w' = sleeps w
  /\ stderr w' = (stderr w ++ [MsgFetchFailed (label k) s e])%list.
Proof.
  unfold harvest_kind. destruct (fetch_unreachable k s w) as [rq ->].
  cbn. auto.
Qed.

Lemma fold_kinds_unreachable s tag : forall ks w,
  let w' := fold_left (fun w k => harvest_kind (unreachable e) io_fault api j k s tag w)
                      ks w in
  files w' = files w /\ dirs w' = dirs w /\ sleeps w' = sleeps w
  /\ stderr w' = (stderr w ++ map (fun k => MsgFetchFailed (label k) s e) ks)%list.
Proof.
  induction ks as [|k ks IH]; intro w; cbn [fold_left map].
  - rewrite app_nil_r. auto.
  - destruct (IH (harvest_kind (unreachable e) io_fault api j k s tag w))
      as (H1 & H2 & H3 & H4).
    destruct (harvest_kind_unreachable k s tag w) as (K1 & K2 & K3 & K4).
    cbv zeta. rewrite H1, H2, H3, H4, K1, K2, K3, K4, <- app_assoc. auto.
Qed.

Lemma harvest_day_unreachable d w :
  let w' := harvest_day (unreachable e) io_fault api j d w in
  files w' = files w /\ dirs w' = dirs w
  /\ sleeps w' = (sleeps w ++ [FloatSeconds SLEEP_BETWEEN_DAYS])%list
  /\ stderr w' = (stderr w ++ failure_report j e d)%list.
Proof.
  unfold harvest_day, failure_report.
  change (PrimFloat.ltb 0 SLEEP_BETWEEN_DAYS) with true. cbv iota.
  destruct (fold_kinds_unreachable (strftime_iso d) (strftime_Ymd d) (day_kinds j)
              (print_out (MsgFetching (strftime_iso d) (days_ahead j)) w))
    as (H1 & H2 & H3 & H4).
  cbn [files dirs sleeps stderr sleep print_out] in *.
  rewrite H1, H2, H3, H4. auto.
Qed.

Lemma fold_days_unreachable : forall ds w,
  let w' := fold_left (fun w d => harvest_day (unreachable e) io_fault api j d w) ds w in
  files w' = files w /\ dirs w' = dirs w
  /\ sleeps w' = (sleeps w ++ repeat (FloatSeconds SLEEP_BETWEEN_DAYS) (List.length ds))%list
  /\ stderr w' = (stderr w ++ flat_map (failure_report j e) ds)%list.
Proof.
  induction ds as [|d ds IH]; intro w; cbn [fold_left flat_map List.length repeat].
  - rewrite !app_nil_r. auto.
  - destruct (IH (harvest_day (unreachable e) io_fault api j d w)) as (H1 & H2 & H3 & H4).
    destruct (harvest_day_unreachable d w) as (K1 & K2 & K3 & K4).
    cbv zeta. rewrite H1, H2, H3, H4, K1, K2, K3, K4, <- !app_assoc. auto.
Qed.

End Unreachable.

(** X14.  When every request fails in transport, the harvest still covers
    the whole range: it writes no file and creates no folder, reports each
    series kind of each day once on stderr, with the kind, the day and the
    exception, and pauses once per day. *)
Theorem harvest_unreachable_network
    (e : exn) (io_fault : string -> bool) (api : SurflineAPI) (j : job)
    (start_date end_date : date) (w : world)
    (Hstart : valid start_date = true) (Hend : valid end_date = true) :
  exists fuel w',
    harvest_loop (unreachable e) io_fault api j fuel start_date end_date w = Some w'
    /\ files w' = files w /\ dirs w' = dirs w
    /\ sleeps w'
       = (sleeps w ++ repeat (FloatSeconds SLEEP_BETWEEN_DAYS)
                        (day_count start_date end_date))%list
    /\ stderr w'
       = (stderr w ++ flat_map (failure_report j e) (days_between start_date end_date))%list.
Proof.
  exists (S (day_count start_date end_date)). eexists.
  split; [apply harvest_loop_is_fold; auto|].
  destruct (fold_days_unreachable e io_fault api j
              (days_from start_date (day_count start_date end_date)) w)
    as (H1 & H2 & H3 & H4).
  rewrite length_days_from in H3. auto.
Qed.

Lemma harvest_unreachable_network_witness :
  exists fuel w',
    harvest_loop (unreachable ConnectionError) (fun _ => false) (mk_api None)
      job_with_region fuel (mk_date 2024 12 31) (mk_date 2025 1 2) empty_world = Some w'
    /\ files w' = files empty_world /\ dirs w' = dirs empty_world
    /\ sleeps w'
       = (sleeps empty_world
          ++ repeat (FloatSeconds SLEEP_BETWEEN_DAYS)
               (day_count (mk_date 2024 12 31) (mk_date 2025 1 2)))%list
    /\ stderr w'
       = (stderr empty_world
          ++ flat_map (failure_report job_with_region ConnectionError)
               (days_between (mk_date 2024 12 31) (mk_date 2025 1 2)))%list.
Proof.
  apply (harvest_unreachable_network ConnectionError (fun _ => false) (mk_api None)
           job_with_region (mk_date 2024 12 31) (mk_date 2025 1 2) empty_world);
    reflexivity.
Defined.

Section Frame.
Variable server : list request -> transport.
Variable io_fault : string -> bool.
Variable api : SurflineAPI.
Variable j : job.

Lemma write_rows_frame rows path w p :
  p <> path -> read_file p (fst (_write_dict_rows io_fault rows path w)) = read_file p w.
Proof.
  intro Hp. unfold _write_dict_rows. destruct rows as [|r rows]; [reflexivity|].
  set (w1 := if String.eqb (dirname path) "" then w else makedirs (dirname path) w).
  assert (Hf : files w1 = files w).
  { unfold w1. destruct (String.eqb (dirname path) ""); [reflexivity|].
    unfold makedirs. now destruct (existsb _ _). }
  unfold write_file. destruct (_ || _); cbn [fst]; unfold read_file.
  - now rewrite Hf.
  - cbn [files print_out find fst].
    destruct (String.eqb path p) eqn:E; [apply String.eqb_eq in E; congruence|].
    rewrite find_remove_file, Hf.
    destruct (String.eqb p path) eqn:E'; [apply String.eqb_eq in E'; congruence|].
    reflexivity.
Qed.

Lemma harvest_kind_frame k s tag w p :
  p <> out_path j k tag ->
  read_file p (harvest_kind server io_fault api j k s tag w) = read_file p w.
Proof.
  intro Hp. unfold harvest_kind.
  pose proof (fetch_files server api j k s w) as [Hf _].
  destruct (fetch server api j k s w) as [w1 [payload|e]]; cbn [fst] in Hf.
  - destruct (flatten k payload) as [rows|e].
    + pose proof (write_rows_frame rows (out_path j k tag) w1 p Hp) as Hw.
      destruct (_write_dict_rows io_fault rows (out_path j k tag) w1) as [w2 [u|e]];
        cbn [fst] in Hw; unfold read_file in *; cbn [files print_err] in *;
        now rewrite Hw, Hf.
    + unfold read_file. cbn [files print_err]. now rewrite Hf.
  - unfold read_file. cbn [files print_err]. now rewrite Hf.
Qed.

Lemma fold_kinds_frame s tag p : forall ks w,
  (forall k, In k ks -> p <> out_path j k tag) ->
  read_file p (fold_left (fun w k => harvest_kind server io_fault api j k s tag w) ks w)
  = read_file p w.
Proof.
  induction ks as [|k ks IH]; intros w H; cbn [fold_left]; [reflexivity|].
  rewrite IH by (intros; apply H; now right).
  apply harvest_kind_frame. apply H. now left.
Qed.

Lemma harvest_day_frame d w p :
  (forall k, In k (day_kinds j) -> p <> out_path j k (strftime_Ymd d)) ->
  read_file p (harvest_day server io_fault api j d w) = read_file p w.
Proof.
  intro H. unfold harvest_day.
  change (PrimFloat.ltb 0 SLEEP_BETWEEN_DAYS) with true. cbv iota.
  unfold read_file at 1. cbn [files sleep print_out].
  fold (read_file p (fold_left
          (fun w k => harvest_kind server io_fault api j k (strftime_iso d)
                        (strftime_Ymd d) w)
          (day_kinds j) (print_out (MsgFetching (strftime_iso d) (days_ahead j)) w))).
  now rewrite fold_kinds_frame.
Qed.

Lemma fold_days_frame p : forall ds w,
  (forall d k, In d ds -> In k (day_kinds j) -> p <> out_path j k (strftime_Ymd d)) ->
  read_file p (fold_left (fun w d => harvest_day server io_fault api j d w) ds w)
  = read_file p w.
Proof.
  induction ds as [|d ds IH]; intros w H; cbn [fold_left]; [reflexivity|].
  rewrite IH by (intros d' k Hd Hk; apply H; [now right | exact Hk]).
  apply harvest_day_frame. intros k Hk. apply H; [now left | exact Hk].
Qed.

End Frame.

(** X15.  The harvest touches no file but its own: a path that is not the
    output path of some series kind for some day of the range holds after the
    run what it held before. *)
Theorem harvest_writes_only_its_files
    (server : list request -> transport) (io_fault : string -> bool)
    (api : SurflineAPI) (j : job) (start_date end_date : date) (w : world) (p : string)
    (Hstart : valid start_date = true) (Hend : valid end_date = true)
    (Hother : forall d k, In d (days_between start_date end_date) ->
                In k (day_kinds j) -> p <> out_path j k (strftime_Ymd d)) :
  exists fuel w',
    harvest_loop server io_fault api j fuel start_date end_date w = Some w'
    /\ read_file p w' = read_file p w.
Proof.
  exists (S (day_count start_date end_date)). eexists.
  split; [apply harvest_loop_is_fold; auto|].
  apply fold_days_frame. exact Hother.
Qed.

Lemma harvest_writes_only_its_files_witness :
  exists fuel w',
    harvest_loop (ok_server (payload "surf" [spec_point])) (fun _ => false) (mk_api None)
      job_example fuel (mk_date 2025 1 1) (mk_date 2025 1 2) empty_world = Some w'
    /\ read_file "forecasts/HB_Pier/notes.csv" w'
       = read_file "forecasts/HB_Pier/notes.csv" empty_world.
Proof.
  apply (harvest_writes_only_its_files (ok_server (payload "surf" [spec_point]))
           (fun _ => false) (mk_api None) job_example (mk_date 2025 1 1)
           (mk_date 2025 1 2) empty_world "forecasts/HB_Pier/notes.csv");
    [reflexivity | reflexivity |].
  intros d k Hd Hk. vm_compute in Hd, Hk.
  destruct Hd as [<-|[<-|[]]];
    repeat (destruct Hk as [<-|Hk]; [vm_compute; discriminate|]); destruct Hk.
Defined.

(** X16.  One step of the harvest, when it succeeds: if the fetch returns a
    payload that flattens to at least one row and the file system accepts
    the path, the table of these rows is stored under the output path of the
    series kind and day, and nothing is reported on stderr. *)
Theorem harvest_kind_persists_rows
    (server : list request -> transport) (io_fault : string -> bool)
    (api : SurflineAPI) (j : job) (k : kind) (start_str date_tag : string)
    (w w1 : world) (payload : value) (r : dict) (rows : list dict)
    (Hfetch : fetch server api j k start_str w = (w1, Ok payload))
    (Hflat : flatten k payload = Ok (r :: rows))
    (Hio : io_fault (out_path j k date_tag) = false) :
  let w' := harvest_kind server io_fault api j k start_str date_tag w in
  read_file (out_path j k date_tag) w' = Some (render (r :: rows))
  /\ stderr w' = stderr w1
  /\ stdout w' = (stdout w1 ++ [MsgWroteRows (S (List.length rows)) (out_path j k date_tag)])%list.
Proof.
  unfold harvest_kind. rewrite Hfetch, Hflat.
  destruct (write_rows_ok io_fault r rows (out_path j k date_tag) w1 Hio)
    as [w2 [E [R _]]].
  rewrite E. cbv zeta. split; [exact R|].
  unfold _write_dict_rows, write_file in E. rewrite Hio in E. cbn [orb] in E.
  destruct (negb _ && negb _) in E; inversion E; subst w2; cbn.
  assert (Hm : forall folder, stderr (makedirs folder w1) = stderr w1
                              /\ stdout (makedirs folder w1) = stdout w1).
  { intro folder. unfold makedirs. now destruct (existsb _ _). }
  destruct (String.eqb (dirname (out_path j k date_tag)) ""); [auto|].
  destruct (Hm (dirname (out_path j k date_tag))) as [-> ->]. auto.
Qed.

Lemma harvest_kind_persists_rows_witness :
  let w' := harvest_kind (ok_server (payload "surf" [spec_point])) (fun _ => false)
              (mk_api None) job_example Surf "2025-01-01" "20250101" empty_world in
  read_file (out_path job_example Surf "20250101") w'
  = Some (render [[("timestamp", VInt 1700000000); ("surf_min", VFloat 2.1);
                   ("surf_max", VFloat 3.4); ("surf_humanRelation", VNone)]])
  /\ stderr w'
     = stderr (fst (fetch (ok_server (payload "surf" [spec_point])) (mk_api None)
                      job_example Surf "2025-01-01" empty_world))
  /\ stdout w'
     = (stdout (fst (fetch (ok_server (payload "surf" [spec_point])) (mk_api None)
                       job_example Surf "2025-01-01" empty_world))
        ++ [MsgWroteRows 1 (out_path job_example Surf "20250101")])%list.
Proof.
  apply (harvest_kind_persists_rows (ok_server (payload "surf" [spec_point]))
           (fun _ => false) (mk_api None) job_example Surf "2025-01-01" "20250101"
           empty_world _ (payload "surf" [spec_point]) _ []);
    reflexivity.
Defined.

(* ------------------------------------------------------------------ *)
(** ** analyze_history.py: further properties *)

Section UnicodeNames.
Variable decimal : N -> option Z.
Hypothesis decimal_range : forall c v, decimal c = Some v -> 0 <= v <= 9.

Lemma unicode_match_here_group s g :
  Unicode.match_here decimal s = Some g ->
  List.length g = 6%nat /\ forallb (Unicode.is_decimal decimal) g = true.
Proof.
  unfold Unicode.match_here.
  destruct (Unicode.strip_prefix _ s) as [rest|]; [|discriminate].
  destruct (Unicode.strip_prefix _ (skipn 6 rest)) as [tail|]; [|discriminate].
  destruct (List.length (firstn 6 rest) =? 6)%nat eqn:E1; [|discriminate].
  destruct (forallb (Unicode.is_decimal decimal) (firstn 6 rest)) eqn:E2; [|discriminate].
  cbn [andb]. destruct (match tail with [] => true | [c] => _ | _ => false end);
    [|discriminate].
  intro H. inversion H; subst g. split; [now apply Nat.eqb_eq | exact E2].
Qed.

Lemma unicode_search_group s : forall g,
  Unicode.search decimal s = Some g ->
  List.length g = 6%nat /\ forallb (Unicode.is_decimal decimal) g = true.
Proof.
  induction s as [|c s IH]; intros g; cbn [Unicode.search].
  - destruct (Unicode.match_here decimal []) eqn:E; [|discriminate].
    intro H. inversion H; subst. now apply unicode_match_here_group in E.
  - destruct (Unicode.match_here decimal (c :: s)) eqn:E.
    + intro H. inversion H; subst. now apply unicode_match_here_group in E.
    + apply IH.
Qed.

Lemma decimal_value_range c : 0 <= Unicode.decimal_value decimal c <= 9.
Proof.
  unfold Unicode.decimal_value. destruct (decimal c) as [v|] eqn:E; [|lia].
  exact (decimal_range c v E).
Qed.

Lemma int_of_two_decimals a b :
  Unicode.is_decimal decimal a = true -> Unicode.is_decimal decimal b = true ->
  Unicode.int_of_decimals decimal [a; b]
  = Ok (10 * Unicode.decimal_value decimal a + Unicode.decimal_value decimal b).
Proof.
  intros Ha Hb. unfold Unicode.int_of_decimals. cbn [List.length forallb].
  rewrite Ha, Hb. cbn. f_equal.
Qed.

End UnicodeNames.

Section Latin1.
Variable decimal : N -> option Z.
(* below U+0100 the decimal digits are the ASCII digits *)
Hypothesis decimal_latin1 : forall a,
  decimal (N_of_ascii a) = if is_ascii_digit a then Some (digit_value a) else None.

Lemma N_of_ascii_eqb a b : N.eqb (N_of_ascii a) (N_of_ascii b) = Ascii.eqb a b.
Proof.
  destruct (Ascii.eqb_spec a b) as [->|Hne]; [apply N.eqb_refl|].
  apply N.eqb_neq. intro E. apply Hne.
  rewrite <- (ascii_N_embedding a), <- (ascii_N_embedding b). now rewrite E.
Qed.

Lemma strip_prefix_codes p : forall s,
  Unicode.strip_prefix p (map N_of_ascii s) = option_map (map N_of_ascii) (strip_prefix p s).
Proof.
  induction p as [|a p IH]; intros s; [reflexivity|].
  destruct s as [|b s]; [reflexivity|]. cbn [map Unicode.strip_prefix strip_prefix].
  rewrite N_of_ascii_eqb. destruct (Ascii.eqb a b); [apply IH | reflexivity].
Qed.

Lemma is_decimal_codes s :
  forallb (Unicode.is_decimal decimal) (map N_of_ascii s) = forallb is_ascii_digit s.
Proof.
  induction s as [|a s IH]; [reflexivity|]. cbn [map forallb]. rewrite IH. f_equal.
  unfold Unicode.is_decimal. rewrite decimal_latin1. now destruct (is_ascii_digit a).
Qed.

Lemma match_here_codes s :
  Unicode.match_here decimal (map N_of_ascii s)
  = option_map (map N_of_ascii) (match_here s).
Proof.
  unfold Unicode.match_here, match_here. rewrite strip_prefix_codes.
  destruct (strip_prefix _ s) as [rest|]; [|reflexivity]. cbn [option_map].
  rewrite !skipn_map, !firstn_map, strip_prefix_codes.
  destruct (strip_prefix _ (skipn 6 rest)) as [tail|]; [|reflexivity]. cbn [option_map].
  rewrite length_map, is_decimal_codes.
  replace (match map N_of_ascii tail with
           | [] => true
           | [c] => N.eqb c (N_of_ascii newline)
           | _ => false
           end)
    with (match tail with [] => true | [c] => Ascii.eqb c newline | _ => false end).
  - now destruct (_ && _ && _).
  - destruct tail as [|c [|c' tail]]; try reflexivity.
    cbn [map]. now rewrite N_of_ascii_eqb.
Qed.

Lemma search_codes s :
  Unicode.search decimal (map N_of_ascii s) = option_map (map N_of_ascii) (search s).
Proof.
  induction s as [|c s IH].
  - pose proof (match_here_codes []) as H. cbn [map] in H.
    cbn [map Unicode.search search]. rewrite H. now destruct (match_here []).
  - pose proof (match_here_codes (c :: s)) as H. cbn [map] in H.
    cbn [map Unicode.search search]. rewrite H.
    destruct (match_here (c :: s)); [reflexivity|].
    cbn [option_map]. exact IH.
Qed.

Lemma fold_decimal_codes s : forall acc,
  forallb is_ascii_digit s = true ->
  fold_left (fun acc c => 10 * acc + Unicode.decimal_value decimal c) (map N_of_ascii s) acc
  = fold_left (fun acc c => 10 * acc + digit_value c) s acc.
Proof.
  induction s as [|a s IH]; intros acc H; [reflexivity|].
  cbn [forallb] in H. apply andb_true_iff in H. destruct H as [Ha Hs].
  cbn [map fold_left]. rewrite IH by exact Hs. f_equal. f_equal.
  unfold Unicode.decimal_value. now rewrite decimal_latin1, Ha.
Qed.

Lemma int_of_decimals_codes s :
  Unicode.int_of_decimals decimal (map N_of_ascii s)
  = int_of_digits (string_of_list_ascii s).
Proof.
  unfold Unicode.int_of_decimals, int_of_digits.
  rewrite list_ascii_of_string_of_list_ascii, length_map, is_decimal_codes.
  replace (negb (String.eqb (string_of_list_ascii s) ""))
    with (negb (Nat.eqb (List.length s) 0)) by (now destruct s).
  destruct (negb _); [|reflexivity]. cbn [andb].
  destruct (forallb is_ascii_digit s) eqn:E; [|reflexivity]. cbn [andb].
  destruct (_ <=? _)%nat; [|reflexivity].
  now rewrite fold_decimal_codes.
Qed.

(* on a Latin-1 name the two forms of the function agree *)
Lemma parse_issue_date_latin1 filename :
  Unicode._parse_issue_date_from_name decimal (codes filename)
  = _parse_issue_date_from_name filename.
Proof.
  unfold Unicode._parse_issue_date_from_name, _parse_issue_date_from_name, codes.
  rewrite search_codes.
  destruct (search (list_ascii_of_string filename)) as [g|]; [|reflexivity].
  cbn [option_map].
  rewrite !skipn_map, !firstn_map, !int_of_decimals_codes. reflexivity.
Qed.

End Latin1.

(** X17.  Whatever the file name, in whatever script its digits are written,
    a date returned by [_parse_issue_date_from_name] is a real calendar date
    of the years 2000 to 2099 (the two-digit year is read as 20YY; an
    impossible month or day is an error, not a date).  This holds for every
    Unicode database that gives decimal digits a value from 0 to 9. *)
Theorem parse_issue_date_sound (decimal : N -> option Z) (filename : list N) (d : date)
    (Hdecimal : forall c v, decimal c = Some v -> 0 <= v <= 9)
    (Hparse : Unicode._parse_issue_date_from_name decimal filename = Ok d) :
  valid d = true /\ 2000 <= year d <= 2099.
Proof.
  unfold Unicode._parse_issue_date_from_name in Hparse.
  destruct (Unicode.search decimal filename) as [g|] eqn:Es; [|discriminate].
  apply unicode_search_group in Es. destruct Es as [Hlen Hdig].
  destruct g as [|c1 [|c2 [|c3 [|c4 [|c5 [|c6 [|c7 g]]]]]]]; try discriminate Hlen.
  cbn [forallb] in Hdig. rewrite !andb_true_iff in Hdig.
  destruct Hdig as (D1 & D2 & D3 & D4 & D5 & D6 & _).
  cbn [firstn skipn] in Hparse.
  rewrite !int_of_two_decimals in Hparse by assumption. cbn [bind] in Hparse.
  unfold Timestamp in Hparse.
  destruct (valid _) eqn:Ev; [|discriminate].
  assert (Hy : year d = 2000 + (10 * Unicode.decimal_value decimal c1
                                + Unicode.decimal_value decimal c2))
    by (injection Hparse as <-; reflexivity).
  assert (Hv : valid d = true) by (injection Hparse as <-; exact Ev).
  split; [exact Hv|]. rewrite Hy.
  pose proof (decimal_value_range decimal Hdecimal c1).
  pose proof (decimal_value_range decimal Hdecimal c2). lia.
Qed.

(** X17 at a name whose date 24-02-29 mixes Arabic-Indic and ASCII digits. *)
Lemma parse_issue_date_sound_witness :
  valid (mk_date 2024 2 29) = true /\ 2000 <= year (mk_date 2024 2 29) <= 2099.
Proof.
  apply (parse_issue_date_sound ascii_and_arabic_indic mixed_digits_name).
  - intros c v. unfold ascii_and_arabic_indic.
    destruct ((48 <=? c) && (c <=? 57))%N eqn:E1.
    + apply andb_true_iff in E1. destruct E1 as [L U].
      apply N.leb_le in L, U. intro H. inversion H. lia.
    + destruct ((1632 <=? c) && (c <=? 1641))%N eqn:E2; [|discriminate].
      apply andb_true_iff in E2. destruct E2 as [L U].
      apply N.leb_le in L, U. intro H. inversion H. lia.
  - vm_compute. reflexivity.
Defined.

(** X18.  Every row of the drift table pairs a forecast issued on some day
    with one issued exactly one day later for the same valid time: the two
    issue dates are never equal, neither surf value is missing, the error is
    the later value minus the earlier one, and the hour is the UTC hour of
    the valid time, between 0 and 23. *)
Theorem drift_rows_are_next_day_pairs (df : list forecast_row) (p : drift_pair)
    (Hin : In p (compute_24h_forecast_drift df)) :
  exists d t,
    issue_date_x p = Some d /\ issue_date_y p = Some (d + one_day)
    /\ next_issue_date p = Some (d + one_day)
    /\ issue_date_x p <> issue_date_y p
    /\ dp_valid_time p = Some t
    /\ hour p = Some ((t / one_hour) mod 24) /\ 0 <= (t / one_hour) mod 24 < 24
    /\ PrimFloat.is_nan (surf_mid_D p) = false
    /\ PrimFloat.is_nan (surf_mid_Dplus1 p) = false
    /\ error p = PrimFloat.sub (surf_mid_Dplus1 p) (surf_mid_D p)
    /\ abs_error p = PrimFloat.abs (error p).
Proof.
  rewrite compute_as_cands in Hin. apply in_map_iff in Hin.
  destruct Hin as [[[i a] [k b]] [Hp Hc]]. apply in_cands in Hc. cbn [fst snd] in Hc.
  destruct Hc as [Ha [Hb Hm]]. apply in_kept in Ha, Hb.
  destruct Ha as [_ Na], Hb as [_ Nb]. apply matches_consecutive in Hm.
  destruct Hm as [Hd Ht]. unfold notna_row in Na, Nb.
  rewrite !andb_true_iff, negb_true_iff in Na, Nb.
  destruct Na as [[Na1 Na2] Na3], Nb as [[Nb1 Nb2] Nb3].
  destruct a as [[d|] [t|] sa]; try discriminate. cbn [issue_date valid_time surf_mid] in *.
  exists d, t. subst p. unfold pair_at, merged_row, make_left.
  cbn [fst snd issue_date valid_time surf_mid issue_date_x issue_date_y next_issue_date
       dp_valid_time hour surf_mid_D surf_mid_Dplus1 error abs_error l_issue_date
       l_valid_time l_surf_mid_D l_next_issue_date add_timedelta option_map dt_hour].
  rewrite Hd. cbn [add_timedelta option_map].
  repeat (split; [first [reflexivity | assumption]|]).
  split.
  - intro E. inversion E. unfold one_day in *. lia.
  - repeat (split; [first [reflexivity | assumption]|]).
    split; [apply Z.mod_pos_bound; lia|].
    repeat (split; [first [reflexivity | assumption]|]). reflexivity.
Qed.

Lemma drift_rows_are_next_day_pairs_witness :
  exists d t,
    let p := mk_pair (ts 1735689600) (ts 1735797600) 3.0%float (ts 1735776000)
               (ts 1735776000) 3.5%float 0.5%float 0.5%float (Some 6) in
    issue_date_x p = Some d /\ issue_date_y p = Some (d + one_day)
    /\ next_issue_date p = Some (d + one_day)
    /\ issue_date_x p <> issue_date_y p
    /\ dp_valid_time p = Some t
    /\ hour p = Some ((t / one_hour) mod 24) /\ 0 <= (t / one_hour) mod 24 < 24
    /\ PrimFloat.is_nan (surf_mid_D p) = false
    /\ PrimFloat.is_nan (surf_mid_Dplus1 p) = false
    /\ error p = PrimFloat.sub (surf_mid_Dplus1 p) (surf_mid_D p)
    /\ abs_error p = PrimFloat.abs (error p).
Proof.
  apply (drift_rows_are_next_day_pairs spec_rows_consecutive). now left.
Defined.

Lemma Permutation_filter_bool {A} (f : A -> bool) l l' :
  Permutation l l' -> Permutation (filter f l) (filter f l').
Proof.
  induction 1 as [| x l l' _ IH | x y l | l l' l'' _ IH1 _ IH2]; cbn [filter].
  - constructor.
  - destruct (f x); [now constructor | exact IH].
  - destruct (f x), (f y); try apply Permutation_refl. apply perm_swap.
  - eapply Permutation_trans; eassumption.
Qed.

Lemma Permutation_flat_map_pointwise {A B} (f g : A -> list B) l :
  (forall a, Permutation (f a) (g a)) -> Permutation (flat_map f l) (flat_map g l).
Proof.
  intro H. induction l as [|a l IH]; cbn [flat_map]; [constructor|].
  apply Permutation_app; [apply H | exact IH].
Qed.

(** X19.  The drift table does not depend on the order of the input rows:
    permuting the dataset (for instance reading the files in another order)
    permutes the rows of the result and changes nothing else. *)
Theorem drift_is_order_independent (df df' : list forecast_row)
    (Hperm : Permutation df df') :
  Permutation (compute_24h_forecast_drift df) (compute_24h_forecast_drift df').
Proof.
  unfold compute_24h_forecast_drift, merge_inner.
  assert (Hbase : Permutation (dropna df) (dropna df'))
    by now apply Permutation_filter_bool.
  apply Permutation_map.
  eapply Permutation_trans.
  - apply Permutation_flat_map. apply Permutation_map. exact Hbase.
  - apply Permutation_flat_map_pointwise. intro l.
    apply Permutation_map. now apply Permutation_filter_bool.
Qed.

Lemma drift_is_order_independent_witness :
  Permutation (compute_24h_forecast_drift spec_rows_consecutive)
              (compute_24h_forecast_drift (rev spec_rows_consecutive)).
Proof.
  apply (drift_is_order_independent spec_rows_consecutive (rev spec_rows_consecutive)).
  apply Permutation_rev.
Defined.
